(** * The Bitcoin price engine of main.py: fetch, retry, normalise, aggregate

    A shallow embedding of the price endpoints of [main.py]
    ([parse_crypto_response], [fetch_source], [get_bitcoin_all_sources],
    [get_bitcoin_from_source]) and the properties of their results.

    - JSON payloads and the records the endpoints build are Python values
      ([pyval]); a [dict] is an association list in insertion order.
    - A Python [float] is an IEEE 754 binary64 number, taken from the
      Standard Library's [SpecFloat] (precision 53, [emax] 1024).
    - Exceptions are explicit: [py A] is a returned value or a raised
      exception, [io A] adds the trace of the awaits made on the way (HTTP
      requests and sleeps).
    - Everything the process reads from outside (the configured API key,
      the upstream replies, the clock, the text of an exception, which
      units of work are still running at the global deadline) is a field
      of [Env].
    - An endpoint's answer is the status and the content it hands to
      [JSONResponse], which renders the content when it is built and
      raises [ValueError] on a float that JSON cannot hold and
      [UnicodeEncodeError] on a string that UTF-8 cannot (a lone
      surrogate).
    - The other endpoints of [main.py] ([root], the weather handlers) are
      embedded the same way over [WeatherEnv].
    - The handlers of the desktop client ([gui_app.py]) are functions on
      the state of its widgets ([Window]): the labels, the rows of the
      price table and the message boxes shown. *)

From Stdlib Require Import ZArith List String Ascii Bool Lia.
From Stdlib Require Import Floats.SpecFloat DecimalString.
Import ListNotations.

Local Open Scope string_scope.
Local Open Scope Z_scope.

(** ** Python floats *)

Module Float64.

Definition prec : Z := 53.
Definition emax : Z := 1024.

Definition float := spec_float.

Definition fadd : float -> float -> float := SFadd prec emax.
Definition fsub : float -> float -> float := SFsub prec emax.
Definition fdiv : float -> float -> float := SFdiv prec emax.

Definition is_zero (f : float) : bool :=
  match f with S754_zero _ => true | _ => false end.

Definition is_infinite (f : float) : bool :=
  match f with S754_infinity _ => true | _ => false end.

Definition is_finite (f : float) : bool :=
  match f with S754_zero _ | S754_finite _ _ _ => true | _ => false end.

(** The integer [z] rounded to the nearest float, ties to even. *)
Definition of_Z (z : Z) : float := binary_normalize prec emax z 0 false.

(** [m / d] for positive integers, rounded once. *)
Definition of_ratio (neg : bool) (m d : Z) : float :=
  let '(q, e, l) := SFdiv_core_binary prec emax m 0 d 0 in
  binary_round_aux prec emax neg q e l.

(** The decimal [(-1)^neg * m * 10^e10] rounded to the nearest float;
    [ndigits] bounds the number of decimal digits of [m].  Beyond the
    range of binary64 the result is an infinity or a zero without the
    power of ten being built. *)
Definition of_decimal (neg : bool) (m : Z) (ndigits : Z) (e10 : Z) : float :=
  if m =? 0 then S754_zero neg
  else if 400 <? e10 then S754_infinity neg
  else if e10 <? - (ndigits + 400) then S754_zero neg
  else if 0 <=? e10 then binary_normalize prec emax ((if neg then - m else m) * 10 ^ e10) 0 false
  else of_ratio neg m (10 ^ (- e10)).

(** *** [float(str)] *)

(** The spaces that are stripped: tab to carriage return, and space. *)
Definition is_space (c : ascii) : bool :=
  let n := nat_of_ascii c in
  ((9 <=? n) && (n <=? 13) || (n =? 32))%nat.

Definition digit_of (c : ascii) : option Z :=
  let n := Z.of_nat (nat_of_ascii c) in
  if (48 <=? n) && (n <=? 57) then Some (n - 48) else None.

Definition is_digit (c : ascii) : bool :=
  match digit_of c with Some _ => true | None => false end.

Definition lower (c : ascii) : ascii :=
  let n := nat_of_ascii c in
  if ((65 <=? n) && (n <=? 90))%nat then ascii_of_nat (n + 32) else c.

Fixpoint lstrip (s : list ascii) : list ascii :=
  match s with
  | c :: r => if is_space c then lstrip r else s
  | [] => []
  end.

Definition strip (s : list ascii) : list ascii :=
  rev (lstrip (rev (lstrip s))).

(** Digit grouping: an underscore stands between two digits, and is
    dropped; anywhere else it makes the literal invalid. *)
Fixpoint drop_underscores (prev_digit : bool) (s : list ascii) : option (list ascii) :=
  match s with
  | [] => Some []
  | c :: r =>
      if Ascii.eqb c "_"%char then
        match r with
        | d :: _ =>
            if prev_digit && is_digit d then drop_underscores false r else None
        | [] => None
        end
      else
        match drop_underscores (is_digit c) r with
        | Some r' => Some (c :: r')
        | None => None
        end
  end.

(** The leading run of digits: its value, its length, and the rest. *)
Fixpoint digits (acc : Z) (n : Z) (s : list ascii) : Z * Z * list ascii :=
  match s with
  | c :: r =>
      match digit_of c with
      | Some d => digits (10 * acc + d) (n + 1) r
      | None => (acc, n, s)
      end
  | [] => (acc, n, [])
  end.

Definition sign (s : list ascii) : bool * list ascii :=
  match s with
  | c :: r =>
      if Ascii.eqb c "-"%char then (true, r)
      else if Ascii.eqb c "+"%char then (false, r)
      else (false, s)
  | [] => (false, [])
  end.

Definition exponent (s : list ascii) : option Z :=
  match s with
  | [] => Some 0
  | c :: r =>
      if Ascii.eqb (lower c) "e"%char then
        let '(neg, r1) := sign r in
        match digits 0 0 r1 with
        | (v, n, []) => if 0 <? n then Some (if neg then - v else v) else None
        | _ => None
        end
      else None
  end.

Definition literal (neg : bool) (s : list ascii) : option float :=
  let '(ip, ni, r1) := digits 0 0 s in
  let '(m, nf, r2) :=
    match r1 with
    | c :: r =>
        if Ascii.eqb c "."%char then
          let '(m, nf, r2) := digits ip 0 r in (m, nf, r2)
        else (ip, 0, r1)
    | [] => (ip, 0, [])
    end in
  if 0 <? ni + nf then
    match exponent r2 with
    | Some e => Some (of_decimal neg m (ni + nf) (e - nf))
    | None => None
    end
  else None.

Definition of_chars (s : list ascii) : option float :=
  let '(neg, r) := sign (strip s) in
  let word := string_of_list_ascii (map lower r) in
  if (word =? "inf")%string || (word =? "infinity")%string then Some (S754_infinity neg)
  else if (word =? "nan")%string then Some S754_nan
  else
    match drop_underscores false r with
    | Some r' => literal neg r'
    | None => None
    end.

(** *** Beyond ASCII

    A string is held as its UTF-8 bytes.  [float()] reads it by
    characters and first rewrites it in ASCII: a space of Unicode
    becomes a space, a decimal digit of any script the ASCII digit of
    its value; any other character beyond ASCII makes the literal
    invalid.  The tables are those of Unicode 14.0. *)

Definition continuation (c : ascii) : option Z :=
  let n := Z.of_nat (nat_of_ascii c) in
  if (128 <=? n) && (n <? 192) then Some (n - 128) else None.

(** The characters of a UTF-8 string, by their code points. *)
Fixpoint code_points (s : list ascii) : option (list Z) :=
  match s with
  | [] => Some []
  | a :: r =>
      let n := Z.of_nat (nat_of_ascii a) in
      if n <? 128 then option_map (cons n) (code_points r)
      else if n <? 192 then None
      else if n <? 224 then
        match r with
        | b :: r1 =>
            match continuation b with
            | Some x => option_map (cons ((n - 192) * 64 + x)) (code_points r1)
            | None => None
            end
        | [] => None
        end
      else if n <? 240 then
        match r with
        | b :: c :: r2 =>
            match continuation b, continuation c with
            | Some x, Some y =>
                option_map (cons (((n - 224) * 64 + x) * 64 + y)) (code_points r2)
            | _, _ => None
            end
        | _ => None
        end
      else
        match r with
        | b :: c :: d :: r3 =>
            match continuation b, continuation c, continuation d with
            | Some x, Some y, Some z =>
                option_map (cons ((((n - 240) * 64 + x) * 64 + y) * 64 + z))
                           (code_points r3)
            | _, _, _ => None
            end
        | _ => None
        end
  end.

(** The spaces beyond ASCII. *)
Definition is_unicode_space (c : Z) : bool :=
  (c =? 133) || (c =? 160) || (c =? 5760) || (8192 <=? c) && (c <=? 8202)
  || (c =? 8232) || (c =? 8233) || (c =? 8239) || (c =? 8287) || (c =? 12288).

(** The digit zero of each script with decimal digits; the nine others
    follow it. *)
Definition decimal_zeros : list Z :=
  [1632; 1776; 1984; 2406; 2534; 2662; 2790; 2918; 3046; 3174; 3302; 3430;
   3558; 3664; 3792; 3872; 4160; 4240; 6112; 6160; 6470; 6608; 6784; 6800;
   6992; 7088; 7232; 7248; 42528; 43216; 43264; 43472; 43504; 43600; 44016;
   65296; 66720; 68912; 69734; 69872; 69942; 70096; 70384; 70736; 70864;
   71248; 71360; 71472; 71904; 72016; 72784; 73040; 73120; 92768; 92864;
   93008; 120782; 120792; 120802; 120812; 120822; 123200; 123632; 125264;
   130032].

Definition decimal_value (c : Z) : option Z :=
  match find (fun z => (z <=? c) && (c <? z + 10)) decimal_zeros with
  | Some z => Some (c - z)
  | None => None
  end.

Definition to_ascii (c : Z) : option ascii :=
  if c <? 127 then Some (ascii_of_nat (Z.to_nat c))
  else if is_unicode_space c then Some " "%char
  else match decimal_value c with
       | Some d => Some (ascii_of_nat (Z.to_nat (48 + d)))
       | None => None
       end.

Fixpoint transform (l : list Z) : option (list ascii) :=
  match l with
  | [] => Some []
  | c :: r =>
      match to_ascii c, transform r with
      | Some a, Some r' => Some (a :: r')
      | _, _ => None
      end
  end.

(** [float(s)] for a string [s]; [None] is Python's [ValueError]. *)
Definition of_string (s : string) : option float :=
  match code_points (list_ascii_of_string s) with
  | Some l =>
      match transform l with
      | Some a => of_chars a
      | None => None
      end
  | None => None
  end.

End Float64.

Abbreviation float := Float64.float.

(** ** Python values and exceptions *)

#[warnings="-register-all"]
Inductive pyval : Type :=
| PNone
| PBool (b : bool)
| PInt (z : Z)
| PFloat (f : float)
| PStr (s : string)
| PList (l : list pyval)
| PDict (d : list (string * pyval)).

Definition dict := list (string * pyval).

Fixpoint dict_lookup (k : string) (d : dict) : option pyval :=
  match d with
  | [] => None
  | (k', v) :: r => if (k' =? k)%string then Some v else dict_lookup k r
  end.

Definition dict_has (k : string) (d : dict) : bool :=
  match dict_lookup k d with Some _ => true | None => false end.

(** [d[k] = v]: an existing key keeps its place, a new one goes last. *)
Fixpoint dict_set (k : string) (v : pyval) (d : dict) : dict :=
  match d with
  | [] => [(k, v)]
  | (k', v') :: r =>
      if (k' =? k)%string then (k', v) :: r else (k', v') :: dict_set k v r
  end.

Definition dict_keys (d : dict) : list string := map fst d.
Definition dict_values (d : dict) : list pyval := map snd d.

Inductive exn : Type :=
| KeyError (key : pyval)
| IndexError
| TypeError
| ValueError
| AttributeError
| OverflowError
| ZeroDivisionError
| JSONDecodeError                       (* json.JSONDecodeError, a ValueError *)
| UnicodeEncodeError                    (* str.encode on a lone surrogate, a ValueError *)
| HttpxTimeoutException                 (* httpx.TimeoutException and subclasses *)
| HttpxHTTPStatusError (status : Z)     (* raised by httpx raise_for_status *)
| HttpxError (msg : string)             (* any other httpx failure *)
| RequestsTimeout                       (* requests.exceptions.Timeout *)
| RequestsHTTPError (status : Z)        (* raised by requests raise_for_status *)
| RequestsJSONDecodeError               (* requests.exceptions.JSONDecodeError, raised by
                                           [response.json()]: a RequestException *)
| RequestsError (msg : string)          (* any other RequestException *)
| HTTPException (status_code : Z) (detail : string)   (* fastapi *)
| AsyncioTimeoutError.

(** [except httpx.TimeoutException] *)
Definition is_httpx_timeout (e : exn) : bool :=
  match e with HttpxTimeoutException => true | _ => false end.

(** [except requests.exceptions.Timeout] *)
Definition is_requests_timeout (e : exn) : bool :=
  match e with RequestsTimeout => true | _ => false end.

(** [except requests.exceptions.RequestException] *)
Definition is_request_exception (e : exn) : bool :=
  match e with
  | RequestsTimeout | RequestsHTTPError _ | RequestsJSONDecodeError
  | RequestsError _ => true
  | _ => false
  end.

(** [except HTTPException] *)
Definition is_http_exception (e : exn) : bool :=
  match e with HTTPException _ _ => true | _ => false end.

Inductive py (A : Type) : Type :=
| Ret (a : A)
| Raise (e : exn).
Arguments Ret {A} a.
Arguments Raise {A} e.

Definition py_bind {A B} (c : py A) (k : A -> py B) : py B :=
  match c with
  | Ret a => k a
  | Raise e => Raise e
  end.

Definition py_try {A} (c : py A) (handler : exn -> py A) : py A :=
  match c with
  | Ret a => Ret a
  | Raise e => handler e
  end.

Declare Scope py_scope.
Delimit Scope py_scope with py.
Notation "x <- c ;; k" := (py_bind c (fun x => k))
  (at level 61, c at next level, right associativity) : py_scope.

(** *** Operations on values *)

(** [v[k]] for a string [k] *)
Definition getitem (v : pyval) (k : string) : py pyval :=
  match v with
  | PDict d =>
      match dict_lookup k d with
      | Some x => Ret x
      | None => Raise (KeyError (PStr k))
      end
  | _ => Raise TypeError
  end.

(** The characters of a string held as UTF-8 bytes: a byte 10xxxxxx
    continues the character before it. *)
Definition continues (c : ascii) : bool :=
  ((128 <=? nat_of_ascii c) && (nat_of_ascii c <? 192))%nat.

Fixpoint characters (s : string) : list string :=
  match s with
  | EmptyString => []
  | String a r =>
      match r with
      | EmptyString => [String a EmptyString]
      | String b _ =>
          if continues b then
            match characters r with
            | x :: l => String a x :: l
            | [] => [String a EmptyString]
            end
          else String a EmptyString :: characters r
      end
  end.

Definition char_at (s : string) (n : nat) : option pyval :=
  match nth_error (characters s) n with
  | Some c => Some (PStr c)
  | None => None
  end.

(** [v[i]] for an integer [i] *)
Definition getindex (v : pyval) (i : Z) : py pyval :=
  match v with
  | PList l =>
      let j := if i <? 0 then i + Z.of_nat (List.length l) else i in
      if j <? 0 then Raise IndexError
      else match nth_error l (Z.to_nat j) with
           | Some x => Ret x
           | None => Raise IndexError
           end
  | PStr s =>
      let j := if i <? 0 then i + Z.of_nat (List.length (characters s)) else i in
      if j <? 0 then Raise IndexError
      else match char_at s (Z.to_nat j) with
           | Some x => Ret x
           | None => Raise IndexError
           end
  | PDict _ => Raise (KeyError (PInt i))
  | _ => Raise TypeError
  end.

(** [v == k] for a string [k] *)
Definition eq_str (v : pyval) (k : string) : bool :=
  match v with
  | PStr s => (s =? k)%string
  | _ => false
  end.

Fixpoint is_substring (k s : string) : bool :=
  if String.prefix k s then true
  else match s with
       | EmptyString => false
       | String _ r => is_substring k r
       end.

(** [k in v] for a string [k] *)
Definition contains (k : string) (v : pyval) : py bool :=
  match v with
  | PDict d => Ret (dict_has k d)
  | PList l => Ret (existsb (fun x => eq_str x k) l)
  | PStr s => Ret (is_substring k s)
  | _ => Raise TypeError
  end.

(** [v.get(k, default)] *)
Definition get (v : pyval) (k : string) (default : pyval) : py pyval :=
  match v with
  | PDict d =>
      match dict_lookup k d with
      | Some x => Ret x
      | None => Ret default
      end
  | _ => Raise AttributeError
  end.

(** [float(z)] for an integer *)
Definition float_of_int (z : Z) : py float :=
  let f := Float64.of_Z z in
  if Float64.is_infinite f then Raise OverflowError else Ret f.

(** [float(v)] *)
Definition py_float (v : pyval) : py float :=
  match v with
  | PFloat f => Ret f
  | PInt z => float_of_int z
  | PBool b => Ret (Float64.of_Z (if b then 1 else 0))
  | PStr s =>
      match Float64.of_string s with
      | Some f => Ret f
      | None => Raise ValueError
      end
  | _ => Raise TypeError
  end.

(** Truth value of [v] *)
Definition truthy (v : pyval) : bool :=
  match v with
  | PNone => false
  | PBool b => b
  | PInt z => negb (z =? 0)
  | PFloat f => negb (Float64.is_zero f)
  | PStr s => negb (s =? "")%string
  | PList l => match l with [] => false | _ => true end
  | PDict d => match d with [] => false | _ => true end
  end.

(** The operands of [+], [-] and [/] as numbers: [bool] is an [int]. *)
Inductive number : Type :=
| NInt (z : Z)
| NFloat (f : float).

Definition as_number (v : pyval) : py number :=
  match v with
  | PInt z => Ret (NInt z)
  | PBool b => Ret (NInt (if b then 1 else 0))
  | PFloat f => Ret (NFloat f)
  | _ => Raise TypeError
  end.

Definition to_float (n : number) : py float :=
  match n with
  | NInt z => float_of_int z
  | NFloat f => Ret f
  end.

Definition arith (fi : Z -> Z -> Z) (ff : float -> float -> float)
    (a b : pyval) : py pyval :=
  (x <- as_number a ;;
   y <- as_number b ;;
   match x, y with
   | NInt m, NInt n => Ret (PInt (fi m n))
   | _, _ =>
       f <- to_float x ;;
       g <- to_float y ;;
       Ret (PFloat (ff f g))
   end)%py.

Definition py_add : pyval -> pyval -> py pyval := arith Z.add Float64.fadd.
Definition py_sub : pyval -> pyval -> py pyval := arith Z.sub Float64.fsub.

(** [a / b]: true division, a float also for two integers. *)
Definition py_truediv (a b : pyval) : py pyval :=
  (x <- as_number a ;;
   y <- as_number b ;;
   match x, y with
   | NInt m, NInt n =>
       if n =? 0 then Raise ZeroDivisionError
       else if m =? 0 then Ret (PFloat (S754_zero (n <? 0)))
       else
         let f := Float64.of_ratio (xorb (m <? 0) (n <? 0)) (Z.abs m) (Z.abs n) in
         if Float64.is_infinite f then Raise OverflowError else Ret (PFloat f)
   | _, _ =>
       f <- to_float x ;;
       g <- to_float y ;;
       if Float64.is_zero g then Raise ZeroDivisionError
       else Ret (PFloat (Float64.fdiv f g))
   end)%py.

(** *** Strings that can be sent

    A string is held as its UTF-8 bytes.  A lone surrogate, which
    [json.loads] lets in from an escape such as "\ud800", has no UTF-8
    form; it is held as the three bytes ED A0..BF 80..BF that
    [surrogatepass] would write.  [encodable s]: [s.encode("utf-8")] goes
    through, [s] holds no surrogate. *)
Definition surrogate_start (a b : ascii) : bool :=
  ((nat_of_ascii a =? 237) && (160 <=? nat_of_ascii b))%nat.

Fixpoint encodable (s : string) : bool :=
  match s with
  | EmptyString => true
  | String a r =>
      match r with
      | EmptyString => true
      | String b _ => negb (surrogate_start a b)
      end && encodable r
  end.

(** ** The environment of a request *)

Record response : Type := {
  status_code : Z;
  json : py pyval            (* what [response.json()] returns or raises *)
}.

Record Env : Type := {
  (** [os.getenv("COINMARKETCAP_API_KEY")] *)
  COINMARKETCAP_API_KEY : option string;
  (** [str(e)] *)
  str_exn : exn -> string;
  (** the text of an exception holds no surrogate: where it quotes a
      value it quotes its [repr], which escapes them *)
  str_exn_text : forall e, encodable (str_exn e) = true;
  (** [datetime.now().strftime("%Y-%m-%d %H:%M:%S")] *)
  now : string;
  (** digits, dashes, colons and a space *)
  now_text : encodable now = true;
  (** what the [n]-th [client.get] on a URL comes to (httpx) *)
  httpx_answer : string -> nat -> py response;
  (** what the [n]-th [requests.get] on a URL comes to *)
  requests_answer : string -> nat -> py response;
  (** the source's unit of work has not finished when the 60 seconds of
      [asyncio.wait_for] are over *)
  unfinished : string -> bool
}.

(** [not COINMARKETCAP_API_KEY] *)
Definition no_api_key (w : Env) : bool :=
  match COINMARKETCAP_API_KEY w with
  | None => true
  | Some k => (k =? "")%string
  end.

Definition api_key_value (w : Env) : string :=
  match COINMARKETCAP_API_KEY w with
  | None => ""
  | Some k => k
  end.

(** ** parse_crypto_response *)

Definition error_record (msg : string) : dict := [("error", PStr msg)].

(** [v[k1][k2]...] *)
Fixpoint path (v : pyval) (keys : list string) : py pyval :=
  match keys with
  | [] => Ret v
  | k :: r => (x <- getitem v k ;; path x r)%py
  end.

(** [float(v[0][0]) if v else 0] *)
Definition best_price (v : pyval) : py pyval :=
  if truthy v then
    (row <- getindex v 0 ;;
     p <- getindex row 0 ;;
     f <- py_float p ;;
     Ret (PFloat f))%py
  else Ret (PInt 0).

(** [(best_bid + best_ask) / 2 if best_bid and best_ask else last_trade_price] *)
Definition mid_price_of (best_bid best_ask last_trade_price : pyval) : py pyval :=
  if truthy best_bid && truthy best_ask then
    (s <- py_add best_bid best_ask ;; py_truediv s (PInt 2))%py
  else Ret last_trade_price.

(** [best_ask - best_bid if best_bid and best_ask else 0] *)
Definition spread_of (best_bid best_ask : pyval) : py pyval :=
  if truthy best_bid && truthy best_ask then py_sub best_ask best_bid
  else Ret (PInt 0).

Definition parse_body (source : string) (data : pyval) : py dict :=
  (if (source =? "coinbase")%string then
     u <- path data ["data"; "rates"; "USD"] ;;
     usd <- py_float u ;;
     e <- path data ["data"; "rates"; "EUR"] ;;
     eur <- py_float e ;;
     g <- path data ["data"; "rates"; "GBP"] ;;
     gbp <- py_float g ;;
     Ret [("usd", PFloat usd); ("eur", PFloat eur); ("gbp", PFloat gbp)]
   else if (source =? "blockchain")%string then
     usd <- path data ["USD"; "last"] ;;
     eur <- path data ["EUR"; "last"] ;;
     gbp <- path data ["GBP"; "last"] ;;
     Ret [("usd", usd); ("eur", eur); ("gbp", gbp)]
   else if (source =? "coinmarketcap")%string then
     btc_data <- path data ["data"; "BTC"; "quote"; "USD"] ;;
     price <- getitem btc_data "price" ;;
     change <- getitem btc_data "percent_change_24h" ;;
     cap <- getitem btc_data "market_cap" ;;
     volume <- getitem btc_data "volume_24h" ;;
     Ret [("usd", price); ("24h_change", change); ("market_cap", cap);
          ("volume_24h", volume)]
   else if (source =? "binance")%string then
     p <- getitem data "price" ;;
     usd <- py_float p ;;
     Ret [("usd", PFloat usd)]
   else if (source =? "kraken")%string then
     has_result <- contains "result" data ;;
     has_pair <-
       (if has_result : bool then
          r <- getitem data "result" ;; contains "XXBTZUSD" r
        else Ret false) ;;
     if has_pair : bool then
       c <- path data ["result"; "XXBTZUSD"; "c"] ;;
       p <- getindex c 0 ;;
       usd <- py_float p ;;
       Ret [("usd", PFloat usd)]
     else Ret (error_record "Unexpected Kraken response format")
   else if (source =? "nobitex")%string then
     status <- get data "status" PNone ;;
     if eq_str status "ok" then
       l <- get data "lastTradePrice" (PInt 0) ;;
       last_trade_price <- py_float l ;;
       bids <- get data "bids" (PList []) ;;
       asks <- get data "asks" (PList []) ;;
       best_bid <- best_price bids ;;
       best_ask <- best_price asks ;;
       mid_price <- mid_price_of best_bid best_ask (PFloat last_trade_price) ;;
       Ret [("usd", mid_price); ("last_trade_price", PFloat last_trade_price);
            ("best_bid", best_bid); ("best_ask", best_ask)]
     else Ret (error_record "Invalid Nobitex response")
   else Ret [])%py.

Definition parse_crypto_response (w : Env) (source : string) (data : pyval) : py dict :=
  py_try (parse_body source data)
         (fun e => Ret (error_record ("Parse error: " ++ str_exn w e))).

(** ** Awaits and their trace *)

Inductive event : Type :=
| EGet (url : string) (headers params : list (string * string)) (timeout : Z)
| ESleep (seconds : Z).

Definition io (A : Type) : Type := (list event * py A)%type.

Definition io_ret {A} (a : A) : io A := ([], Ret a).
Definition io_raise {A} (e : exn) : io A := ([], Raise e).
Definition lift {A} (c : py A) : io A := ([], c).

Definition io_bind {A B} (c : io A) (k : A -> io B) : io B :=
  match c with
  | (t, Ret a) => let '(t', r) := k a in ((t ++ t')%list, r)
  | (t, Raise e) => (t, Raise e)
  end.

Definition io_try {A} (c : io A) (handler : exn -> io A) : io A :=
  match c with
  | (t, Ret a) => (t, Ret a)
  | (t, Raise e) => let '(t', r) := handler e in ((t ++ t')%list, r)
  end.

Declare Scope io_scope.
Delimit Scope io_scope with io.
Notation "x <- c ;; k" := (io_bind c (fun x => k))
  (at level 61, c at next level, right associativity) : io_scope.

(** [await client.get(url, headers=..., params=..., timeout=...)] *)
Definition client_get (w : Env) (url : string) (headers params : list (string * string))
    (timeout : Z) (n : nat) : io response :=
  ([EGet url headers params timeout], httpx_answer w url n).

(** [requests.get(url, headers=..., params=..., timeout=...)] *)
Definition requests_get (w : Env) (url : string) (headers params : list (string * string))
    (timeout : Z) (n : nat) : io response :=
  ([EGet url headers params timeout], requests_answer w url n).

(** [await asyncio.sleep(seconds)] *)
Definition sleep (seconds : Z) : io unit := ([ESleep seconds], Ret tt).

(** httpx: [raise_for_status] raises on every status outside 200..299. *)
Definition httpx_raise_for_status (r : response) : py unit :=
  if (200 <=? status_code r) && (status_code r <? 300) then Ret tt
  else Raise (HttpxHTTPStatusError (status_code r)).

(** requests: [raise_for_status] raises on the statuses 400..599. *)
Definition requests_raise_for_status (r : response) : py unit :=
  if (400 <=? status_code r) && (status_code r <? 600)
  then Raise (RequestsHTTPError (status_code r))
  else Ret tt.

(** The outcome of one pass through the body of a [for] loop. *)
Inductive ctl (A : Type) : Type :=
| Return (a : A)
| Continue.
Arguments Return {A} a.
Arguments Continue {A}.

(** [for attempt in attempts: body]: a loop that runs out returns [None]. *)
Fixpoint for_attempts {A} (body : nat -> io (ctl A)) (attempts : list nat) : io (option A) :=
  match attempts with
  | [] => io_ret None
  | attempt :: rest =>
      (c <- body attempt ;;
       match c with
       | Return v => io_ret (Some v)
       | Continue => for_attempts body rest
       end)%io
  end.

Definition range (n : nat) : list nat := seq 0 n.

Definition str_of_Z (z : Z) : string := NilZero.string_of_int (Z.to_int z).

(** ** The registry *)

Record Config : Type := {
  url : string;
  requires_key : bool;
  timeout : Z
}.

Definition CRYPTO_APIS : list (string * Config) :=
  [ ("coinbase",
     {| url := "https://api.coinbase.com/v2/exchange-rates?currency=BTC";
        requires_key := false; timeout := 8 |});
    ("blockchain",
     {| url := "https://blockchain.info/ticker";
        requires_key := false; timeout := 8 |});
    ("coinmarketcap",
     {| url := "https://pro-api.coinmarketcap.com/v1/cryptocurrency/quotes/latest";
        requires_key := true; timeout := 8 |});
    ("binance",
     {| url := "https://api.binance.com/api/v3/ticker/price?symbol=BTCUSDT";
        requires_key := false; timeout := 5 |});
    ("kraken",
     {| url := "https://api.kraken.com/0/public/Ticker?pair=XBTUSD";
        requires_key := false; timeout := 8 |});
    ("nobitex",
     {| url := "https://apiv2.nobitex.ir/v3/orderbook/BTCUSDT";
        requires_key := false; timeout := 8 |}) ].

Fixpoint registry_lookup (source : string) (apis : list (string * Config)) : option Config :=
  match apis with
  | [] => None
  | (s, c) :: r => if (s =? source)%string then Some c else registry_lookup source r
  end.

Definition registered : list string := map fst CRYPTO_APIS.

(** [headers] and [params] of the retried requests: empty, but for
    coinmarketcap; its [convert] parameter differs between the endpoints. *)
Definition request_headers (w : Env) (source : string) : list (string * string) :=
  if (source =? "coinmarketcap")%string then
    [("X-CMC_PRO_API_KEY", api_key_value w); ("Accept", "application/json")]
  else [].

Definition request_params (convert : string) (source : string) : list (string * string) :=
  if (source =? "coinmarketcap")%string then [("symbol", "BTC"); ("convert", convert)]
  else [].

(** ** GET /bitcoin/all *)

(** One pass of the retry loop of [fetch_source]. *)
Definition fetch_attempt (w : Env) (source : string) (config : Config)
    (headers params : list (string * string)) (attempt : nat) : io (ctl (string * dict)) :=
  io_try
    (response <- client_get w (url config) headers params (timeout config) attempt ;;
     if status_code response =? 200 then
       data <- lift (json response) ;;
       result <- lift (parse_crypto_response w source data) ;;
       io_ret (Return (source, result))
     else if (attempt =? 0)%nat then
       _ <- sleep 1 ;;
       io_ret Continue
     else
       io_ret (Return (source, error_record ("HTTP " ++ str_of_Z (status_code response)))))%io
    (fun e =>
       if is_httpx_timeout e then
         if (attempt =? 0)%nat then (_ <- sleep 1 ;; io_ret Continue)%io
         else io_ret (Return (source, error_record "Timeout"))
       else
         if (attempt =? 0)%nat then (_ <- sleep 1 ;; io_ret Continue)%io
         else io_ret (Return (source, error_record (str_exn w e)))).

(** The single request of the coinbase and binance branches. *)
Definition fetch_once (w : Env) (source label : string) (config : Config) : io (option (string * dict)) :=
  io_try
    (response <- client_get w (url config) [] [] (timeout config) 0 ;;
     _ <- lift (httpx_raise_for_status response) ;;
     data <- lift (json response) ;;
     result <- lift (parse_crypto_response w source data) ;;
     io_ret (Some (source, result)))%io
    (fun e => io_ret (Some (source, error_record (label ++ " error: " ++ str_exn w e)))).

(** The unit of work of one source; [None] is a coroutine that ends
    without a [return]. *)
Definition fetch_source (w : Env) (source : string) (config : Config) : io (option (string * dict)) :=
  io_try
    (if (source =? "coinmarketcap")%string && no_api_key w then
       io_ret (Some (source, error_record "API key required but not configured"))
     else if (source =? "coinbase")%string then
       fetch_once w source "Coinbase" config
     else if (source =? "binance")%string then
       fetch_once w source "Binance" config
     else
       for_attempts
         (fetch_attempt w source config (request_headers w source)
            (request_params "USD" source))
         (range 2))
    (fun e => io_ret (Some (source, error_record (str_exn w e)))).

Definition trace_of {A} (c : io A) : list event := fst c.
Definition outcome_of {A} (c : io A) : py A := snd c.

(** A unit of work is in flight at the deadline when it had something to
    await and the environment did not let it finish. *)
Definition in_flight (w : Env) (sc : string * Config) : bool :=
  unfinished w (fst sc) &&
  match trace_of (fetch_source w (fst sc) (snd sc)) with
  | [] => false
  | _ => true
  end.

(** [asyncio.wait_for] around the [asyncio.gather] of the tasks, with
    [return_exceptions=True] and [timeout=60]:
    the outcomes in the order of the tasks, an exception being an outcome
    like another, or [TimeoutError] when a task is still in flight. *)
Definition wait_for_gather (w : Env) (apis : list (string * Config))
  : py (list (py (option (string * dict)))) :=
  if existsb (in_flight w) apis then Raise AsyncioTimeoutError
  else Ret (map (fun sc => outcome_of (fetch_source w (fst sc) (snd sc))) apis).

(** The loop over [completed]. *)
Definition collect (w : Env) (completed : list (py (option (string * dict)))) (results : dict) : dict :=
  fold_left
    (fun results result =>
       match result with
       | Ret (Some (source, data)) => dict_set source (PDict data) results
       | Ret None => dict_set "unknown" (PDict (error_record "None")) results
       | Raise e => dict_set "unknown" (PDict (error_record (str_exn w e))) results
       end)
    completed results.

Definition is_success (r : pyval) : bool :=
  match r with PDict d => negb (dict_has "error" d) | _ => false end.

Definition is_failure (r : pyval) : bool :=
  match r with PDict d => dict_has "error" d | _ => false end.

Definition count (p : pyval -> bool) (l : list pyval) : Z :=
  Z.of_nat (List.length (filter p l)).

Record reply : Type := {
  reply_status : Z;
  content : pyval
}.

(** [json.dumps(content, ensure_ascii=False, allow_nan=False)] goes
    through: no float of the content is a NaN or an infinity. *)
Fixpoint finite_floats (v : pyval) : bool :=
  match v with
  | PFloat f => Float64.is_finite f
  | PList l => forallb finite_floats l
  | PDict d => forallb (fun kv => finite_floats (snd kv)) d
  | _ => true
  end.

(** The text that [json.dumps] wrote can be encoded: no string and no key
    of the content holds a surrogate. *)
Fixpoint encodable_strings (v : pyval) : bool :=
  match v with
  | PStr s => encodable s
  | PList l => forallb encodable_strings l
  | PDict d => forallb (fun kv => encodable (fst kv) && encodable_strings (snd kv)) d
  | _ => true
  end.

(** The content can be rendered. *)
Definition json_compliant (v : pyval) : bool :=
  finite_floats v && encodable_strings v.

(** [JSONResponse(content=c)]: status 200; the content is rendered at
    once, [json.dumps(...).encode("utf-8")]: the [ValueError] of a float
    that JSON cannot hold comes first, the [UnicodeEncodeError] of a
    surrogate after it. *)
Definition JSONResponse (c : pyval) : py reply :=
  if json_compliant c then Ret {| reply_status := 200; content := c |}
  else if finite_floats c then Raise UnicodeEncodeError
  else Raise ValueError.

(** The answer of status 200 with the content [c]. *)
Definition answer_200 (c : pyval) : reply := {| reply_status := 200; content := c |}.

(** The content of the report on [results]. *)
Definition aggregate_report (w : Env) (results : dict) : pyval :=
  PDict
    [("bitcoin_prices", PDict results);
     ("timestamp", PStr (now w));
     ("successful_sources", PInt (count is_success (dict_values results)));
     ("failed_sources", PInt (count is_failure (dict_values results)))].

(** [results] as it stands when the report is built. *)
Definition all_results (w : Env) : py dict :=
  py_try
    (completed <- wait_for_gather w CRYPTO_APIS ;;
     Ret (collect w completed []))%py
    (fun e =>
       match e with
       | AsyncioTimeoutError => Ret [("error", PStr "Global timeout reached")]
       | _ => Raise e
       end).

Definition get_bitcoin_all_sources (w : Env) : py reply :=
  (results <- all_results w ;;
   JSONResponse (aggregate_report w results))%py.

(** ** GET /bitcoin/source/{source} *)

(** [repr] of a string without quote, backslash or control character, as
    the keys of the registry are. *)
Definition repr_str (s : string) : string := "'" ++ s ++ "'".

Fixpoint join (sep : string) (l : list string) : string :=
  match l with
  | [] => ""
  | [x] => x
  | x :: r => x ++ sep ++ join sep r
  end.

(** [str(list_of_strings)] *)
Definition str_of_list (l : list string) : string :=
  "[" ++ join ", " (map repr_str l) ++ "]".

(** The nobitex branch: one request, the order book read in place. *)
Definition nobitex_direct (w : Env) (api_config : Config) : io reply :=
  (response <- requests_get w "https://apiv2.nobitex.ir/v3/orderbook/BTCUSDT" [] []
                 (timeout api_config) 0 ;;
   _ <- lift (requests_raise_for_status response) ;;
   data <- lift (json response) ;;
   status <- lift (get data "status" PNone) ;;
   if eq_str status "ok" then
     l <- lift (get data "lastTradePrice" (PInt 0)) ;;
     last_trade_price <- lift (py_float l) ;;
     bids <- lift (get data "bids" (PList [])) ;;
     asks <- lift (get data "asks" (PList [])) ;;
     best_bid <- lift (best_price bids) ;;
     best_ask <- lift (best_price asks) ;;
     mid_price <- lift (mid_price_of best_bid best_ask (PFloat last_trade_price)) ;;
     spread <- lift (spread_of best_bid best_ask) ;;
     last_update <- lift (get data "lastUpdate" (PInt 0)) ;;
     lift (JSONResponse (PDict
       [("source", PStr "nobitex");
        ("usd", mid_price);
        ("last_trade_price", PFloat last_trade_price);
        ("best_bid", best_bid);
        ("best_ask", best_ask);
        ("spread", spread);
        ("last_update", last_update);
        ("timestamp", PStr (now w))]))
   else io_raise (HTTPException 500 "Invalid response from Nobitex"))%io.

(** What comes before the retry loop: an answer already made ([Return]),
    or nothing yet ([Continue]). *)
Definition prepare (w : Env) (source : string) (api_config : Config) : io (ctl reply) :=
  if (source =? "coinmarketcap")%string then
    if no_api_key w then
      io_raise (HTTPException 500
        "CoinMarketCap requires API key. Add COINMARKETCAP_API_KEY to .env")
    else io_ret Continue
  else if (source =? "nobitex")%string then
    (r <- nobitex_direct w api_config ;; io_ret (Return r))%io
  else io_ret Continue.

(** One pass of the retry loop of the single-source endpoint. *)
Definition source_attempt (w : Env) (source : string) (api_config : Config)
    (headers params : list (string * string)) (attempt : nat) : io (ctl reply) :=
  io_try
    (response <- requests_get w (url api_config) headers params (timeout api_config) attempt ;;
     _ <- lift (requests_raise_for_status response) ;;
     data <- lift (json response) ;;
     result <- lift (parse_crypto_response w source data) ;;
     let result := dict_set "source" (PStr source) result in
     let result := dict_set "timestamp" (PStr (now w)) result in
     r <- lift (JSONResponse (PDict result)) ;;
     io_ret (Return r))%io
    (fun e =>
       if is_requests_timeout e then
         if (attempt =? 0)%nat then io_ret Continue
         else io_raise (HTTPException 504
                ("Timeout while fetching from " ++ source ++
                 " after retries. The service might be slow or unavailable."))
       else if is_request_exception e then
         if (attempt =? 0)%nat then io_ret Continue
         else io_raise (HTTPException 503
                ("Network error while fetching from " ++ source ++ ": " ++ str_exn w e))
       else io_raise e).

(** The endpoint; [None] is a handler that ends without a [return]. *)
Definition get_bitcoin_from_source (w : Env) (source : string) : io (option reply) :=
  match registry_lookup source CRYPTO_APIS with
  | None =>
      io_raise (HTTPException 400
        ("Invalid source. Available sources: " ++ str_of_list registered))
  | Some api_config =>
      io_try
        (p <- prepare w source api_config ;;
         match p with
         | Return r => io_ret (Some r)
         | Continue =>
             for_attempts
               (source_attempt w source api_config (request_headers w source)
                  (request_params "USD,EUR,GBP" source))
               (range 2)
         end)%io
        (fun e =>
           if is_http_exception e then io_raise e
           else io_raise (HTTPException 500
                  ("Error fetching from " ++ source ++ ": " ++ str_exn w e)))
  end.

(** ** Reading traces and reports *)

Definition is_get (e : event) : bool :=
  match e with EGet _ _ _ _ => true | ESleep _ => false end.

(** The HTTP requests of a trace, in order. *)
Definition gets (t : list event) : list event := filter is_get t.

(** A field of the JSON object an endpoint answers with. *)
Definition report_field (k : string) (r : reply) : option pyval :=
  match content r with
  | PDict d => dict_lookup k d
  | _ => None
  end.

(** The record a source's unit of work hands to the aggregate. *)
Definition source_record (w : Env) (sc : string * Config) : dict :=
  match outcome_of (fetch_source w (fst sc) (snd sc)) with
  | Ret (Some (_, d)) => d
  | _ => []
  end.

(** The environment [w] with another API key configured. *)
Definition with_api_key (k : option string) (w : Env) : Env :=
  {| COINMARKETCAP_API_KEY := k;
     str_exn := str_exn w;
     str_exn_text := str_exn_text w;
     now := now w;
     now_text := now_text w;
     httpx_answer := httpx_answer w;
     requests_answer := requests_answer w;
     unfinished := unfinished w |}.

(** The request of a source on the retried path of GET /bitcoin/all. *)
Definition all_request (w : Env) (source : string) (config : Config) : event :=
  EGet (url config) (request_headers w source) (request_params "USD" source) (timeout config).

(** The request of a source on the retried path of GET /bitcoin/source. *)
Definition source_request (w : Env) (source : string) (config : Config) : event :=
  EGet (url config) (request_headers w source) (request_params "USD,EUR,GBP" source)
       (timeout config).

(** The content the single-source endpoint builds from a parsed record. *)
Definition source_content (w : Env) (source : string) (result : dict) : pyval :=
  PDict (dict_set "timestamp" (PStr (now w)) (dict_set "source" (PStr source) result)).

(** What the single-source endpoint comes to for a parsed record: the
    answer made of it, or, when it cannot be rendered, the 500 of the
    outermost handler. *)
Definition source_reply (w : Env) (source : string) (result : dict) : py (option reply) :=
  match JSONResponse (source_content w source result) with
  | Ret r => Ret (Some r)
  | Raise e =>
      Raise (HTTPException 500 ("Error fetching from " ++ source ++ ": " ++ str_exn w e))
  end.

(** ** Sample payloads and environments *)

Definition coinbase_payload : pyval :=
  PDict [("data", PDict [("rates",
    PDict [("USD", PStr "50000"); ("EUR", PStr "46000"); ("GBP", PStr "40000")])])].

Definition nobitex_payload : pyval :=
  PDict [("status", PStr "ok");
         ("lastTradePrice", PStr "100");
         ("bids", PList [PList [PStr "99"; PStr "1"]]);
         ("asks", PList [PList [PStr "101"; PStr "1"]])].

Definition kraken_payload : pyval :=
  PDict [("error", PList []);
         ("result", PDict [("XXBTZUSD", PDict [("c", PList [PStr "50000.00000"; PStr "0.00100000"])])])].

Definition kraken_without_pair : pyval :=
  PDict [("error", PList []); ("result", PDict [])].

Definition blockchain_nulls : pyval :=
  PDict [("USD", PDict [("last", PNone)]);
         ("EUR", PDict [("last", PNone)]);
         ("GBP", PDict [("last", PNone)])].

Definition kraken_url : string := "https://api.kraken.com/0/public/Ticker?pair=XBTUSD".

Definition answer (status : Z) (data : pyval) : py response :=
  Ret {| status_code := status; json := Ret data |}.

(** Upstreams where coinbase, kraken and nobitex answer and the others
    time out, whatever the library and the attempt. *)
Definition upstream (timed_out : exn) (u : string) (n : nat) : py response :=
  if (u =? "https://api.coinbase.com/v2/exchange-rates?currency=BTC")%string
  then answer 200 coinbase_payload
  else if (u =? kraken_url)%string then answer 200 kraken_payload
  else if (u =? "https://apiv2.nobitex.ir/v3/orderbook/BTCUSDT")%string
  then answer 200 nobitex_payload
  else Raise timed_out.

Definition calm : Env :=
  {| COINMARKETCAP_API_KEY := None;
     str_exn := fun _ => "failure";
     str_exn_text := fun _ => eq_refl;
     now := "2024-01-01 00:00:00";
     now_text := eq_refl;
     httpx_answer := upstream HttpxTimeoutException;
     requests_answer := upstream RequestsTimeout;
     unfinished := fun _ => false |}.

(** As [calm], with kraken still running when the deadline comes. *)
Definition slow_kraken : Env :=
  {| COINMARKETCAP_API_KEY := None;
     str_exn := fun _ => "failure";
     str_exn_text := fun _ => eq_refl;
     now := "2024-01-01 00:00:00";
     now_text := eq_refl;
     httpx_answer := upstream HttpxTimeoutException;
     requests_answer := upstream RequestsTimeout;
     unfinished := fun s => (s =? "kraken")%string |}.

(** As [calm], with kraken's first answer relayed by a proxy as
    203 Non-Authoritative Information. *)
Definition proxied_kraken : Env :=
  {| COINMARKETCAP_API_KEY := None;
     str_exn := fun _ => "failure";
     str_exn_text := fun _ => eq_refl;
     now := "2024-01-01 00:00:00";
     now_text := eq_refl;
     httpx_answer := fun u n =>
       if (u =? kraken_url)%string && (n =? 0)%nat then answer 203 kraken_payload
       else upstream HttpxTimeoutException u n;
     requests_answer := upstream RequestsTimeout;
     unfinished := fun _ => false |}.

(** As [calm], with kraken's first request timing out. *)
Definition flaky_kraken : Env :=
  {| COINMARKETCAP_API_KEY := None;
     str_exn := fun _ => "failure";
     str_exn_text := fun _ => eq_refl;
     now := "2024-01-01 00:00:00";
     now_text := eq_refl;
     httpx_answer := upstream HttpxTimeoutException;
     requests_answer := fun u n =>
       if (u =? kraken_url)%string && (n =? 0)%nat then Raise RequestsTimeout
       else upstream RequestsTimeout u n;
     unfinished := fun _ => false |}.

(** As [calm], with kraken answering without the trading pair. *)
Definition reshaped_kraken : Env :=
  {| COINMARKETCAP_API_KEY := None;
     str_exn := fun _ => "failure";
     str_exn_text := fun _ => eq_refl;
     now := "2024-01-01 00:00:00";
     now_text := eq_refl;
     httpx_answer := upstream HttpxTimeoutException;
     requests_answer := fun u n =>
       if (u =? kraken_url)%string then answer 200 kraken_without_pair
       else upstream RequestsTimeout u n;
     unfinished := fun _ => false |}.

(** As [calm], with kraken answering 200 with a body that is not JSON,
    to either library and on every request. *)
Definition undecoded_kraken : Env :=
  {| COINMARKETCAP_API_KEY := None;
     str_exn := fun _ => "failure";
     str_exn_text := fun _ => eq_refl;
     now := "2024-01-01 00:00:00";
     now_text := eq_refl;
     httpx_answer := fun u n =>
       if (u =? kraken_url)%string
       then Ret {| status_code := 200; json := Raise JSONDecodeError |}
       else upstream HttpxTimeoutException u n;
     requests_answer := fun u n =>
       if (u =? kraken_url)%string
       then Ret {| status_code := 200; json := Raise RequestsJSONDecodeError |}
       else upstream RequestsTimeout u n;
     unfinished := fun _ => false |}.

Definition kraken_config : Config :=
  {| url := kraken_url; requires_key := false; timeout := 8 |}.

Definition coinmarketcap_config : Config :=
  {| url := "https://pro-api.coinmarketcap.com/v1/cryptocurrency/quotes/latest";
     requires_key := true; timeout := 8 |}.

(** The kraken payload is an object whose [result] is an object with
    the trading pair XXBTZUSD. *)
Definition kraken_has_pair (data : pyval) : bool :=
  match data with
  | PDict d =>
      match dict_lookup "result" d with
      | Some (PDict pairs) => dict_has "XXBTZUSD" pairs
      | _ => false
      end
  | _ => false
  end.

(** ** GET / *)

(** [list(CRYPTO_APIS.keys())] *)
Definition crypto_sources : pyval := PList (map PStr (map fst CRYPTO_APIS)).

Definition root : pyval :=
  PDict
    [("message", PStr "Welcome to Weather & Bitcoin API v3");
     ("endpoints",
      PDict
        [("weather",
          PDict [("openweather", PStr "/weather/{city}");
                 ("weatherapi", PStr "/weather/v2/{city}");
                 ("test", PStr "/weather/test")]);
         ("bitcoin",
          PDict [("all_sources", PStr "/bitcoin/all");
                 ("specific_source", PStr "/bitcoin/source/{source}")])]);
     ("available_crypto_sources", crypto_sources)].

(** The sources [root] lists. *)
Definition advertised : list pyval :=
  match dict_lookup "available_crypto_sources"
          (match root with PDict d => d | _ => [] end) with
  | Some (PList l) => l
  | _ => []
  end.

(** ** The weather endpoints *)

Definition OPENWEATHER_BASE_URL : string :=
  "https://api.openweathermap.org/data/2.5/weather".

Definition WEATHERAPI_BASE_URL : string := "http://api.weatherapi.com/v1/current.json".

(** What the weather endpoints read from outside: the requests, the
    clock and the text of exceptions as for the price endpoints ([net]),
    the two keys of the process environment, and [str(v)], which the
    f-strings apply to values of the payload. *)
Record WeatherEnv : Type := {
  net : Env;
  OPENWEATHER_API_KEY : option string;
  WEATHERAPI_KEY : option string;
  str_value : pyval -> string
}.

(** [not key] *)
Definition key_missing (k : option string) : bool :=
  match k with
  | None => true
  | Some v => (v =? "")%string
  end.

Definition key_text (k : option string) : string :=
  match k with
  | None => ""
  | Some v => v
  end.

(** The unit of temperature as the source file spells it: the bytes
    EC A7 B8 and a letter. *)
Definition degrees (letter : string) : string :=
  String (ascii_of_nat 236) (String (ascii_of_nat 167) (String (ascii_of_nat 184) letter)).

(** What a handler returns: a value left to the framework, or a response
    it built. *)
Inductive handler_result : Type :=
| Plain (v : pyval)
| Response (r : reply).

(** *** GET /weather/test *)

Definition test_openweather (w : WeatherEnv) : io pyval :=
  if key_missing (OPENWEATHER_API_KEY w) then
    io_ret (PDict [("status", PStr "no API key configured")])
  else
    io_try
      (response <- requests_get (net w) OPENWEATHER_BASE_URL []
                     [("q", "London"); ("appid", key_text (OPENWEATHER_API_KEY w));
                      ("units", "metric")] 5 0 ;;
       io_ret (PDict
         [("status",
           PStr (if status_code response =? 200 then "working"
                 else "error: " ++ str_of_Z (status_code response)));
          ("api_key_status",
           PStr (if status_code response =? 200 then "valid"
                 else "invalid or not activated"))]))%io
      (fun e => io_ret (PDict [("status", PStr "error");
                               ("message", PStr (str_exn (net w) e))])).

Definition test_weatherapi (w : WeatherEnv) : io pyval :=
  if key_missing (WEATHERAPI_KEY w) then
    io_ret (PDict [("status", PStr "no API key configured")])
  else
    io_try
      (response <- requests_get (net w) WEATHERAPI_BASE_URL []
                     [("key", key_text (WEATHERAPI_KEY w)); ("q", "London")] 5 0 ;;
       io_ret (PDict
         [("status",
           PStr (if status_code response =? 200 then "working"
                 else "error: " ++ str_of_Z (status_code response)))]))%io
      (fun e => io_ret (PDict [("status", PStr "error");
                               ("message", PStr (str_exn (net w) e))])).

Definition test_weather_apis (w : WeatherEnv) : io pyval :=
  (openweather <- test_openweather w ;;
   let results := dict_set "openweather" openweather [] in
   weatherapi <- test_weatherapi w ;;
   let results := dict_set "weatherapi" weatherapi results in
   io_ret (PDict results))%io.

(** *** GET /weather/{city} *)

(** [weather_info], from the payload of OpenWeatherMap. *)
Definition openweather_info (w : WeatherEnv) (units : string) (data : pyval) : py pyval :=
  (name <- getitem data "name" ;;
   country <- path data ["sys"; "country"] ;;
   temp <- path data ["main"; "temp"] ;;
   feels_like <- path data ["main"; "feels_like"] ;;
   temp_min <- path data ["main"; "temp_min"] ;;
   temp_max <- path data ["main"; "temp_max"] ;;
   humidity <- path data ["main"; "humidity"] ;;
   pressure <- path data ["main"; "pressure"] ;;
   weather <- getitem data "weather" ;;
   first <- getindex weather 0 ;;
   main <- getitem first "main" ;;
   weather' <- getitem data "weather" ;;
   first' <- getindex weather' 0 ;;
   description <- getitem first' "description" ;;
   speed <- path data ["wind"; "speed"] ;;
   Ret (PDict
     [("source", PStr "OpenWeatherMap");
      ("city", name);
      ("country", country);
      ("temperature",
       PDict [("current", temp);
              ("feels_like", feels_like);
              ("min", temp_min);
              ("max", temp_max);
              ("unit", PStr (if (units =? "metric")%string then degrees "C"
                             else degrees "F"))]);
      ("humidity", PStr (str_value w humidity ++ "%"));
      ("pressure", PStr (str_value w pressure ++ " hPa"));
      ("weather", PDict [("main", main); ("description", description)]);
      ("wind",
       PDict [("speed",
               PStr (str_value w speed ++ " " ++
                     (if (units =? "metric")%string then "m/s" else "mph")))]);
      ("timestamp", PStr (now (net w)))]))%py.

Definition openweather_request (w : WeatherEnv) (city units : string) : event :=
  EGet OPENWEATHER_BASE_URL []
       [("q", city); ("appid", key_text (OPENWEATHER_API_KEY w)); ("units", units)] 10.

Definition get_weather (w : WeatherEnv) (city units : string) : io reply :=
  if key_missing (OPENWEATHER_API_KEY w) then
    io_raise (HTTPException 500
      "OpenWeather API key not configured. Use /weather/v2/{city} for alternative")
  else
    io_try
      (response <- requests_get (net w) OPENWEATHER_BASE_URL []
                     [("q", city); ("appid", key_text (OPENWEATHER_API_KEY w));
                      ("units", units)] 10 0 ;;
       if status_code response =? 401 then
         io_raise (HTTPException 401
           "API key invalid or not yet activated. Please wait a few hours or use /weather/v2/{city}")
       else
         _ <- lift (requests_raise_for_status response) ;;
         data <- lift (json response) ;;
         weather_info <- lift (openweather_info w units data) ;;
         lift (JSONResponse weather_info))%io
      (fun e =>
         match e with
         | RequestsHTTPError status =>
             if status =? 404 then
               io_raise (HTTPException 404 ("City '" ++ city ++ "' not found"))
             else io_raise (HTTPException status (str_exn (net w) e))
         | _ => io_raise (HTTPException 500 ("Error: " ++ str_exn (net w) e))
         end).

(** *** GET /weather/v2/{city} *)

(** The answer made from the payload of wttr.in. *)
Definition wttr_info (w : WeatherEnv) (city : string) (data : pyval) : py pyval :=
  (conditions <- getitem data "current_condition" ;;
   current <- getindex conditions 0 ;;
   t <- getitem current "temp_C" ;;
   temp <- py_float t ;;
   f <- getitem current "FeelsLikeC" ;;
   feels_like <- py_float f ;;
   descriptions <- getitem current "weatherDesc" ;;
   first <- getindex descriptions 0 ;;
   description <- getitem first "value" ;;
   humidity <- getitem current "humidity" ;;
   speed <- getitem current "windspeedKmph" ;;
   Ret (PDict
     [("source", PStr "wttr.in (no API key required)");
      ("city", PStr city);
      ("temperature",
       PDict [("current", PFloat temp);
              ("feels_like", PFloat feels_like);
              ("unit", PStr (degrees "C"))]);
      ("weather", PDict [("description", description)]);
      ("humidity", PStr (str_value w humidity ++ "%"));
      ("wind", PDict [("speed", PStr (str_value w speed ++ " km/h"))])]))%py.

(** [weather_info], from the payload of WeatherAPI.com. *)
Definition weatherapi_info (w : WeatherEnv) (data : pyval) : py pyval :=
  (name <- path data ["location"; "name"] ;;
   country <- path data ["location"; "country"] ;;
   temp <- path data ["current"; "temp_c"] ;;
   feels_like <- path data ["current"; "feelslike_c"] ;;
   humidity <- path data ["current"; "humidity"] ;;
   pressure <- path data ["current"; "pressure_mb"] ;;
   text <- path data ["current"; "condition"; "text"] ;;
   icon <- path data ["current"; "condition"; "icon"] ;;
   wind <- path data ["current"; "wind_kph"] ;;
   direction <- path data ["current"; "wind_dir"] ;;
   uv <- path data ["current"; "uv"] ;;
   visibility <- path data ["current"; "vis_km"] ;;
   last_updated <- path data ["current"; "last_updated"] ;;
   Ret (PDict
     [("source", PStr "WeatherAPI.com");
      ("city", name);
      ("country", country);
      ("temperature",
       PDict [("current", temp); ("feels_like", feels_like);
              ("unit", PStr (degrees "C"))]);
      ("humidity", PStr (str_value w humidity ++ "%"));
      ("pressure", PStr (str_value w pressure ++ " mb"));
      ("weather", PDict [("description", text); ("icon", icon)]);
      ("wind",
       PDict [("speed", PStr (str_value w wind ++ " km/h")); ("direction", direction)]);
      ("uv_index", uv);
      ("visibility", PStr (str_value w visibility ++ " km"));
      ("last_updated", last_updated);
      ("timestamp", PStr (now (net w)))]))%py.

Definition wttr_url (city : string) : string := "https://wttr.in/" ++ city ++ "?format=j1".

Definition weatherapi_request (w : WeatherEnv) (city : string) : event :=
  EGet WEATHERAPI_BASE_URL []
       [("key", key_text (WEATHERAPI_KEY w)); ("q", city); ("aqi", "no")] 10.

(** The attempt on wttr.in: the value to return, or [None] when the
    handler goes on; the bare [except] lets nothing out. *)
Definition wttr_fallback (w : WeatherEnv) (city : string) : io (option pyval) :=
  io_try
    (response <- requests_get (net w) (wttr_url city) [] [] 10 0 ;;
     if status_code response =? 200 then
       data <- lift (json response) ;;
       info <- lift (wttr_info w city data) ;;
       io_ret (Some info)
     else io_ret None)%io
    (fun _ => io_ret None).

Definition get_weather_v2 (w : WeatherEnv) (city : string) : io handler_result :=
  if key_missing (WEATHERAPI_KEY w) then
    (found <- wttr_fallback w city ;;
     match found with
     | Some info => io_ret (Plain info)
     | None =>
         io_raise (HTTPException 500
           "WeatherAPI key not configured. Add WEATHERAPI_KEY to .env file")
     end)%io
  else
    io_try
      (response <- requests_get (net w) WEATHERAPI_BASE_URL []
                     [("key", key_text (WEATHERAPI_KEY w)); ("q", city); ("aqi", "no")]
                     10 0 ;;
       _ <- lift (requests_raise_for_status response) ;;
       data <- lift (json response) ;;
       weather_info <- lift (weatherapi_info w data) ;;
       r <- lift (JSONResponse weather_info) ;;
       io_ret (Response r))%io
      (fun e => io_raise (HTTPException 500 ("Error: " ++ str_exn (net w) e))).

(** A weather environment over [net] with both keys configured. *)
Definition with_weather_keys (net : Env) : WeatherEnv :=
  {| net := net;
     OPENWEATHER_API_KEY := Some "owm-key";
     WEATHERAPI_KEY := Some "wapi-key";
     str_value := fun _ => "value" |}.

(** A weather environment over [net] with no key configured. *)
Definition without_weather_keys (net : Env) : WeatherEnv :=
  {| net := net;
     OPENWEATHER_API_KEY := None;
     WEATHERAPI_KEY := None;
     str_value := fun _ => "value" |}.

(** ** The desktop client (gui_app.py) *)

(** What the client reads from outside: its clock, the digits that the
    format [",.2f"] writes for a float, [str(v)] and [str(e)]. *)
Record GuiEnv : Type := {
  gui_now : string;
  format_2f : float -> string;
  gui_str : pyval -> string;
  gui_str_exn : exn -> string
}.

Inductive colour : Type := green | red.

(** A [QTableWidgetItem], as far as the client sets it up. *)
Record item : Type := {
  text : string;
  foreground : option colour;
  align_right : bool
}.

Definition plain_item (s : string) : item :=
  {| text := s; foreground := None; align_right := false |}.

Definition coloured_item (s : string) (c : colour) : item :=
  {| text := s; foreground := Some c; align_right := false |}.

Definition right_item (s : string) : item :=
  {| text := s; foreground := None; align_right := true |}.

(** The widgets the handlers touch.  [priceTable] has the four columns
    [setup_price_table] arranges; [boxes] are the message boxes shown, by
    kind, title and text. *)
Record Window : Type := {
  cityInput : string;
  current_call : option string;
  tempLabel : string;
  descLabel : string;
  humidityLabel : string;
  windLabel : string;
  statusLabel : string;
  priceTable : list (list (option item));
  boxes : list (string * string * string)
}.

Definition gui (A : Type) : Type := Window -> Window * py A.

Definition gui_ret {A} (a : A) : gui A := fun g => (g, Ret a).
Definition gui_lift {A} (c : py A) : gui A := fun g => (g, c).

Definition gui_bind {A B} (c : gui A) (k : A -> gui B) : gui B :=
  fun g =>
    match c g with
    | (g', Ret a) => k a g'
    | (g', Raise e) => (g', Raise e)
    end.

Declare Scope gui_scope.
Delimit Scope gui_scope with gui.
Notation "x <- c ;; k" := (gui_bind c (fun x => k))
  (at level 61, c at next level, right associativity) : gui_scope.

Definition set_priceTable (t : list (list (option item))) (g : Window) : Window :=
  {| cityInput := cityInput g; current_call := current_call g;
     tempLabel := tempLabel g; descLabel := descLabel g;
     humidityLabel := humidityLabel g; windLabel := windLabel g;
     statusLabel := statusLabel g; priceTable := t; boxes := boxes g |}.

Definition set_statusLabel (s : string) (g : Window) : Window :=
  {| cityInput := cityInput g; current_call := current_call g;
     tempLabel := tempLabel g; descLabel := descLabel g;
     humidityLabel := humidityLabel g; windLabel := windLabel g;
     statusLabel := s; priceTable := priceTable g; boxes := boxes g |}.

Definition set_tempLabel (s : string) (g : Window) : Window :=
  {| cityInput := cityInput g; current_call := current_call g;
     tempLabel := s; descLabel := descLabel g;
     humidityLabel := humidityLabel g; windLabel := windLabel g;
     statusLabel := statusLabel g; priceTable := priceTable g; boxes := boxes g |}.

Definition set_descLabel (s : string) (g : Window) : Window :=
  {| cityInput := cityInput g; current_call := current_call g;
     tempLabel := tempLabel g; descLabel := s;
     humidityLabel := humidityLabel g; windLabel := windLabel g;
     statusLabel := statusLabel g; priceTable := priceTable g; boxes := boxes g |}.

Definition set_humidityLabel (s : string) (g : Window) : Window :=
  {| cityInput := cityInput g; current_call := current_call g;
     tempLabel := tempLabel g; descLabel := descLabel g;
     humidityLabel := s; windLabel := windLabel g;
     statusLabel := statusLabel g; priceTable := priceTable g; boxes := boxes g |}.

Definition set_windLabel (s : string) (g : Window) : Window :=
  {| cityInput := cityInput g; current_call := current_call g;
     tempLabel := tempLabel g; descLabel := descLabel g;
     humidityLabel := humidityLabel g; windLabel := s;
     statusLabel := statusLabel g; priceTable := priceTable g; boxes := boxes g |}.

Definition add_box (b : string * string * string) (g : Window) : Window :=
  {| cityInput := cityInput g; current_call := current_call g;
     tempLabel := tempLabel g; descLabel := descLabel g;
     humidityLabel := humidityLabel g; windLabel := windLabel g;
     statusLabel := statusLabel g; priceTable := priceTable g;
     boxes := (boxes g ++ [b])%list |}.

(** [label.setText(v)]: the text has to be a string. *)
Definition setText (set : string -> Window -> Window) (v : pyval) : gui unit :=
  fun g =>
    match v with
    | PStr s => (set s g, Ret tt)
    | _ => (g, Raise TypeError)
    end.

(** [self.priceTable.rowCount()] *)
Definition rowCount : gui nat := fun g => (g, Ret (List.length (priceTable g))).

(** [self.priceTable.setRowCount(0)] *)
Definition clear_rows : gui unit := fun g => (set_priceTable [] g, Ret tt).

(** [self.priceTable.insertRow(row)], [row] being the number of rows: a
    row of four empty cells is added at the end. *)
Definition insertRow : gui unit :=
  fun g => (set_priceTable (priceTable g ++ [[None; None; None; None]])%list g, Ret tt).

Fixpoint replace_nth {A} (n : nat) (x : A) (l : list A) : list A :=
  match l, n with
  | [], _ => []
  | _ :: r, O => x :: r
  | y :: r, S m => y :: replace_nth m x r
  end.

(** [self.priceTable.setItem(row, column, it)]; nothing happens outside
    the table. *)
Definition setItem (row column : nat) (it : item) : gui unit :=
  fun g =>
    (set_priceTable
       (match nth_error (priceTable g) row with
        | Some cells => replace_nth row (replace_nth column (Some it) cells) (priceTable g)
        | None => priceTable g
        end) g,
     Ret tt).

(** [QTableWidgetItem(v)]: a string is the text of the item; an integer
    selects the overload that takes the item's type, and leaves the text
    empty. *)
Definition QTableWidgetItem (v : pyval) : py item :=
  match v with
  | PStr s => Ret (plain_item s)
  | PInt _ | PBool _ => Ret (plain_item "")
  | _ => Raise TypeError
  end.

Definition is_letter (c : ascii) : bool :=
  let n := nat_of_ascii c in
  ((65 <=? n) && (n <=? 90) || (97 <=? n) && (n <=? 122))%nat.

Definition upper (c : ascii) : ascii :=
  let n := nat_of_ascii c in
  if ((97 <=? n) && (n <=? 122))%nat then ascii_of_nat (n - 32) else c.

(** [s.title()], on the ASCII letters. *)
Fixpoint title_from (after_letter : bool) (s : string) : string :=
  match s with
  | EmptyString => EmptyString
  | String c r =>
      String (if is_letter c then (if after_letter then Float64.lower c else upper c) else c)
             (title_from (is_letter c) r)
  end.

Definition title (s : string) : string := title_from false s.

(** [s.lower()], on the ASCII letters. *)
Fixpoint lower_str (s : string) : string :=
  match s with
  | EmptyString => EmptyString
  | String c r => String (Float64.lower c) (lower_str r)
  end.

(** [v.title()] and [v.lower()]: methods of strings. *)
Definition py_title (v : pyval) : py string :=
  match v with PStr s => Ret (title s) | _ => Raise AttributeError end.

Definition py_lower (v : pyval) : py string :=
  match v with PStr s => Ret (lower_str s) | _ => Raise AttributeError end.

(** [isinstance(v, dict)] and [isinstance(v, (int, float))] *)
Definition is_dict (v : pyval) : bool :=
  match v with PDict _ => true | _ => false end.

Definition is_number (v : pyval) : bool :=
  match v with PInt _ | PBool _ | PFloat _ => true | _ => false end.

(** [v] inside an f-string *)
Definition fstr (e : GuiEnv) (v : pyval) : string :=
  match v with
  | PStr s => s
  | _ => gui_str e v
  end.

(** The float that the format [",.2f"] writes for [v]: an integer is
    converted first, and one beyond the range of a float raises
    [OverflowError]; a string has no such format, anything else does
    not take a format at all. *)
Definition float_value (v : pyval) : py float :=
  match v with
  | PFloat f => Ret f
  | PInt z => float_of_int z
  | PBool b => Ret (Float64.of_Z (if b then 1 else 0))
  | PStr _ => Raise ValueError
  | _ => Raise TypeError
  end.

(** The dollar amount of [v], as the f-strings of the table write it. *)
Definition dollars (e : GuiEnv) (v : pyval) : py string :=
  (f <- float_value v ;; Ret ("$" ++ format_2f e f))%py.

(** The marks of the status column and the arrow of the nobitex rows, by
    their bytes in the source file. *)
Definition check_mark : string :=
  String (ascii_of_nat 226) (String (ascii_of_nat 156) (String (ascii_of_nat 147) "")).

Definition cross_mark : string :=
  String (ascii_of_nat 226) (String (ascii_of_nat 156) (String (ascii_of_nat 151) "")).

Definition arrow : string :=
  String (ascii_of_nat 226) (String (ascii_of_nat 134) (String (ascii_of_nat 146) "")).

(** [v.items()]: a method of dictionaries. *)
Definition items (v : pyval) : py dict :=
  match v with PDict d => Ret d | _ => Raise AttributeError end.

(** The body of the loop of [display_all_bitcoin_prices]. *)
Definition display_source_row (e : GuiEnv) (timestamp : pyval) (source : string)
    (info : pyval) : gui unit :=
  (row_position <- rowCount ;;
   _ <- insertRow ;;
   _ <- setItem row_position 0 (plain_item (title source)) ;;
   _ <- (if is_dict info
            && negb (match info with PDict d => dict_has "error" d | _ => false end)
         then
           price <- gui_lift (get info "usd" (PStr "N/A")) ;;
           _ <- (if is_number price then
                   amount <- gui_lift (dollars e price) ;;
                   setItem row_position 1 (right_item amount)
                 else setItem row_position 1 (plain_item "N/A")) ;;
           setItem row_position 2 (coloured_item (check_mark ++ " Active") green)
         else
           _ <- setItem row_position 1 (plain_item "--") ;;
           error_msg <- (if is_dict info
                         then gui_lift (get info "error" (PStr "Unknown error"))
                         else gui_ret (PStr (fstr e info))) ;;
           setItem row_position 2
             (coloured_item (cross_mark ++ " " ++ fstr e error_msg) red)) ;;
   it <- gui_lift (QTableWidgetItem timestamp) ;;
   setItem row_position 3 it)%gui.

Fixpoint for_items (body : string -> pyval -> gui unit) (d : dict) : gui unit :=
  match d with
  | [] => gui_ret tt
  | (k, v) :: r => (_ <- body k v ;; for_items body r)%gui
  end.

Definition display_all_bitcoin_prices (e : GuiEnv) (data : pyval) : gui unit :=
  (_ <- clear_rows ;;
   prices <- gui_lift (get data "bitcoin_prices" (PDict [])) ;;
   timestamp <- gui_lift (get data "timestamp" (PStr (gui_now e))) ;;
   entries <- gui_lift (items prices) ;;
   _ <- for_items (display_source_row e timestamp) entries ;;
   successful <- gui_lift (get data "successful_sources" (PInt 0)) ;;
   failed <- gui_lift (get data "failed_sources" (PInt 0)) ;;
   setText set_statusLabel
     (PStr ("Updated: " ++ fstr e successful ++ " successful, " ++ fstr e failed
            ++ " failed sources")))%gui.

(** One of the three rows added for nobitex: the row and its label come
    first, the amount is read and formatted next. *)
Definition detail_row (label : string) (amount : py string) : gui nat :=
  (row_position <- rowCount ;;
   _ <- insertRow ;;
   _ <- setItem row_position 0 (plain_item ("  " ++ arrow ++ " " ++ label)) ;;
   amount_text <- gui_lift amount ;;
   _ <- setItem row_position 1 (right_item amount_text) ;;
   gui_ret row_position)%gui.

Definition display_single_bitcoin_price (e : GuiEnv) (data : pyval) : gui unit :=
  (_ <- clear_rows ;;
   source <- gui_lift (get data "source" (PStr "Unknown")) ;;
   timestamp <- gui_lift (get data "timestamp" (PStr (gui_now e))) ;;
   _ <- insertRow ;;
   name <- gui_lift (py_title source) ;;
   _ <- setItem 0 0 (plain_item name) ;;
   fallback <- gui_lift (get data "last_trade_price" (PStr "N/A")) ;;
   price <- gui_lift (get data "usd" fallback) ;;
   row_position <-
     (if is_number price then
        amount <- gui_lift (dollars e price) ;;
        _ <- setItem 0 1 (right_item amount) ;;
        _ <- setItem 0 2 (coloured_item (check_mark ++ " Active") green) ;;
        lowered <- gui_lift (py_lower source) ;;
        has_bid <- (if (lowered =? "nobitex")%string
                    then gui_lift (contains "best_bid" data) else gui_ret false) ;;
        if has_bid : bool then
          _ <- detail_row "Best Bid"
                 (bid <- getitem data "best_bid" ;; dollars e bid)%py ;;
          _ <- detail_row "Best Ask"
                 (ask <- getitem data "best_ask" ;; dollars e ask)%py ;;
          detail_row "Spread"
            (spread <- get data "spread" (PInt 0) ;; dollars e spread)%py
        else gui_ret 0%nat
      else
        _ <- setItem 0 1 (plain_item "N/A") ;;
        _ <- setItem 0 2 (coloured_item (cross_mark ++ " Error") red) ;;
        gui_ret 0%nat) ;;
   it <- gui_lift (QTableWidgetItem timestamp) ;;
   setItem row_position 3 it)%gui.

(** [try: ... except KeyError as e: QMessageBox.warning(...)] *)
Definition warn_on_key_error (e : GuiEnv) (c : gui unit) : gui unit :=
  fun g =>
    match c g with
    | (g', Raise (KeyError k)) =>
        (add_box ("warning", "Warning",
                  "Missing data in response: " ++ gui_str_exn e (KeyError k)) g',
         Ret tt)
    | other => other
    end.

Definition display_weather (e : GuiEnv) (data : pyval) : gui unit :=
  warn_on_key_error e
    (temp <- gui_lift (path data ["temperature"; "current"]) ;;
     unit <- gui_lift (path data ["temperature"; "unit"]) ;;
     _ <- setText set_tempLabel (PStr (fstr e temp ++ fstr e unit)) ;;
     desc <- gui_lift (path data ["weather"; "description"]) ;;
     _ <- setText set_descLabel desc ;;
     humidity <- gui_lift (get data "humidity" (PStr "N/A")) ;;
     _ <- setText set_humidityLabel humidity ;;
     wind_data <- gui_lift (get data "wind" (PDict [])) ;;
     wind <- gui_lift (get wind_data "speed" (PStr "N/A")) ;;
     _ <- setText set_windLabel wind ;;
     city <- (fun g => gui_lift (get data "city" (PStr (cityInput g))) g) ;;
     source <- gui_lift (get data "source" (PStr "Unknown")) ;;
     setText set_statusLabel
       (PStr ("Weather data from " ++ fstr e source ++ " for " ++ fstr e city)))%gui.

Definition handle_api_response (e : GuiEnv) (data : pyval) : gui unit :=
  (_ <- (fun g =>
           match current_call g with
           | Some call =>
               if (call =? "weather")%string then display_weather e data g
               else if (call =? "bitcoin_all")%string
                    then display_all_bitcoin_prices e data g
               else if (call =? "bitcoin_single")%string
                    then display_single_bitcoin_price e data g
               else (g, Ret tt)
           | None => (g, Ret tt)
           end) ;;
   setText set_statusLabel (PStr "Ready"))%gui.

Definition handle_api_error (error_msg : string) : gui unit :=
  fun g =>
    (set_statusLabel "Error occurred"
       (add_box ("critical", "Error", "API Error: " ++ error_msg) g),
     Ret tt).

(** A window before any call, and a client environment. *)
Definition blank_window (call : string) : Window :=
  {| cityInput := ""; current_call := Some call;
     tempLabel := ""; descLabel := ""; humidityLabel := ""; windLabel := "";
     statusLabel := ""; priceTable := []; boxes := [] |}.

Definition desk : GuiEnv :=
  {| gui_now := "2024-01-01 00:00:05";
     format_2f := fun _ => "0.00";
     gui_str := fun _ => "value";
     gui_str_exn := fun _ => "failure" |}.

(** What the table shows: the text of a cell, and whether the status of
    a row is drawn in green or in red. *)
Definition cell_text (column : nat) (row : list (option item)) : option string :=
  match nth_error row column with
  | Some (Some it) => Some (text it)
  | _ => None
  end.

Definition status_colour (row : list (option item)) : option colour :=
  match nth_error row 2 with
  | Some (Some it) => foreground it
  | _ => None
  end.

Definition active_row (row : list (option item)) : bool :=
  match status_colour row with Some green => true | _ => false end.

Definition failed_row (row : list (option item)) : bool :=
  match status_colour row with Some red => true | _ => false end.

(** The signals of [ApiWorker]. *)
Inductive signal : Type :=
| data_received (data : pyval)
| error_occurred (msg : string).

(** [self.data_received.emit(data)]: the signal is declared with [dict]. *)
Definition emit_data (data : pyval) : py signal :=
  if is_dict data then Ret (data_received data) else Raise TypeError.

(** [ApiWorker.run], [answer] being what the request of the endpoint
    comes to. *)
Definition run (e : GuiEnv) (answer : py response) : signal :=
  match (response <- answer ;;
         _ <- requests_raise_for_status response ;;
         data <- json response ;;
         emit_data data)%py with
  | Ret s => s
  | Raise x =>
      if is_request_exception x then error_occurred (gui_str_exn e x)
      else error_occurred ("Unexpected error: " ++ gui_str_exn e x)
  end.

(** The slots the window connects to the two signals. *)
Definition deliver (e : GuiEnv) (s : signal) : gui unit :=
  match s with
  | data_received data => handle_api_response e data
  | error_occurred msg => handle_api_error msg
  end.

(** What the client shows of a handler's result. *)
Definition shown (res : handler_result) : pyval :=
  match res with
  | Plain v => v
  | Response r => content r
  end.

(** ** Outcomes of a request, as the retry loops tell them apart *)

(** GET /bitcoin/all takes an answer for good when its status is 200 and
    its body is JSON. *)
Definition httpx_ok (o : py response) (data : pyval) : Prop :=
  exists r, o = Ret r /\ status_code r = 200 /\ json r = Ret data.

(** It takes everything else for a failure: an exception of the
    request, another status, or a body of status 200 that [json()]
    cannot decode. *)
Definition httpx_failed (o : py response) : bool :=
  match o with
  | Raise _ => true
  | Ret r =>
      if status_code r =? 200 then
        match json r with Raise _ => true | Ret _ => false end
      else true
  end.

(** The text it records for an exception. *)
Definition exception_text (w : Env) (e : exn) : string :=
  if is_httpx_timeout e then "Timeout" else str_exn w e.

(** The text it records for an answer that failed. *)
Definition httpx_failure_text (w : Env) (o : py response) : string :=
  match o with
  | Raise e => exception_text w e
  | Ret r =>
      match json r with
      | Raise e => if status_code r =? 200 then exception_text w e
                   else "HTTP " ++ str_of_Z (status_code r)
      | Ret _ => "HTTP " ++ str_of_Z (status_code r)
      end
  end.

(** GET /bitcoin/source takes an answer for good when [raise_for_status]
    lets it pass and its body is JSON. *)
Definition requests_ok (o : py response) (data : pyval) : Prop :=
  exists r, o = Ret r /\ requests_raise_for_status r = Ret tt /\ json r = Ret data.

(** It retries on the [RequestException] [e], raised by the request, by
    [raise_for_status] or by [json()]. *)
Definition requests_failed (o : py response) (e : exn) : Prop :=
  (o = Raise e /\ is_request_exception e = true) \/
  (exists r, o = Ret r /\ requests_raise_for_status r = Raise e) \/
  (exists r, o = Ret r /\ requests_raise_for_status r = Ret tt /\
             json r = Raise e /\ is_request_exception e = true).

(** The error it raises for a failure of the second request. *)
Definition source_failure (w : Env) (source : string) (e : exn) : exn :=
  if is_requests_timeout e then
    HTTPException 504
      ("Timeout while fetching from " ++ source ++
       " after retries. The service might be slow or unavailable.")
  else
    HTTPException 503
      ("Network error while fetching from " ++ source ++ ": " ++ str_exn w e).

Definition blockchain_config : Config :=
  {| url := "https://blockchain.info/ticker"; requires_key := false; timeout := 8 |}.

(** An answer with a status from 200 to 299 and a JSON body. *)
Definition requests_2xx (o : py response) (data : pyval) : Prop :=
  exists r, o = Ret r /\ 200 <= status_code r < 300 /\ json r = Ret data.

(** ** Conditions on an environment *)

(** Neither [requests.get] nor [response.json()] raises the web
    framework's [HTTPException]. *)
Definition requests_sane (w : Env) : Prop :=
  forall u n,
    match requests_answer w u n with
    | Raise e => is_http_exception e = false
    | Ret r =>
        match json r with
        | Raise e => is_http_exception e = false
        | Ret _ => True
        end
    end.

(** A computation that raises no [HTTPException]. *)
Definition plain {A} (c : py A) : Prop :=
  forall e, c = Raise e -> is_http_exception e = false.

Definition nobitex_url : string := "https://apiv2.nobitex.ir/v3/orderbook/BTCUSDT".

(** What an endpoint with the handlers of the single-source one comes to
    once it has its content: the answer, or the 500 of a content that
    cannot be rendered. *)
Definition rendered (w : Env) (source : string) (c : pyval) : py (option reply) :=
  match JSONResponse c with
  | Ret r => Ret (Some r)
  | Raise e =>
      Raise (HTTPException 500 ("Error fetching from " ++ source ++ ": " ++ str_exn w e))
  end.

(** No request of the trace carries a header or a parameter. *)
Definition bare_request (e : event) : Prop :=
  match e with
  | EGet _ headers params _ => headers = [] /\ params = []
  | ESleep _ => True
  end.

(** [d.get(k, default)] on a dictionary. *)
Definition dict_get (d : dict) (k : string) (default : pyval) : pyval :=
  match dict_lookup k d with
  | Some v => v
  | None => default
  end.

(** An environment where the URL [u] answers 200 with [data], to either
    library and on every request, and every other URL times out. *)
Definition answering (u : string) (data : pyval) : Env :=
  {| COINMARKETCAP_API_KEY := None;
     str_exn := fun _ => "failure";
     str_exn_text := fun _ => eq_refl;
     now := "2024-01-01 00:00:00";
     now_text := eq_refl;
     httpx_answer := fun u' _ =>
       if (u' =? u)%string then answer 200 data else Raise HttpxTimeoutException;
     requests_answer := fun u' _ =>
       if (u' =? u)%string then answer 200 data else Raise RequestsTimeout;
     unfinished := fun _ => false |}.

(** An environment where every request times out. *)
Definition offline : Env :=
  {| COINMARKETCAP_API_KEY := None;
     str_exn := fun _ => "failure";
     str_exn_text := fun _ => eq_refl;
     now := "2024-01-01 00:00:00";
     now_text := eq_refl;
     httpx_answer := fun _ _ => Raise HttpxTimeoutException;
     requests_answer := fun _ _ => Raise RequestsTimeout;
     unfinished := fun _ => false |}.

(** An environment where the URL [u] answers with [status] and [data], to
    either library and on every request, and every other URL times
    out. *)
Definition replying (u : string) (status : Z) (data : pyval) : Env :=
  {| COINMARKETCAP_API_KEY := None;
     str_exn := fun _ => "failure";
     str_exn_text := fun _ => eq_refl;
     now := "2024-01-01 00:00:00";
     now_text := eq_refl;
     httpx_answer := fun u' _ =>
       if (u' =? u)%string then answer status data else Raise HttpxTimeoutException;
     requests_answer := fun u' _ =>
       if (u' =? u)%string then answer status data else Raise RequestsTimeout;
     unfinished := fun _ => false |}.

Definition openweather_payload : pyval :=
  PDict [("name", PStr "London");
         ("sys", PDict [("country", PStr "GB")]);
         ("main", PDict [("temp", PInt 281); ("feels_like", PInt 279);
                         ("temp_min", PInt 280); ("temp_max", PInt 283);
                         ("humidity", PInt 81); ("pressure", PInt 1012)]);
         ("weather", PList [PDict [("main", PStr "Clouds");
                                   ("description", PStr "overcast clouds")]]);
         ("wind", PDict [("speed", PInt 4)])].

(** A price that the table cannot format, and an entry of a report with
    such a price: an integer beyond the range of a float in the ["usd"]
    of a record without ["error"]. *)
Definition overflows (v : pyval) : bool :=
  match float_value v with
  | Raise OverflowError => true
  | _ => false
  end.

Definition undrawable (info : pyval) : bool :=
  match info with
  | PDict d => negb (dict_has "error" d) && overflows (dict_get d "usd" (PStr "N/A"))
  | _ => false
  end.

(** An upstream of blockchain.info quoting an integer beyond the range
    of a float, and an environment where it answers so. *)
Definition huge_ticker : pyval :=
  PDict [("USD", PDict [("last", PInt (10 ^ 400))]);
         ("EUR", PDict [("last", PInt 1)]);
         ("GBP", PDict [("last", PInt 1)])].

Definition huge_quote : Env := answering "https://blockchain.info/ticker" huge_ticker.

(** What GET /bitcoin/source/blockchain answers there, and what
    GET /bitcoin/source/nobitex answers in [calm]. *)
Definition huge_answer : reply :=
  answer_200 (PDict [("usd", PInt (10 ^ 400)); ("eur", PInt 1); ("gbp", PInt 1);
                     ("source", PStr "blockchain");
                     ("timestamp", PStr "2024-01-01 00:00:00")]).

Definition calm_order_book : reply :=
  answer_200 (PDict [("source", PStr "nobitex");
                     ("usd", PFloat (Float64.of_Z 100));
                     ("last_trade_price", PFloat (Float64.of_Z 100));
                     ("best_bid", PFloat (Float64.of_Z 99));
                     ("best_ask", PFloat (Float64.of_Z 101));
                     ("spread", PFloat (Float64.of_Z 2));
                     ("last_update", PInt 0);
                     ("timestamp", PStr "2024-01-01 00:00:00")]).

(** A payload of wttr.in, and a weather environment without keys where
    wttr.in answers with it for London. *)
Definition wttr_payload : pyval :=
  PDict [("current_condition",
          PList [PDict [("temp_C", PStr "12");
                        ("FeelsLikeC", PStr "10");
                        ("weatherDesc", PList [PDict [("value", PStr "Light rain")]]);
                        ("humidity", PStr "81");
                        ("windspeedKmph", PStr "15")]])].

Definition rainy_london : WeatherEnv :=
  without_weather_keys (answering (wttr_url "London") wttr_payload).

(** What [rainy_london] returns for London. *)
Definition london_weather : handler_result :=
  match outcome_of (get_weather_v2 rainy_london "London") with
  | Ret res => res
  | Raise _ => Plain PNone
  end.

(** * Properties *)

(** ** Dictionaries *)

Lemma dict_set_fresh (k : string) (v : pyval) (d : dict) :
  ~ In k (dict_keys d) -> dict_set k v d = (d ++ [(k, v)])%list.
Proof.
  induction d as [|[k' v'] d IH]; simpl; intros Hk.
  - reflexivity.
  - destruct (String.eqb_spec k' k) as [->|Hne].
    + exfalso. apply Hk. now left.
    + f_equal. apply IH. intros Hin. apply Hk. now right.
Qed.

Lemma dict_lookup_set_other (k k' : string) (v : pyval) (d : dict) :
  k <> k' -> dict_lookup k (dict_set k' v d) = dict_lookup k d.
Proof.
  intros Hne. induction d as [|[k1 v1] d IH]; simpl.
  - destruct (String.eqb_spec k' k); congruence.
  - destruct (String.eqb_spec k1 k') as [->|H1]; simpl.
    + destruct (String.eqb_spec k' k); congruence.
    + destruct (String.eqb_spec k1 k); [reflexivity | exact IH].
Qed.

Lemma dict_lookup_set_same (k : string) (v : pyval) (d : dict) :
  dict_lookup k (dict_set k v d) = Some v.
Proof.
  induction d as [|[k1 v1] d IH]; simpl.
  - now rewrite String.eqb_refl.
  - destruct (String.eqb_spec k1 k) as [->|H1]; simpl.
    + now rewrite String.eqb_refl.
    + destruct (String.eqb_spec k1 k); [contradiction | exact IH].
Qed.

(** ** Rendering *)

(** A byte other than ED starts no surrogate. *)
Lemma encodable_cons (a : ascii) (r : string) :
  (nat_of_ascii a =? 237)%nat = false ->
  encodable (String a r) = encodable r.
Proof.
  intros H. cbn [encodable]. unfold surrogate_start. rewrite H.
  now destruct r.
Qed.

(** Texts made of a literal and of a text of the environment. *)
Ltac text_ok :=
  first [ reflexivity
        | cbn [append];
          repeat rewrite encodable_cons by reflexivity;
          first [ reflexivity | apply str_exn_text | apply now_text ] ].

Lemma JSONResponse_ok (c : pyval) :
  json_compliant c = true -> JSONResponse c = Ret {| reply_status := 200; content := c |}.
Proof. unfold JSONResponse. now intros ->. Qed.

Lemma JSONResponse_raise (c : pyval) (e : exn) :
  JSONResponse c = Raise e ->
  json_compliant c = false /\ (e = ValueError \/ e = UnicodeEncodeError).
Proof.
  unfold JSONResponse. destruct (json_compliant c); [discriminate|].
  destruct (finite_floats c); intros [= <-]; auto.
Qed.

(** The report of the global timeout is rendered. *)
Lemma deadline_report_rendered (w : Env) :
  JSONResponse (aggregate_report w [("error", PStr "Global timeout reached")])
  = Ret {| reply_status := 200;
           content := aggregate_report w [("error", PStr "Global timeout reached")] |}.
Proof.
  apply JSONResponse_ok. unfold json_compliant, aggregate_report.
  cbn [finite_floats encodable_strings forallb fst snd andb].
  rewrite (now_text w). reflexivity.
Qed.

(** ** The normalizer *)

(** [parse_crypto_response] returns a record on every input. *)
Lemma parse_total (w : Env) (source : string) (data : pyval) :
  exists r, parse_crypto_response w source data = Ret r.
Proof.
  unfold parse_crypto_response.
  destruct (parse_body source data) as [r|e]; simpl; eauto.
Qed.

(** An exception of the body is turned into a "Parse error" record. *)
Lemma parse_raise (w : Env) (source : string) (data : pyval) (e : exn) :
  parse_body source data = Raise e ->
  parse_crypto_response w source data
  = Ret (error_record ("Parse error: " ++ str_exn w e)).
Proof.
  unfold parse_crypto_response. now intros ->.
Qed.

(** The coinbase rates go into the record as they are read. *)
Lemma coinbase_rates_direct (w : Env) (u e g : pyval) (usd eur gbp : float) :
  py_float u = Ret usd -> py_float e = Ret eur -> py_float g = Ret gbp ->
  parse_crypto_response w "coinbase"
    (PDict [("data", PDict [("rates", PDict [("USD", u); ("EUR", e); ("GBP", g)])])])
  = Ret [("usd", PFloat usd); ("eur", PFloat eur); ("gbp", PFloat gbp)].
Proof.
  intros Hu He Hg.
  unfold parse_crypto_response, parse_body. cbn -[py_float].
  now rewrite Hu, He, Hg.
Qed.

(** C6. The coinbase payload of the specification is normalised to
    usd = 50000, eur = 46000 and gbp = 40000; and whatever the three
    rates of the nested [data.rates] object are, the record holds the
    [float] of each as it is read, not its inverse. *)
Theorem coinbase_payload_normalized (w : Env) :
  parse_crypto_response w "coinbase" coinbase_payload
  = Ret [("usd", PFloat (Float64.of_Z 50000));
         ("eur", PFloat (Float64.of_Z 46000));
         ("gbp", PFloat (Float64.of_Z 40000))] /\
  forall (u e g : pyval) (usd eur gbp : float),
    py_float u = Ret usd -> py_float e = Ret eur -> py_float g = Ret gbp ->
    parse_crypto_response w "coinbase"
      (PDict [("data", PDict [("rates", PDict [("USD", u); ("EUR", e); ("GBP", g)])])])
    = Ret [("usd", PFloat usd); ("eur", PFloat eur); ("gbp", PFloat gbp)].
Proof.
  split.
  - reflexivity.
  - intros u e g usd eur gbp. apply coinbase_rates_direct.
Qed.

Lemma coinbase_payload_normalized_witness :
  parse_crypto_response calm "coinbase"
    (PDict [("data", PDict [("rates",
       PDict [("USD", PStr "50000"); ("EUR", PStr "46000"); ("GBP", PStr "40000")])])])
  = Ret [("usd", PFloat (Float64.of_Z 50000));
         ("eur", PFloat (Float64.of_Z 46000));
         ("gbp", PFloat (Float64.of_Z 40000))].
Proof.
  exact (proj2 (coinbase_payload_normalized calm)
           (PStr "50000") (PStr "46000") (PStr "40000")
           (Float64.of_Z 50000) (Float64.of_Z 46000) (Float64.of_Z 40000)
           eq_refl eq_refl eq_refl).
Defined.

(** Runs the first pending step of a [py] computation both ways. *)
Ltac py_step :=
  match goal with
  | |- context [py_bind ?c _] =>
      let E := fresh "E" in destruct c eqn:E; cbn [py_bind py_try]
  | |- context [if ?b then _ else _] =>
      let E := fresh "E" in destruct b eqn:E; cbn [py_bind py_try]
  end.

Lemma nobitex_record_keys (w : Env) (data : pyval) (d : dict) :
  parse_crypto_response w "nobitex" data = Ret d ->
  dict_keys d = ["error"] \/
  dict_keys d = ["usd"; "last_trade_price"; "best_bid"; "best_ask"].
Proof.
  unfold parse_crypto_response, parse_body.
  cbn [String.eqb Ascii.eqb Bool.eqb].
  repeat py_step; intros [= <-]; auto.
Qed.

(** C5. On the order-book payload of the specification the normalizer
    gives best_bid = 99, best_ask = 101, usd = 100 and last_trade_price =
    100, but no spread, and so on no payload at all; the record of nobitex
    in the aggregate report is the normalizer's, without spread.  The
    single-source endpoint, which reads the order book in place, does
    answer with spread = 2 on the same payload. *)
Theorem nobitex_spread_missing_from_normalizer :
  (forall w,
     parse_crypto_response w "nobitex" nobitex_payload
     = Ret [("usd", PFloat (Float64.of_Z 100));
            ("last_trade_price", PFloat (Float64.of_Z 100));
            ("best_bid", PFloat (Float64.of_Z 99));
            ("best_ask", PFloat (Float64.of_Z 101))]) /\
  (forall w data d,
     parse_crypto_response w "nobitex" data = Ret d -> dict_has "spread" d = false) /\
  (exists r prices,
     get_bitcoin_all_sources calm = Ret r /\
     report_field "bitcoin_prices" r = Some (PDict prices) /\
     dict_lookup "nobitex" prices
     = Some (PDict [("usd", PFloat (Float64.of_Z 100));
                    ("last_trade_price", PFloat (Float64.of_Z 100));
                    ("best_bid", PFloat (Float64.of_Z 99));
                    ("best_ask", PFloat (Float64.of_Z 101))])) /\
  outcome_of (get_bitcoin_from_source calm "nobitex")
  = Ret (Some (answer_200 (PDict
      [("source", PStr "nobitex");
       ("usd", PFloat (Float64.of_Z 100));
       ("last_trade_price", PFloat (Float64.of_Z 100));
       ("best_bid", PFloat (Float64.of_Z 99));
       ("best_ask", PFloat (Float64.of_Z 101));
       ("spread", PFloat (Float64.of_Z 2));
       ("last_update", PInt 0);
       ("timestamp", PStr "2024-01-01 00:00:00")]))).
Proof.
  split; [|split; [|split]].
  - intros w. reflexivity.
  - intros w data d H.
    destruct (nobitex_record_keys w data d H) as [K|K];
      destruct d as [|[k1 v1] d]; try discriminate;
      unfold dict_has; simpl in *.
    + destruct d; [|discriminate]. injection K as ->. reflexivity.
    + do 3 (destruct d as [|[? ?] d]; [discriminate|]).
      destruct d; [|discriminate]. simpl in K.
      injection K as -> -> -> ->. reflexivity.
  - eexists; eexists. split; [vm_compute; reflexivity|].
    split; reflexivity.
  - vm_compute. reflexivity.
Qed.

(** C7. [parse_crypto_response] returns a record for every source
    identifier and every payload, it never raises; an exception raised
    while the payload is read becomes the record
    [{"error": "Parse error: ..."}]; and a kraken payload without the
    trading pair gives an error record, not a price. *)
Theorem parse_crypto_response_safe (w : Env) (source : string) (data : pyval) :
  exists r,
    parse_crypto_response w source data = Ret r /\
    (forall e, parse_body source data = Raise e ->
               r = error_record ("Parse error: " ++ str_exn w e)) /\
    (source = "kraken" -> kraken_has_pair data = false ->
     exists msg, r = error_record msg).
Proof.
  destruct (parse_total w source data) as [r Hr].
  exists r. split; [exact Hr|]. split.
  - intros e He. rewrite (parse_raise w source data e He) in Hr. congruence.
  - intros -> Hpair. revert Hr.
    unfold parse_crypto_response, parse_body.
    cbn [String.eqb Ascii.eqb Bool.eqb].
    destruct data as [|b|z|f|s|l|d]; cbn [contains py_bind py_try];
      try (intros [= <-]; eexists; reflexivity).
    + destruct (is_substring "result" s);
        cbn [getitem py_bind py_try]; intros [= <-]; eexists; reflexivity.
    + destruct (existsb (fun x => eq_str x "result") l);
        cbn [getitem py_bind py_try]; intros [= <-]; eexists; reflexivity.
    + unfold kraken_has_pair in Hpair. unfold dict_has at 1.
      cbn [getitem path py_bind].
      destruct (dict_lookup "result" d) as [res|];
        cbn [py_bind py_try]; [|intros [= <-]; eexists; reflexivity].
      destruct res as [|b|z|f|s|l|pairs]; cbn [contains py_bind py_try getitem];
        try (intros [= <-]; eexists; reflexivity).
      * destruct (is_substring "XXBTZUSD" s); cbn [py_bind py_try];
          intros [= <-]; eexists; reflexivity.
      * destruct (existsb (fun x => eq_str x "XXBTZUSD") l); cbn [py_bind py_try];
          intros [= <-]; eexists; reflexivity.
      * rewrite Hpair. intros [= <-]; eexists; reflexivity.
Qed.

Lemma parse_crypto_response_safe_witness :
  exists msg,
    parse_crypto_response calm "kraken" kraken_without_pair = Ret (error_record msg).
Proof.
  destruct (parse_crypto_response_safe calm "kraken" kraken_without_pair)
    as [r [Hr [_ Hk]]].
  destruct (Hk eq_refl eq_refl) as [msg ->].
  exists msg. exact Hr.
Defined.

(** C7, as it fails: fields of the wrong type or missing need not give a
    parse error.  The blockchain prices are stored as found, here three
    nulls; an order book with nothing but its status gives the price 0.0;
    a source without a parser gives the empty record.  None of the three
    records has an "error". *)
Lemma parse_accepts_reshaped_payloads :
  parse_crypto_response calm "blockchain" blockchain_nulls
  = Ret [("usd", PNone); ("eur", PNone); ("gbp", PNone)] /\
  parse_crypto_response calm "nobitex" (PDict [("status", PStr "ok")])
  = Ret [("usd", PFloat (S754_zero false));
         ("last_trade_price", PFloat (S754_zero false));
         ("best_bid", PInt 0); ("best_ask", PInt 0)] /\
  parse_crypto_response calm "bitstamp" (PDict [("last", PStr "50000")]) = Ret [].
Proof. repeat split. Qed.

(** ** The retried request of GET /bitcoin/all *)

(** One pass either returns the source's record after its request, or,
    on the first pass only, sleeps a second and goes round again. *)
Lemma fetch_attempt_cases (w : Env) (s : string) (c : Config)
    (h p : list (string * string)) (n : nat) :
  (exists d, fetch_attempt w s c h p n
             = ([EGet (url c) h p (timeout c)], Ret (Return (s, d)))) \/
  (n = 0%nat /\
   fetch_attempt w s c h p n
   = ([EGet (url c) h p (timeout c); ESleep 1], Ret Continue)).
Proof.
  unfold fetch_attempt, client_get, lift.
  destruct (httpx_answer w (url c) n) as [r|e]; cbn [io_try io_bind].
  - destruct (status_code r =? 200).
    + destruct (json r) as [data|e]; cbn [io_try io_bind].
      * destruct (parse_total w s data) as [d ->]. left. eexists. reflexivity.
      * destruct (is_httpx_timeout e), (Nat.eqb_spec n 0);
          ((left; eexists; reflexivity) || (right; split; [assumption|reflexivity])).
    + destruct (Nat.eqb_spec n 0);
        ((left; eexists; reflexivity) || (right; split; [assumption|reflexivity])).
  - destruct (is_httpx_timeout e), (Nat.eqb_spec n 0);
      ((left; eexists; reflexivity) || (right; split; [assumption|reflexivity])).
Qed.

(** The loop of two passes: one request, or a request, a second of sleep
    and a second request; it always returns the source's record. *)
Lemma fetch_loop_cases (w : Env) (s : string) (c : Config) (h p : list (string * string)) :
  exists d,
    for_attempts (fetch_attempt w s c h p) (range 2)
    = ([EGet (url c) h p (timeout c)], Ret (Some (s, d))) \/
    for_attempts (fetch_attempt w s c h p) (range 2)
    = ([EGet (url c) h p (timeout c); ESleep 1; EGet (url c) h p (timeout c)],
       Ret (Some (s, d))).
Proof.
  cbn [range seq for_attempts].
  destruct (fetch_attempt_cases w s c h p 0) as [[d ->]|[_ ->]].
  - exists d. left. reflexivity.
  - destruct (fetch_attempt_cases w s c h p 1) as [[d ->]|[H _]]; [|discriminate].
    exists d. right. reflexivity.
Qed.

Lemma fetch_once_cases (w : Env) (s label : string) (c : Config) :
  exists d, fetch_once w s label c = ([EGet (url c) [] [] (timeout c)], Ret (Some (s, d))).
Proof.
  unfold fetch_once, client_get, lift.
  destruct (httpx_answer w (url c) 0) as [r|e]; cbn [io_try io_bind]; [|eexists; reflexivity].
  destruct (httpx_raise_for_status r) as [[]|e]; cbn [io_try io_bind]; [|eexists; reflexivity].
  destruct (json r) as [data|e]; cbn [io_try io_bind]; [|eexists; reflexivity].
  destruct (parse_total w s data) as [d ->]. eexists. reflexivity.
Qed.

(** Every unit of work returns a pair of its own identifier and a record:
    it neither raises nor ends without a [return]. *)
Lemma fetch_source_returns (w : Env) (s : string) (c : Config) :
  exists d, outcome_of (fetch_source w s c) = Ret (Some (s, d)).
Proof.
  unfold fetch_source, outcome_of.
  destruct ((s =? "coinmarketcap")%string && no_api_key w).
  { eexists. reflexivity. }
  destruct (s =? "coinbase")%string.
  { destruct (fetch_once_cases w s "Coinbase" c) as [d ->]. exists d. reflexivity. }
  destruct (s =? "binance")%string.
  { destruct (fetch_once_cases w s "Binance" c) as [d ->]. exists d. reflexivity. }
  destruct (fetch_loop_cases w s c (request_headers w s) (request_params "USD" s))
    as [d [-> | ->]]; exists d; reflexivity.
Qed.

Lemma source_record_outcome (w : Env) (sc : string * Config) :
  outcome_of (fetch_source w (fst sc) (snd sc)) = Ret (Some (fst sc, source_record w sc)).
Proof.
  unfold source_record.
  destruct (fetch_source_returns w (fst sc) (snd sc)) as [d ->]. reflexivity.
Qed.

(** ** The report of GET /bitcoin/all *)

Lemma collect_pairs (w : Env) (f : string * Config -> dict) (l : list (string * Config)) :
  forall acc : dict,
    NoDup (map fst l) ->
    (forall s, In s (map fst l) -> ~ In s (dict_keys acc)) ->
    collect w (map (fun sc => Ret (Some (fst sc, f sc))) l) acc
    = (acc ++ map (fun sc => (fst sc, PDict (f sc))) l)%list.
Proof.
  unfold collect.
  induction l as [|sc l IH]; intros acc Hnd Hfresh; simpl.
  - now rewrite app_nil_r.
  - inversion Hnd as [|? ? Hnotin Hnd']; subst.
    rewrite dict_set_fresh by (apply Hfresh; now left).
    rewrite IH; trivial.
    + now rewrite <- app_assoc.
    + intros s Hs. unfold dict_keys. rewrite map_app, in_app_iff. simpl.
      intros [Hin|[<-|[]]].
      * apply (Hfresh s); [now right | exact Hin].
      * contradiction.
Qed.

Lemma registered_NoDup : NoDup registered.
Proof.
  unfold registered, CRYPTO_APIS; simpl.
  repeat constructor; simpl; intuition discriminate.
Qed.

(** Without a unit of work in flight at the deadline, [results] holds the
    record of each registered source, in the order of the registry. *)
Lemma all_results_in_time (w : Env) :
  existsb (in_flight w) CRYPTO_APIS = false ->
  all_results w = Ret (map (fun sc => (fst sc, PDict (source_record w sc))) CRYPTO_APIS).
Proof.
  intros Hdone. unfold all_results, wait_for_gather. rewrite Hdone.
  cbn [py_bind py_try]. f_equal.
  rewrite (map_ext _ (fun sc => Ret (Some (fst sc, source_record w sc))))
    by (intros sc; apply source_record_outcome).
  rewrite collect_pairs.
  - reflexivity.
  - exact registered_NoDup.
  - intros s _ [].
Qed.

(** With one in flight, [results] is the single entry of the global
    timeout. *)
Lemma all_results_deadline (w : Env) :
  existsb (in_flight w) CRYPTO_APIS = true ->
  all_results w = Ret [("error", PStr "Global timeout reached")].
Proof.
  intros Hlate. unfold all_results, wait_for_gather. now rewrite Hlate.
Qed.

Lemma count_records (f : string * Config -> dict) (l : list (string * Config)) :
  count is_success (dict_values (map (fun sc => (fst sc, PDict (f sc))) l))
  + count is_failure (dict_values (map (fun sc => (fst sc, PDict (f sc))) l))
  = Z.of_nat (List.length l).
Proof.
  unfold count, dict_values.
  induction l as [|sc l IH]; [reflexivity|].
  cbn [map snd filter is_success is_failure List.length].
  destruct (dict_has "error" (f sc)); cbn [negb List.length]; lia.
Qed.

(** C1. When no unit of work is still in flight at the 60-second
    deadline, GET /bitcoin/all builds its report on a [bitcoin_prices]
    whose keys are the identifiers of [CRYPTO_APIS], in the order of the
    registry: one entry for each registered identifier, and no entry
    under any other key, whatever each source's requests came to.  A
    report that is returned holds this mapping. *)
Theorem report_has_every_source (w : Env) :
  existsb (in_flight w) CRYPTO_APIS = false ->
  exists prices,
    get_bitcoin_all_sources w = JSONResponse (aggregate_report w prices) /\
    dict_keys prices = registered /\
    (forall s, In s registered -> count_occ string_dec (dict_keys prices) s = 1%nat) /\
    (forall s, In s (dict_keys prices) -> In s registered) /\
    (forall r, get_bitcoin_all_sources w = Ret r ->
               report_field "bitcoin_prices" r = Some (PDict prices)).
Proof.
  intros Hdone.
  unfold get_bitcoin_all_sources. rewrite (all_results_in_time w Hdone).
  cbn [py_bind]. eexists.
  split; [reflexivity|].
  assert (K : dict_keys (map (fun sc => (fst sc, PDict (source_record w sc))) CRYPTO_APIS)
              = registered).
  { unfold dict_keys, registered. rewrite map_map. reflexivity. }
  rewrite K. split; [reflexivity|]. split; [|split].
  - intros s Hs. now apply NoDup_count_occ'; [apply registered_NoDup|].
  - auto.
  - intros r. unfold JSONResponse.
    destruct (json_compliant _); [|destruct (finite_floats _); discriminate].
    intros [= <-]. reflexivity.
Qed.

Lemma report_has_every_source_witness :
  exists prices,
    get_bitcoin_all_sources calm = JSONResponse (aggregate_report calm prices) /\
    dict_keys prices = registered /\
    (forall s, In s registered -> count_occ string_dec (dict_keys prices) s = 1%nat) /\
    (forall s, In s (dict_keys prices) -> In s registered) /\
    (forall r, get_bitcoin_all_sources calm = Ret r ->
               report_field "bitcoin_prices" r = Some (PDict prices)).
Proof. exact (report_has_every_source calm eq_refl). Defined.

(** C1, as it fails: with kraken still in flight at the deadline the
    report holds one entry, under the key "error", which is no
    registered identifier; coinbase, which is registered and had
    answered, has no entry. *)
Lemma deadline_report_has_no_source :
  get_bitcoin_all_sources slow_kraken
  = Ret (answer_200 (PDict
      [("bitcoin_prices", PDict [("error", PStr "Global timeout reached")]);
       ("timestamp", PStr "2024-01-01 00:00:00");
       ("successful_sources", PInt 0);
       ("failed_sources", PInt 0)])) /\
  In "coinbase" registered /\
  ~ In "coinbase" (dict_keys [("error", PStr "Global timeout reached")]) /\
  ~ In "error" registered.
Proof.
  split; [vm_compute; reflexivity|].
  split; [now left|].
  split; simpl; intuition discriminate.
Qed.

(** C2. When no unit of work is still in flight at the 60-second
    deadline, the [successful_sources] and [failed_sources] of the
    report GET /bitcoin/all builds add up to the number of sources in
    [CRYPTO_APIS]. *)
Theorem counts_add_up (w : Env) :
  existsb (in_flight w) CRYPTO_APIS = false ->
  exists prices ok failed,
    get_bitcoin_all_sources w
    = JSONResponse (PDict
        [("bitcoin_prices", PDict prices);
         ("timestamp", PStr (now w));
         ("successful_sources", PInt ok);
         ("failed_sources", PInt failed)]) /\
    ok + failed = Z.of_nat (List.length CRYPTO_APIS).
Proof.
  intros Hdone.
  unfold get_bitcoin_all_sources. rewrite (all_results_in_time w Hdone).
  cbn [py_bind]. eexists; eexists; eexists.
  split; [reflexivity|].
  apply count_records.
Qed.

Lemma counts_add_up_witness :
  exists prices ok failed,
    get_bitcoin_all_sources calm
    = JSONResponse (PDict
        [("bitcoin_prices", PDict prices);
         ("timestamp", PStr (now calm));
         ("successful_sources", PInt ok);
         ("failed_sources", PInt failed)]) /\
    ok + failed = Z.of_nat (List.length CRYPTO_APIS).
Proof. exact (counts_add_up calm eq_refl). Defined.

(** C2, as it fails: with kraken still in flight at the deadline both
    counts are 0, for the one value of [results] is a string and no
    record, while six sources are registered. *)
Lemma deadline_counts_are_zero :
  exists r,
    get_bitcoin_all_sources slow_kraken = Ret r /\
    report_field "successful_sources" r = Some (PInt 0) /\
    report_field "failed_sources" r = Some (PInt 0) /\
    0 + 0 <> Z.of_nat (List.length CRYPTO_APIS).
Proof.
  eexists. split; [vm_compute; reflexivity|].
  repeat split. discriminate.
Qed.

(** C3. When the 60-second deadline comes with a unit of work still in
    flight, the report is that of the global timeout: [bitcoin_prices]
    is the one entry "error": "Global timeout reached", and both counts
    are 0. *)
Theorem deadline_report (w : Env) :
  existsb (in_flight w) CRYPTO_APIS = true ->
  get_bitcoin_all_sources w
  = Ret (answer_200 (PDict
      [("bitcoin_prices", PDict [("error", PStr "Global timeout reached")]);
       ("timestamp", PStr (now w));
       ("successful_sources", PInt 0);
       ("failed_sources", PInt 0)])).
Proof.
  intros Hlate.
  unfold get_bitcoin_all_sources. rewrite (all_results_deadline w Hlate).
  cbn [py_bind]. rewrite deadline_report_rendered. reflexivity.
Qed.

Lemma deadline_report_witness :
  get_bitcoin_all_sources slow_kraken
  = Ret (answer_200 (PDict
      [("bitcoin_prices", PDict [("error", PStr "Global timeout reached")]);
       ("timestamp", PStr (now slow_kraken));
       ("successful_sources", PInt 0);
       ("failed_sources", PInt 0)])).
Proof. exact (deadline_report slow_kraken eq_refl). Defined.

(** C3, as it fails: kraken is in flight at the deadline and coinbase
    has finished with a price record; the report has an entry for
    neither, kraken is not recorded as timed out under its identifier
    and the record of coinbase is gone. *)
Lemma deadline_report_drops_outcomes :
  in_flight slow_kraken ("kraken", kraken_config) = true /\
  in_flight slow_kraken
    ("coinbase",
     {| url := "https://api.coinbase.com/v2/exchange-rates?currency=BTC";
        requires_key := false; timeout := 8 |}) = false /\
  source_record slow_kraken
    ("coinbase",
     {| url := "https://api.coinbase.com/v2/exchange-rates?currency=BTC";
        requires_key := false; timeout := 8 |})
  = [("usd", PFloat (Float64.of_Z 50000));
     ("eur", PFloat (Float64.of_Z 46000));
     ("gbp", PFloat (Float64.of_Z 40000))] /\
  exists r prices,
    get_bitcoin_all_sources slow_kraken = Ret r /\
    report_field "bitcoin_prices" r = Some (PDict prices) /\
    dict_lookup "kraken" prices = None /\
    dict_lookup "coinbase" prices = None.
Proof.
  split; [vm_compute; reflexivity|].
  split; [vm_compute; reflexivity|].
  split; [vm_compute; reflexivity|].
  eexists; eexists. split; [vm_compute; reflexivity|].
  repeat split.
Qed.

(** ** The retried request of GET /bitcoin/source *)

Lemma requests_failed_class (o : py response) (e : exn) :
  requests_failed o e -> is_request_exception e = true.
Proof.
  intros [[_ H]|[[r [_ H]]|[r [_ [_ [_ H]]]]]]; [exact H| |exact H].
  unfold requests_raise_for_status in H.
  destruct ((400 <=? status_code r) && (status_code r <? 600)); [|discriminate].
  injection H as <-. reflexivity.
Qed.

Lemma source_attempt_ok (w : Env) (s : string) (c : Config)
    (h p : list (string * string)) (n : nat) (data : pyval) (d : dict) :
  requests_ok (requests_answer w (url c) n) data ->
  parse_crypto_response w s data = Ret d ->
  source_attempt w s c h p n
  = ([EGet (url c) h p (timeout c)],
     match JSONResponse (source_content w s d) with
     | Ret r => Ret (Return r)
     | Raise e => Raise e
     end).
Proof.
  intros [r [Hr [Hst Hj]]] Hd.
  unfold source_attempt, requests_get, lift.
  rewrite Hr. cbn [io_try io_bind]. rewrite Hst. cbn [io_try io_bind].
  rewrite Hj. cbn [io_try io_bind]. rewrite Hd. cbn [io_try io_bind].
  unfold source_content, JSONResponse.
  destruct (json_compliant _); [|destruct (finite_floats _)]; reflexivity.
Qed.

Lemma source_attempt_failed (w : Env) (s : string) (c : Config)
    (h p : list (string * string)) (n : nat) (e : exn) :
  requests_failed (requests_answer w (url c) n) e ->
  source_attempt w s c h p n
  = ([EGet (url c) h p (timeout c)],
     if (n =? 0)%nat then Ret Continue else Raise (source_failure w s e)).
Proof.
  intros Hf. pose proof (requests_failed_class _ _ Hf) as Hc.
  unfold source_attempt, requests_get, lift, source_failure.
  destruct Hf as [[Hr _]|[[r [Hr Hst]]|[r [Hr [Hst [Hj _]]]]]]; rewrite Hr;
    cbn [io_try io_bind].
  - rewrite Hc. destruct (is_requests_timeout e), (n =? 0)%nat; reflexivity.
  - rewrite Hst. cbn [io_try io_bind]. rewrite Hc.
    destruct (is_requests_timeout e), (n =? 0)%nat; reflexivity.
  - rewrite Hst. cbn [io_try io_bind]. rewrite Hj. cbn [io_try io_bind]. rewrite Hc.
    destruct (is_requests_timeout e), (n =? 0)%nat; reflexivity.
Qed.

(** A pass makes one request, whatever comes of it. *)
Lemma source_attempt_trace (w : Env) (s : string) (c : Config)
    (h p : list (string * string)) (n : nat) :
  trace_of (source_attempt w s c h p n) = [EGet (url c) h p (timeout c)].
Proof.
  unfold source_attempt, requests_get, lift, trace_of.
  destruct (requests_answer w (url c) n) as [r|e]; cbn [io_try io_bind].
  - destruct (requests_raise_for_status r) as [[]|e]; cbn [io_try io_bind].
    + destruct (json r) as [data|e]; cbn [io_try io_bind].
      * destruct (parse_total w s data) as [d ->]. cbn [io_try io_bind].
        destruct (JSONResponse _) as [a|e]; cbn [io_try io_bind]; [reflexivity|].
        destruct (is_requests_timeout e), (is_request_exception e), (n =? 0)%nat;
          reflexivity.
      * destruct (is_requests_timeout e), (is_request_exception e), (n =? 0)%nat;
          reflexivity.
    + destruct (is_requests_timeout e), (is_request_exception e), (n =? 0)%nat;
        reflexivity.
  - destruct (is_requests_timeout e), (is_request_exception e), (n =? 0)%nat;
      reflexivity.
Qed.

Lemma source_loop_trace (w : Env) (s : string) (c : Config) (h p : list (string * string)) :
  let g := EGet (url c) h p (timeout c) in
  trace_of (for_attempts (source_attempt w s c h p) (range 2)) = [g] \/
  trace_of (for_attempts (source_attempt w s c h p) (range 2)) = [g; g].
Proof.
  intros g. cbn [range seq for_attempts].
  pose proof (source_attempt_trace w s c h p 0) as T0.
  pose proof (source_attempt_trace w s c h p 1) as T1.
  unfold trace_of in *.
  destruct (source_attempt w s c h p 0) as [t0 [[r0|]|e0]]; simpl in T0; subst t0;
    cbn [io_bind io_ret]; auto.
  destruct (source_attempt w s c h p 1) as [t1 [[r1|]|e1]]; simpl in T1; subst t1;
    cbn [io_bind io_ret fst app]; auto.
Qed.

(** Before the loop nothing is requested, for a source other than
    nobitex whose key, if it needs one, is configured. *)
Lemma prepare_continue (w : Env) (s : string) (c : Config) :
  s <> "nobitex" ->
  (s = "coinmarketcap" -> no_api_key w = false) ->
  prepare w s c = ([], Ret Continue).
Proof.
  intros Hn Hk. unfold prepare.
  destruct (String.eqb_spec s "coinmarketcap") as [E|_].
  - now rewrite (Hk E).
  - destruct (String.eqb_spec s "nobitex"); [contradiction|reflexivity].
Qed.

Lemma get_bitcoin_from_source_loop (w : Env) (s : string) (c : Config) :
  registry_lookup s CRYPTO_APIS = Some c ->
  s <> "nobitex" ->
  (s = "coinmarketcap" -> no_api_key w = false) ->
  get_bitcoin_from_source w s
  = io_try
      (for_attempts
         (source_attempt w s c (request_headers w s) (request_params "USD,EUR,GBP" s))
         (range 2))
      (fun e =>
         if is_http_exception e then io_raise e
         else io_raise (HTTPException 500
                ("Error fetching from " ++ s ++ ": " ++ str_exn w e))).
Proof.
  intros Hreg Hn Hk. unfold get_bitcoin_from_source. rewrite Hreg.
  rewrite (prepare_continue w s c Hn Hk). unfold io_bind at 1.
  destruct (for_attempts _ _) as [t r]. reflexivity.
Qed.

Lemma source_first_ok (w : Env) (s : string) (c : Config) (data : pyval) (d : dict) :
  registry_lookup s CRYPTO_APIS = Some c ->
  s <> "nobitex" ->
  (s = "coinmarketcap" -> no_api_key w = false) ->
  requests_ok (requests_answer w (url c) 0) data ->
  parse_crypto_response w s data = Ret d ->
  get_bitcoin_from_source w s = ([source_request w s c], source_reply w s d).
Proof.
  intros Hreg Hn Hk Hok Hd.
  rewrite (get_bitcoin_from_source_loop w s c Hreg Hn Hk).
  cbn [range seq for_attempts].
  rewrite (source_attempt_ok w s c _ _ 0 data d Hok Hd).
  unfold source_reply, JSONResponse.
  destruct (json_compliant _); [|destruct (finite_floats _)]; reflexivity.
Qed.

Lemma source_retry_ok (w : Env) (s : string) (c : Config) (e1 : exn)
    (data : pyval) (d : dict) :
  registry_lookup s CRYPTO_APIS = Some c ->
  s <> "nobitex" ->
  (s = "coinmarketcap" -> no_api_key w = false) ->
  requests_failed (requests_answer w (url c) 0) e1 ->
  requests_ok (requests_answer w (url c) 1) data ->
  parse_crypto_response w s data = Ret d ->
  get_bitcoin_from_source w s
  = ([source_request w s c; source_request w s c], source_reply w s d).
Proof.
  intros Hreg Hn Hk Hf Hok Hd.
  rewrite (get_bitcoin_from_source_loop w s c Hreg Hn Hk).
  cbn [range seq for_attempts].
  rewrite (source_attempt_failed w s c _ _ 0 e1 Hf).
  rewrite (source_attempt_ok w s c _ _ 1 data d Hok Hd).
  unfold source_reply, JSONResponse.
  destruct (json_compliant _); [|destruct (finite_floats _)]; reflexivity.
Qed.

Lemma source_retry_failed (w : Env) (s : string) (c : Config) (e1 e2 : exn) :
  registry_lookup s CRYPTO_APIS = Some c ->
  s <> "nobitex" ->
  (s = "coinmarketcap" -> no_api_key w = false) ->
  requests_failed (requests_answer w (url c) 0) e1 ->
  requests_failed (requests_answer w (url c) 1) e2 ->
  get_bitcoin_from_source w s
  = ([source_request w s c; source_request w s c], Raise (source_failure w s e2)).
Proof.
  intros Hreg Hn Hk Hf1 Hf2.
  rewrite (get_bitcoin_from_source_loop w s c Hreg Hn Hk).
  cbn [range seq for_attempts].
  rewrite (source_attempt_failed w s c _ _ 0 e1 Hf1).
  rewrite (source_attempt_failed w s c _ _ 1 e2 Hf2).
  unfold source_failure. destruct (is_requests_timeout e2); reflexivity.
Qed.

Lemma source_requests_bounded (w : Env) (s : string) (c : Config) :
  registry_lookup s CRYPTO_APIS = Some c ->
  s <> "nobitex" ->
  (s = "coinmarketcap" -> no_api_key w = false) ->
  gets (trace_of (get_bitcoin_from_source w s)) = [source_request w s c] \/
  gets (trace_of (get_bitcoin_from_source w s)) = [source_request w s c; source_request w s c].
Proof.
  intros Hreg Hn Hk.
  rewrite (get_bitcoin_from_source_loop w s c Hreg Hn Hk).
  pose proof (source_loop_trace w s c (request_headers w s)
                (request_params "USD,EUR,GBP" s)) as T.
  cbv zeta in T. unfold trace_of in *.
  destruct (for_attempts _ _) as [t [r|e]]; cbn [io_try fst] in *.
  - destruct T as [-> | ->]; [left|right]; reflexivity.
  - destruct (is_http_exception e); cbn [io_raise fst];
      rewrite app_nil_r; destruct T as [-> | ->]; [left|right|left|right]; reflexivity.
Qed.

(** ** The retried request of GET /bitcoin/all, by outcome *)

Lemma fetch_attempt_ok (w : Env) (s : string) (c : Config)
    (h p : list (string * string)) (n : nat) (data : pyval) (d : dict) :
  httpx_ok (httpx_answer w (url c) n) data ->
  parse_crypto_response w s data = Ret d ->
  fetch_attempt w s c h p n = ([EGet (url c) h p (timeout c)], Ret (Return (s, d))).
Proof.
  intros [r [Hr [Hst Hj]]] Hd.
  unfold fetch_attempt, client_get, lift.
  rewrite Hr. cbn [io_try io_bind]. rewrite Hst. cbn [Z.eqb Pos.eqb].
  rewrite Hj. cbn [io_try io_bind]. rewrite Hd. reflexivity.
Qed.

Lemma fetch_attempt_failed (w : Env) (s : string) (c : Config)
    (h p : list (string * string)) (n : nat) :
  httpx_failed (httpx_answer w (url c) n) = true ->
  fetch_attempt w s c h p n
  = if (n =? 0)%nat
    then ([EGet (url c) h p (timeout c); ESleep 1], Ret Continue)
    else ([EGet (url c) h p (timeout c)],
          Ret (Return (s, error_record (httpx_failure_text w (httpx_answer w (url c) n))))).
Proof.
  unfold httpx_failed, httpx_failure_text, exception_text, fetch_attempt, client_get, lift.
  destruct (httpx_answer w (url c) n) as [r|e]; cbn [io_try io_bind].
  - destruct (status_code r =? 200).
    + destruct (json r) as [data|e]; [discriminate|]. intros _. cbn [io_try io_bind].
      destruct (is_httpx_timeout e), (n =? 0)%nat; reflexivity.
    + intros _. destruct (json r), (n =? 0)%nat; reflexivity.
  - intros _. destruct (is_httpx_timeout e), (n =? 0)%nat; reflexivity.
Qed.

(** An answer is taken for good or for a failure. *)
Lemma httpx_ok_or_failed (o : py response) :
  httpx_failed o = false -> exists data, httpx_ok o data.
Proof.
  unfold httpx_failed, httpx_ok. destruct o as [r|e]; [|discriminate].
  destruct (Z.eqb_spec (status_code r) 200) as [E|]; [|discriminate].
  destruct (json r) as [data|e] eqn:J; [|discriminate].
  intros _. exists data, r. auto.
Qed.

(** The retried path of [fetch_source]: every source but coinbase and
    binance, coinmarketcap when its key is configured. *)
Lemma fetch_source_loop (w : Env) (s : string) (c : Config) :
  s <> "coinbase" -> s <> "binance" ->
  (s = "coinmarketcap" -> no_api_key w = false) ->
  fetch_source w s c
  = for_attempts
      (fetch_attempt w s c (request_headers w s) (request_params "USD" s)) (range 2).
Proof.
  intros Hc Hb Hk. unfold fetch_source.
  assert (E : (s =? "coinmarketcap")%string && no_api_key w = false).
  { destruct (String.eqb_spec s "coinmarketcap") as [E|_]; [now rewrite (Hk E)|reflexivity]. }
  rewrite E.
  destruct (String.eqb_spec s "coinbase"); [contradiction|].
  destruct (String.eqb_spec s "binance"); [contradiction|].
  destruct (fetch_loop_cases w s c (request_headers w s) (request_params "USD" s))
    as [d [-> | ->]]; reflexivity.
Qed.

Lemma fetch_first_ok (w : Env) (s : string) (c : Config) (data : pyval) (d : dict) :
  s <> "coinbase" -> s <> "binance" ->
  (s = "coinmarketcap" -> no_api_key w = false) ->
  httpx_ok (httpx_answer w (url c) 0) data ->
  parse_crypto_response w s data = Ret d ->
  fetch_source w s c = ([all_request w s c], Ret (Some (s, d))).
Proof.
  intros Hc Hb Hk Hok Hd. rewrite (fetch_source_loop w s c Hc Hb Hk).
  cbn [range seq for_attempts].
  rewrite (fetch_attempt_ok w s c _ _ 0 data d Hok Hd). reflexivity.
Qed.

Lemma fetch_retry_ok (w : Env) (s : string) (c : Config) (data : pyval) (d : dict) :
  s <> "coinbase" -> s <> "binance" ->
  (s = "coinmarketcap" -> no_api_key w = false) ->
  httpx_failed (httpx_answer w (url c) 0) = true ->
  httpx_ok (httpx_answer w (url c) 1) data ->
  parse_crypto_response w s data = Ret d ->
  fetch_source w s c
  = ([all_request w s c; ESleep 1; all_request w s c], Ret (Some (s, d))).
Proof.
  intros Hc Hb Hk Hf Hok Hd. rewrite (fetch_source_loop w s c Hc Hb Hk).
  cbn [range seq for_attempts].
  rewrite (fetch_attempt_failed w s c _ _ 0 Hf).
  rewrite (fetch_attempt_ok w s c _ _ 1 data d Hok Hd). reflexivity.
Qed.

Lemma fetch_retry_failed (w : Env) (s : string) (c : Config) :
  s <> "coinbase" -> s <> "binance" ->
  (s = "coinmarketcap" -> no_api_key w = false) ->
  httpx_failed (httpx_answer w (url c) 0) = true ->
  httpx_failed (httpx_answer w (url c) 1) = true ->
  fetch_source w s c
  = ([all_request w s c; ESleep 1; all_request w s c],
     Ret (Some (s, error_record (httpx_failure_text w (httpx_answer w (url c) 1))))).
Proof.
  intros Hc Hb Hk Hf1 Hf2. rewrite (fetch_source_loop w s c Hc Hb Hk).
  cbn [range seq for_attempts].
  rewrite (fetch_attempt_failed w s c _ _ 0 Hf1).
  rewrite (fetch_attempt_failed w s c _ _ 1 Hf2). reflexivity.
Qed.

Lemma fetch_requests_bounded (w : Env) (s : string) (c : Config) :
  s <> "coinbase" -> s <> "binance" ->
  (s = "coinmarketcap" -> no_api_key w = false) ->
  trace_of (fetch_source w s c) = [all_request w s c] \/
  trace_of (fetch_source w s c) = [all_request w s c; ESleep 1; all_request w s c].
Proof.
  intros Hc Hb Hk. rewrite (fetch_source_loop w s c Hc Hb Hk).
  destruct (fetch_loop_cases w s c (request_headers w s) (request_params "USD" s))
    as [d [-> | ->]]; [left|right]; reflexivity.
Qed.

Lemma fetch_retry_trace (w : Env) (s : string) (c : Config) :
  s <> "coinbase" -> s <> "binance" ->
  (s = "coinmarketcap" -> no_api_key w = false) ->
  httpx_failed (httpx_answer w (url c) 0) = true ->
  trace_of (fetch_source w s c) = [all_request w s c; ESleep 1; all_request w s c].
Proof.
  intros Hc Hb Hk Hf. rewrite (fetch_source_loop w s c Hc Hb Hk).
  cbn [range seq for_attempts].
  rewrite (fetch_attempt_failed w s c _ _ 0 Hf). cbn [Nat.eqb].
  destruct (fetch_attempt_cases w s c (request_headers w s) (request_params "USD" s) 1)
    as [[d ->]|[H _]]; [reflexivity|discriminate].
Qed.

Lemma source_retry_trace (w : Env) (s : string) (c : Config) (e1 : exn) :
  registry_lookup s CRYPTO_APIS = Some c ->
  s <> "nobitex" ->
  (s = "coinmarketcap" -> no_api_key w = false) ->
  requests_failed (requests_answer w (url c) 0) e1 ->
  gets (trace_of (get_bitcoin_from_source w s))
  = [source_request w s c; source_request w s c].
Proof.
  intros Hreg Hn Hk Hf.
  rewrite (get_bitcoin_from_source_loop w s c Hreg Hn Hk).
  cbn [range seq for_attempts].
  rewrite (source_attempt_failed w s c _ _ 0 e1 Hf). cbn [Nat.eqb].
  pose proof (source_attempt_trace w s c (request_headers w s)
                (request_params "USD,EUR,GBP" s) 1) as T.
  unfold trace_of in *.
  destruct (source_attempt w s c _ _ 1) as [t1 [[r1|]|e1']]; simpl in T; subst t1;
    try reflexivity.
  cbn [io_bind io_try]. destruct (is_http_exception e1'); reflexivity.
Qed.

(** C4. A source on the retried path makes at most two requests, on
    GET /bitcoin/all as on GET /bitcoin/source.
    On GET /bitcoin/all an answer of status 200 with a JSON body to the
    first request is returned with no further request; every other
    first answer is a failure (an exception of the request, another
    status, or a body of status 200 that [json()] cannot decode): the
    unit sleeps one second and makes the second request; a good second
    answer is returned, and a failed one is recorded with its own
    failure ("HTTP <status>", "Timeout" or the exception's text), not
    the first's.
    On GET /bitcoin/source an answer that [raise_for_status] lets pass
    is returned with no further request ([source_reply]: the parsed
    record with [source] and [timestamp], or the 500 of a record that
    cannot be rendered); after a request failed with a
    [RequestException] (of the request, of [raise_for_status] or of
    [json()]) the second is made; a good second answer is returned, and
    a failed one is raised as 504 when it is a timeout and as 503 with
    its own text otherwise. *)
Theorem retry_policy (w : Env) (source : string) (config : Config) :
  (source <> "coinbase" -> source <> "binance" ->
   (source = "coinmarketcap" -> no_api_key w = false) ->
   let g := all_request w source config in
   let first := httpx_answer w (url config) 0 in
   let second := httpx_answer w (url config) 1 in
   (trace_of (fetch_source w source config) = [g] \/
    trace_of (fetch_source w source config) = [g; ESleep 1; g]) /\
   (forall data d,
      httpx_ok first data -> parse_crypto_response w source data = Ret d ->
      fetch_source w source config = ([g], Ret (Some (source, d)))) /\
   (httpx_failed first = false -> exists data, httpx_ok first data) /\
   (httpx_failed first = true ->
    trace_of (fetch_source w source config) = [g; ESleep 1; g] /\
    (forall data d,
       httpx_ok second data -> parse_crypto_response w source data = Ret d ->
       outcome_of (fetch_source w source config) = Ret (Some (source, d))) /\
    (httpx_failed second = false -> exists data, httpx_ok second data) /\
    (httpx_failed second = true ->
     outcome_of (fetch_source w source config)
     = Ret (Some (source, error_record (httpx_failure_text w second)))))) /\
  (registry_lookup source CRYPTO_APIS = Some config ->
   source <> "nobitex" ->
   (source = "coinmarketcap" -> no_api_key w = false) ->
   let g := source_request w source config in
   let first := requests_answer w (url config) 0 in
   let second := requests_answer w (url config) 1 in
   (gets (trace_of (get_bitcoin_from_source w source)) = [g] \/
    gets (trace_of (get_bitcoin_from_source w source)) = [g; g]) /\
   (forall data d,
      requests_ok first data -> parse_crypto_response w source data = Ret d ->
      get_bitcoin_from_source w source = ([g], source_reply w source d)) /\
   (forall e1,
      requests_failed first e1 ->
      gets (trace_of (get_bitcoin_from_source w source)) = [g; g] /\
      (forall data d,
         requests_ok second data -> parse_crypto_response w source data = Ret d ->
         outcome_of (get_bitcoin_from_source w source) = source_reply w source d) /\
      (forall e2,
         requests_failed second e2 ->
         outcome_of (get_bitcoin_from_source w source)
         = Raise (source_failure w source e2)))).
Proof.
  split.
  - intros Hc Hb Hk g first second. split; [|split; [|split]].
    + apply fetch_requests_bounded; assumption.
    + intros data d. apply fetch_first_ok; assumption.
    + apply httpx_ok_or_failed.
    + intros Hf. split; [|split; [|split]].
      * apply fetch_retry_trace; assumption.
      * intros data d Hok Hd.
        now rewrite (fetch_retry_ok w source config data d Hc Hb Hk Hf Hok Hd).
      * apply httpx_ok_or_failed.
      * intros Hf2.
        now rewrite (fetch_retry_failed w source config Hc Hb Hk Hf Hf2).
  - intros Hreg Hn Hk g first second. split; [|split].
    + apply source_requests_bounded; assumption.
    + intros data d. apply source_first_ok; assumption.
    + intros e1 Hf. split; [|split].
      * apply (source_retry_trace w source config e1); assumption.
      * intros data d Hok Hd.
        now rewrite (source_retry_ok w source config e1 data d Hreg Hn Hk Hf Hok Hd).
      * intros e2 Hf2.
        now rewrite (source_retry_failed w source config e1 e2 Hreg Hn Hk Hf Hf2).
Qed.

Lemma retry_policy_witness :
  (trace_of (fetch_source undecoded_kraken "kraken" kraken_config)
   = [all_request undecoded_kraken "kraken" kraken_config; ESleep 1;
      all_request undecoded_kraken "kraken" kraken_config] /\
   outcome_of (fetch_source undecoded_kraken "kraken" kraken_config)
   = Ret (Some ("kraken", error_record (str_exn undecoded_kraken JSONDecodeError)))) /\
  (gets (trace_of (get_bitcoin_from_source undecoded_kraken "kraken"))
   = [source_request undecoded_kraken "kraken" kraken_config;
      source_request undecoded_kraken "kraken" kraken_config] /\
   outcome_of (get_bitcoin_from_source undecoded_kraken "kraken")
   = Raise (HTTPException 503
       ("Network error while fetching from kraken: "
        ++ str_exn undecoded_kraken RequestsJSONDecodeError))).
Proof.
  destruct (retry_policy undecoded_kraken "kraken" kraken_config) as [Hall Hone].
  split.
  - destruct Hall as [_ [_ [_ Hf]]]; [discriminate | discriminate | discriminate |].
    destruct (Hf eq_refl) as [Ht [_ [_ He]]].
    split; [exact Ht | exact (He eq_refl)].
  - destruct Hone as [_ [_ Hf]]; [reflexivity | discriminate | discriminate |].
    assert (F : forall n, requests_failed
                            (requests_answer undecoded_kraken (url kraken_config) n)
                            RequestsJSONDecodeError).
    { intros n. right. right. eexists. repeat split. }
    destruct (Hf RequestsJSONDecodeError (F 0%nat)) as [Ht [_ He]].
    split; [exact Ht |].
    exact (He RequestsJSONDecodeError (F 1%nat)).
Defined.

(** C4, as it fails.  On GET /bitcoin/all a 2xx answer other than 200 is
    not returned: kraken's 203 with a good body is followed by a second
    of sleep and a second request.  On GET /bitcoin/source there is no
    wait before the retry: after kraken's first request timed out the
    second follows at once. *)
Lemma retry_policy_fails_as_stated :
  (httpx_answer proxied_kraken kraken_url 0 = answer 203 kraken_payload /\
   fetch_source proxied_kraken "kraken" kraken_config
   = ([all_request proxied_kraken "kraken" kraken_config; ESleep 1;
       all_request proxied_kraken "kraken" kraken_config],
      Ret (Some ("kraken", [("usd", PFloat (Float64.of_Z 50000))])))) /\
  (requests_answer flaky_kraken kraken_url 0 = Raise RequestsTimeout /\
   get_bitcoin_from_source flaky_kraken "kraken"
   = ([source_request flaky_kraken "kraken" kraken_config;
       source_request flaky_kraken "kraken" kraken_config],
      Ret (Some (answer_200 (PDict
        [("usd", PFloat (Float64.of_Z 50000));
         ("source", PStr "kraken");
         ("timestamp", PStr "2024-01-01 00:00:00")]))))).
Proof.
  split; split; vm_compute; reflexivity.
Qed.

(** ** Sources without their key, unknown sources, unparsed answers *)

Lemma lookup_records (f : string * Config -> dict) (l : list (string * Config))
    (sc : string * Config) :
  NoDup (map fst l) -> In sc l ->
  dict_lookup (fst sc) (map (fun x => (fst x, PDict (f x))) l) = Some (PDict (f sc)).
Proof.
  induction l as [|x l IH]; intros Hnd Hin; [contradiction|].
  inversion Hnd as [|? ? Hnotin Hnd']; subst. simpl.
  destruct Hin as [->|Hin].
  - now rewrite String.eqb_refl.
  - destruct (String.eqb_spec (fst x) (fst sc)) as [E|_]; [|now apply IH].
    exfalso. apply Hnotin. rewrite E. now apply in_map.
Qed.

Lemma fetch_source_without_key (w : Env) (config : Config) :
  no_api_key w = true ->
  fetch_source w "coinmarketcap" config
  = ([], Ret (Some ("coinmarketcap",
                    error_record "API key required but not configured"))).
Proof.
  intros Hk. unfold fetch_source. rewrite Hk. reflexivity.
Qed.

(** The unit of work of another source does not read the key. *)
Lemma fetch_source_ignores_key (w : Env) (k : option string) (s : string) (c : Config) :
  s <> "coinmarketcap" ->
  fetch_source (with_api_key k w) s c = fetch_source w s c.
Proof.
  intros Hs. unfold fetch_source, request_headers.
  destruct (String.eqb_spec s "coinmarketcap"); [contradiction|reflexivity].
Qed.

(** Another source asks its own URL first, without header or
    parameter. *)
Lemma fetch_source_first_request (w : Env) (s : string) (c : Config) :
  s <> "coinmarketcap" ->
  exists rest,
    trace_of (fetch_source w s c) = EGet (url c) [] [] (timeout c) :: rest.
Proof.
  intros Hs. unfold fetch_source, request_headers, request_params, trace_of.
  destruct (String.eqb_spec s "coinmarketcap"); [contradiction|].
  cbn [andb].
  destruct (s =? "coinbase")%string.
  { destruct (fetch_once_cases w s "Coinbase" c) as [d ->]. eexists. reflexivity. }
  destruct (s =? "binance")%string.
  { destruct (fetch_once_cases w s "Binance" c) as [d ->]. eexists. reflexivity. }
  destruct (fetch_loop_cases w s c [] []) as [d [-> | ->]]; eexists; reflexivity.
Qed.

(** A good first answer of another source is recorded as the
    normalizer reads it. *)
Lemma fetch_source_good_answer (w : Env) (s : string) (c : Config)
    (data : pyval) (d : dict) :
  s <> "coinmarketcap" ->
  httpx_ok (httpx_answer w (url c) 0) data ->
  parse_crypto_response w s data = Ret d ->
  outcome_of (fetch_source w s c) = Ret (Some (s, d)).
Proof.
  intros Hs Hok Hd.
  assert (Once : forall label,
            outcome_of (fetch_once w s label c) = Ret (Some (s, d))).
  { intros label. destruct Hok as [r [Hr [Hst Hj]]].
    unfold fetch_once, client_get, lift, httpx_raise_for_status.
    rewrite Hr. cbn [io_try io_bind]. rewrite Hst. cbn [Z.leb Z.ltb Z.compare Pos.compare
      Pos.compare_cont andb io_try io_bind].
    rewrite Hj. cbn [io_try io_bind]. rewrite Hd. reflexivity. }
  destruct (String.eqb_spec s "coinbase") as [Hc|Hc].
  { subst s. unfold fetch_source. cbn [String.eqb Ascii.eqb Bool.eqb andb].
    pose proof (Once "Coinbase") as O. unfold outcome_of in *.
    destruct (fetch_once w "coinbase" "Coinbase" c) as [t o]. cbn [snd] in O. subst o.
    reflexivity. }
  destruct (String.eqb_spec s "binance") as [Hb|Hb].
  { subst s. unfold fetch_source. cbn [String.eqb Ascii.eqb Bool.eqb andb].
    pose proof (Once "Binance") as O. unfold outcome_of in *.
    destruct (fetch_once w "binance" "Binance" c) as [t o]. cbn [snd] in O. subst o.
    reflexivity. }
  now rewrite (fetch_first_ok w s c data d Hc Hb (fun E => False_ind _ (Hs E)) Hok Hd).
Qed.

(** C8. With no COINMARKETCAP_API_KEY configured, the unit of work of
    coinmarketcap makes no request and returns the record
    "API key required but not configured".  The units of the other
    sources are still run: each starts with the request of its own URL,
    records a good first answer as the normalizer reads it, and runs as
    it would with a key.  When no unit of work is in flight
    at the deadline, the report is built on prices where coinmarketcap
    has that record, a failure, and every source the record of its own
    unit. *)
Theorem missing_key_recorded_without_request (w : Env) :
  no_api_key w = true ->
  (forall config,
     fetch_source w "coinmarketcap" config
     = ([], Ret (Some ("coinmarketcap",
                       error_record "API key required but not configured")))) /\
  (forall s c, s <> "coinmarketcap" ->
     (exists rest,
        trace_of (fetch_source w s c) = EGet (url c) [] [] (timeout c) :: rest) /\
     (forall data d,
        httpx_ok (httpx_answer w (url c) 0) data ->
        parse_crypto_response w s data = Ret d ->
        outcome_of (fetch_source w s c) = Ret (Some (s, d))) /\
     (forall k, fetch_source (with_api_key k w) s c = fetch_source w s c)) /\
  (existsb (in_flight w) CRYPTO_APIS = false ->
   exists prices,
     get_bitcoin_all_sources w = JSONResponse (aggregate_report w prices) /\
     dict_lookup "coinmarketcap" prices
     = Some (PDict (error_record "API key required but not configured")) /\
     is_failure (PDict (error_record "API key required but not configured")) = true /\
     (forall sc, In sc CRYPTO_APIS ->
                 dict_lookup (fst sc) prices = Some (PDict (source_record w sc)))).
Proof.
  intros Hk. split; [|split].
  - intros config. now apply fetch_source_without_key.
  - intros s c Hs. split; [|split].
    + now apply fetch_source_first_request.
    + intros data d. now apply fetch_source_good_answer.
    + intros k. now apply fetch_source_ignores_key.
  - intros Hdone.
    unfold get_bitcoin_all_sources. rewrite (all_results_in_time w Hdone).
    cbn [py_bind]. eexists.
    split; [reflexivity|].
    assert (L : forall sc, In sc CRYPTO_APIS ->
              dict_lookup (fst sc)
                (map (fun x => (fst x, PDict (source_record w x))) CRYPTO_APIS)
              = Some (PDict (source_record w sc))).
    { intros sc Hin. apply lookup_records; [exact registered_NoDup | exact Hin]. }
    split; [|split; [reflexivity | exact L]].
    assert (Lc := L ("coinmarketcap", coinmarketcap_config)).
    cbn [fst] in Lc. rewrite Lc by (simpl; auto).
    unfold source_record, outcome_of. cbn [fst snd].
    now rewrite (fetch_source_without_key w coinmarketcap_config Hk).
Qed.

Lemma missing_key_recorded_without_request_witness :
  fetch_source calm "coinmarketcap" coinmarketcap_config
  = ([], Ret (Some ("coinmarketcap",
                    error_record "API key required but not configured"))) /\
  ((exists rest,
      trace_of (fetch_source calm "kraken" kraken_config)
      = EGet (url kraken_config) [] [] (timeout kraken_config) :: rest) /\
   outcome_of (fetch_source calm "kraken" kraken_config)
   = Ret (Some ("kraken", [("usd", PFloat (Float64.of_Z 50000))])) /\
   fetch_source (with_api_key (Some "secret") calm) "kraken" kraken_config
   = fetch_source calm "kraken" kraken_config) /\
  exists prices,
    get_bitcoin_all_sources calm = JSONResponse (aggregate_report calm prices) /\
    dict_lookup "coinmarketcap" prices
    = Some (PDict (error_record "API key required but not configured")).
Proof.
  destruct (missing_key_recorded_without_request calm eq_refl) as [H1 [H2 H3]].
  split; [exact (H1 coinmarketcap_config)|].
  split.
  - destruct (H2 "kraken" kraken_config) as [Ht [Hgood Hsame]]; [discriminate|].
    split; [exact Ht|]. split; [|exact (Hsame (Some "secret"))].
    apply (Hgood kraken_payload).
    + eexists. split; [reflexivity|]. split; reflexivity.
    + vm_compute. reflexivity.
  - destruct (H3 eq_refl) as [prices [Hr [Hc _]]].
    exists prices. auto.
Defined.

(** C8, as it fails.  With no key and kraken still in flight when the
    deadline comes, the unit of coinmarketcap has returned its record
    without a request, yet the report holds no entry for coinmarketcap
    and counts no failed source. *)
Lemma missing_key_unrecorded_at_deadline :
  no_api_key slow_kraken = true /\
  fetch_source slow_kraken "coinmarketcap" coinmarketcap_config
  = ([], Ret (Some ("coinmarketcap",
                    error_record "API key required but not configured"))) /\
  exists r,
    get_bitcoin_all_sources slow_kraken = Ret r /\
    report_field "bitcoin_prices" r
    = Some (PDict [("error", PStr "Global timeout reached")]) /\
    (forall prices, report_field "bitcoin_prices" r = Some (PDict prices) ->
                    dict_lookup "coinmarketcap" prices = None) /\
    report_field "failed_sources" r = Some (PInt 0).
Proof.
  split; [reflexivity|]. split; [reflexivity|].
  eexists. split; [vm_compute; reflexivity|].
  split; [reflexivity|]. split; [|reflexivity].
  intros prices [= <-]. reflexivity.
Qed.

Lemma registry_lookup_none (s : string) (l : list (string * Config)) :
  ~ In s (map fst l) -> registry_lookup s l = None.
Proof.
  induction l as [|[k c] l IH]; simpl; intros Hs; [reflexivity|].
  destruct (String.eqb_spec k s) as [->|_].
  - exfalso. apply Hs. now left.
  - apply IH. intros H. apply Hs. now right.
Qed.

(** C9. For an identifier that is not a key of [CRYPTO_APIS] the
    single-source endpoint raises the 400 error "Invalid source", whose
    detail lists the identifiers of the registry, and makes no
    request. *)
Theorem unknown_source_rejected (w : Env) (source : string) :
  ~ In source registered ->
  get_bitcoin_from_source w source
  = ([], Raise (HTTPException 400
       "Invalid source. Available sources: ['coinbase', 'blockchain', 'coinmarketcap', 'binance', 'kraken', 'nobitex']")) /\
  forall s, In s registered ->
    is_substring (repr_str s)
      "Invalid source. Available sources: ['coinbase', 'blockchain', 'coinmarketcap', 'binance', 'kraken', 'nobitex']"
    = true.
Proof.
  intros Hs. split.
  - unfold get_bitcoin_from_source.
    now rewrite (registry_lookup_none source CRYPTO_APIS Hs).
  - intros s Hin. simpl in Hin.
    repeat (destruct Hin as [<-|Hin]; [vm_compute; reflexivity|]).
    contradiction.
Qed.

Lemma unknown_source_rejected_witness :
  get_bitcoin_from_source calm "bitstamp"
  = ([], Raise (HTTPException 400
       "Invalid source. Available sources: ['coinbase', 'blockchain', 'coinmarketcap', 'binance', 'kraken', 'nobitex']")).
Proof.
  refine (proj1 (unknown_source_rejected calm "bitstamp" _)).
  simpl. intuition discriminate.
Defined.

Lemma registry_lookup_in (s : string) (c : Config) (l : list (string * Config)) :
  registry_lookup s l = Some c -> In (s, c) l.
Proof.
  induction l as [|[k c'] l IH]; simpl; [discriminate|].
  destruct (String.eqb_spec k s) as [->|_].
  - intros [= ->]. now left.
  - intros H. right. now apply IH.
Qed.

Lemma registry_lookup_registered (s : string) (c : Config) :
  registry_lookup s CRYPTO_APIS = Some c -> In s registered.
Proof.
  intros H. apply registry_lookup_in in H.
  unfold registered. change s with (fst (s, c)). now apply in_map.
Qed.

Lemma requests_2xx_ok (o : py response) (data : pyval) :
  requests_2xx o data -> requests_ok o data.
Proof.
  intros [r [Hr [Hst Hj]]]. exists r. split; [exact Hr|]. split; [|exact Hj].
  unfold requests_raise_for_status.
  destruct (Z.leb_spec 400 (status_code r)); [lia|reflexivity].
Qed.

(** A record of the normalizer with an "error" is that entry alone. *)
Lemma parse_error_shape (w : Env) (s : string) (data : pyval) (d : dict) :
  parse_crypto_response w s data = Ret d ->
  dict_has "error" d = true ->
  exists msg, d = error_record msg.
Proof.
  unfold parse_crypto_response, parse_body.
  destruct (s =? "coinbase")%string;
    [| destruct (s =? "blockchain")%string;
       [| destruct (s =? "coinmarketcap")%string;
          [| destruct (s =? "binance")%string;
             [| destruct (s =? "kraken")%string;
                [| destruct (s =? "nobitex")%string]]]]];
    cbn [py_bind py_try];
    repeat py_step; intros [= <-]; try discriminate; intros _; eexists; reflexivity.
Qed.

(** The message of such a record can be sent. *)
Lemma parse_error_text (w : Env) (s : string) (data : pyval) (msg : string) :
  parse_crypto_response w s data = Ret (error_record msg) ->
  encodable msg = true.
Proof.
  unfold parse_crypto_response, parse_body.
  destruct (s =? "coinbase")%string;
    [| destruct (s =? "blockchain")%string;
       [| destruct (s =? "coinmarketcap")%string;
          [| destruct (s =? "binance")%string;
             [| destruct (s =? "kraken")%string;
                [| destruct (s =? "nobitex")%string]]]]];
    cbn [py_bind py_try];
    repeat py_step; intros [= <-]; text_ok.
Qed.

(** The content made of an error record is rendered. *)
Lemma error_content_rendered (w : Env) (s msg : string) :
  In s registered ->
  encodable msg = true ->
  source_reply w s (error_record msg)
  = Ret (Some (answer_200 (source_content w s (error_record msg)))).
Proof.
  intros Hin Hmsg. unfold source_reply.
  rewrite JSONResponse_ok; [reflexivity|].
  unfold json_compliant, source_content, error_record.
  cbn in Hin.
  repeat (destruct Hin as [<-|Hin];
          [cbn [dict_set String.eqb Ascii.eqb Bool.eqb finite_floats encodable_strings
                forallb fst snd andb];
           rewrite Hmsg, (now_text w); reflexivity|]).
  contradiction.
Qed.

(** C10. On the single-source endpoint, for a registered source other
    than nobitex, a 2xx answer whose payload the normalizer turns into
    an error record is answered with status 200: the body is that
    record with [source] and [timestamp] added, and no error is raised,
    be the answer that of the first request or of the retry.  A request
    that fails twice raises 504 for a timeout and 503 otherwise, and
    coinmarketcap without its key raises 500. *)
Theorem parse_failure_answers_200 (w : Env) (source : string) (config : Config)
    (data : pyval) (err : dict) :
  registry_lookup source CRYPTO_APIS = Some config ->
  source <> "nobitex" ->
  (source = "coinmarketcap" -> no_api_key w = false) ->
  requests_2xx (requests_answer w (url config) 0) data \/
  (exists e1, requests_failed (requests_answer w (url config) 0) e1 /\
              requests_2xx (requests_answer w (url config) 1) data) ->
  parse_crypto_response w source data = Ret err ->
  dict_has "error" err = true ->
  (exists r,
     outcome_of (get_bitcoin_from_source w source) = Ret (Some r) /\
     reply_status r = 200 /\
     content r = source_content w source err /\
     (exists msg, dict_lookup "error" err = Some msg /\
                  report_field "error" r = Some msg) /\
     report_field "source" r = Some (PStr source) /\
     report_field "timestamp" r = Some (PStr (now w))) /\
  (forall w' e1 e2,
     (source = "coinmarketcap" -> no_api_key w' = false) ->
     requests_failed (requests_answer w' (url config) 0) e1 ->
     requests_failed (requests_answer w' (url config) 1) e2 ->
     outcome_of (get_bitcoin_from_source w' source)
     = Raise (if is_requests_timeout e2 then
                HTTPException 504
                  ("Timeout while fetching from " ++ source ++
                   " after retries. The service might be slow or unavailable.")
              else
                HTTPException 503
                  ("Network error while fetching from " ++ source ++ ": " ++ str_exn w' e2))) /\
  (forall w', no_api_key w' = true ->
     get_bitcoin_from_source w' "coinmarketcap"
     = ([], Raise (HTTPException 500
          "CoinMarketCap requires API key. Add COINMARKETCAP_API_KEY to .env"))).
Proof.
  intros Hreg Hn Hk Hans Herr Hhas. split; [|split].
  - destruct (parse_error_shape w source data err Herr Hhas) as [msg ->].
    exists (answer_200 (source_content w source (error_record msg))).
    split.
    { pose proof (error_content_rendered w source msg
                    (registry_lookup_registered source config Hreg)
                    (parse_error_text w source data msg Herr)) as Hsent.
      destruct Hans as [H0 | [e1 [Hf H1]]].
      - now rewrite (source_first_ok w source config data _ Hreg Hn Hk
                       (requests_2xx_ok _ _ H0) Herr).
      - now rewrite (source_retry_ok w source config e1 data _ Hreg Hn Hk Hf
                       (requests_2xx_ok _ _ H1) Herr). }
    split; [reflexivity|]. split; [reflexivity|].
    split; [exists (PStr msg); split; reflexivity|].
    split; reflexivity.
  - intros w' e1 e2 Hk' Hf1 Hf2.
    rewrite (source_retry_failed w' source config e1 e2 Hreg Hn Hk' Hf1 Hf2).
    unfold source_failure. destruct (is_requests_timeout e2); reflexivity.
  - intros w' Hno. unfold get_bitcoin_from_source, prepare.
    simpl registry_lookup. rewrite Hno. reflexivity.
Qed.

Lemma parse_failure_answers_200_witness :
  outcome_of (get_bitcoin_from_source reshaped_kraken "kraken")
  = Ret (Some (answer_200 (PDict
      [("error", PStr "Unexpected Kraken response format");
       ("source", PStr "kraken");
       ("timestamp", PStr "2024-01-01 00:00:00")]))).
Proof.
  assert (A : requests_2xx (requests_answer reshaped_kraken (url kraken_config) 0)
                kraken_without_pair).
  { eexists. split; [reflexivity|]. split; [simpl; lia | reflexivity]. }
  destruct (parse_failure_answers_200 reshaped_kraken "kraken" kraken_config
              kraken_without_pair
              (error_record "Unexpected Kraken response format")
              eq_refl ltac:(discriminate) ltac:(discriminate)
              (or_introl A) eq_refl eq_refl)
    as [[r [Hr [Hs [Hc _]]]] _].
  destruct r as [st c]. simpl in Hs, Hc. subst st c. exact Hr.
Defined.

(** * Further properties of the price endpoints *)

(** ** Exceptions of the operations on values *)

Lemma plain_getitem (v : pyval) (k : string) : plain (getitem v k).
Proof.
  intros e. destruct v; simpl; try (intros [= <-]; reflexivity).
  destruct (dict_lookup k d); intros [= <-]; reflexivity.
Qed.

Lemma plain_getindex (v : pyval) (i : Z) : plain (getindex v i).
Proof.
  intros e. destruct v; simpl; try (intros [= <-]; reflexivity).
  - destruct (_ <? 0); [intros [= <-]; reflexivity|].
    destruct (char_at _ _); intros [= <-]; reflexivity.
  - destruct (_ <? 0); [intros [= <-]; reflexivity|].
    destruct (nth_error _ _); intros [= <-]; reflexivity.
Qed.

Lemma plain_get (v : pyval) (k : string) (d : pyval) : plain (get v k d).
Proof.
  intros e. destruct v; simpl; try (intros [= <-]; reflexivity).
  destruct (dict_lookup k d0); discriminate.
Qed.

Lemma plain_float_of_int (z : Z) : plain (float_of_int z).
Proof.
  intros e. unfold float_of_int.
  destruct (Float64.is_infinite _); intros [= <-]; reflexivity.
Qed.

Lemma plain_py_float (v : pyval) : plain (py_float v).
Proof.
  intros e. destruct v; simpl; try (intros [= <-]; reflexivity); try discriminate.
  - apply plain_float_of_int.
  - destruct (Float64.of_string s); intros [= <-]; reflexivity.
Qed.

Lemma plain_as_number (v : pyval) : plain (as_number v).
Proof. intros e. destruct v; simpl; intros [= <-]; reflexivity. Qed.

Lemma plain_to_float (n : number) : plain (to_float n).
Proof. intros e. destruct n; simpl; [apply plain_float_of_int | discriminate]. Qed.

Lemma plain_bind {A B} (c : py A) (k : A -> py B) :
  plain c -> (forall a, plain (k a)) -> plain (py_bind c k).
Proof.
  intros Hc Hk e. destruct c as [a|e']; simpl.
  - apply Hk.
  - intros [= <-]. now apply Hc.
Qed.

Lemma plain_ret {A} (a : A) : plain (Ret a).
Proof. intros e. discriminate. Qed.

Lemma plain_arith (fi : Z -> Z -> Z) (ff : float -> float -> float) (a b : pyval) :
  plain (arith fi ff a b).
Proof.
  unfold arith.
  apply plain_bind; [apply plain_as_number|]. intros x.
  apply plain_bind; [apply plain_as_number|]. intros y.
  destruct x, y; try apply plain_ret;
    (apply plain_bind; [apply plain_to_float|]; intros f';
     apply plain_bind; [apply plain_to_float|]; intros g'; apply plain_ret).
Qed.

Lemma plain_py_truediv (a b : pyval) : plain (py_truediv a b).
Proof.
  unfold py_truediv.
  apply plain_bind; [apply plain_as_number|]. intros x.
  apply plain_bind; [apply plain_as_number|]. intros y.
  destruct x as [m|f], y as [n|g].
  - intros e. destruct (n =? 0); [intros [= <-]; reflexivity|].
    destruct (m =? 0); [discriminate|].
    destruct (Float64.is_infinite _); intros [= <-]; reflexivity.
  - apply plain_bind; [apply plain_to_float|]. intros f'.
    apply plain_bind; [apply plain_to_float|]. intros g' e.
    destruct (Float64.is_zero g'); intros [= <-]; reflexivity.
  - apply plain_bind; [apply plain_to_float|]. intros f'.
    apply plain_bind; [apply plain_to_float|]. intros g' e.
    destruct (Float64.is_zero g'); intros [= <-]; reflexivity.
  - apply plain_bind; [apply plain_to_float|]. intros f'.
    apply plain_bind; [apply plain_to_float|]. intros g' e.
    destruct (Float64.is_zero g'); intros [= <-]; reflexivity.
Qed.

Lemma plain_best_price (v : pyval) : plain (best_price v).
Proof.
  unfold best_price. destruct (truthy v); [|apply plain_ret].
  apply plain_bind; [apply plain_getindex|]. intros row.
  apply plain_bind; [apply plain_getindex|]. intros p.
  apply plain_bind; [apply plain_py_float|]. intros f. apply plain_ret.
Qed.

Lemma plain_mid_price_of (b a l : pyval) : plain (mid_price_of b a l).
Proof.
  unfold mid_price_of. destruct (truthy b && truthy a); [|apply plain_ret].
  apply plain_bind; [apply plain_arith|]. intros s. apply plain_py_truediv.
Qed.

Lemma plain_spread_of (b a : pyval) : plain (spread_of b a).
Proof.
  unfold spread_of. destruct (truthy b && truthy a); [apply plain_arith | apply plain_ret].
Qed.

Lemma plain_raise_for_status (r : response) : plain (requests_raise_for_status r).
Proof.
  intros e. unfold requests_raise_for_status.
  destruct (_ && _); intros [= <-]; reflexivity.
Qed.

Lemma plain_JSONResponse (c : pyval) : plain (JSONResponse c).
Proof.
  intros e. unfold JSONResponse.
  destruct (json_compliant c); [discriminate|].
  destruct (finite_floats c); intros [= <-]; reflexivity.
Qed.

Lemma JSONResponse_status (c : pyval) (r : reply) :
  JSONResponse c = Ret r -> r = answer_200 c.
Proof.
  unfold JSONResponse.
  destruct (json_compliant c); [|destruct (finite_floats c); discriminate].
  now intros [= <-].
Qed.

(** ** The outcomes of GET /bitcoin/source *)

Lemma io_bind_lift_ret {A B} (a : A) (k : A -> io B) : io_bind (lift (Ret a)) k = k a.
Proof. unfold io_bind, lift. destruct (k a). reflexivity. Qed.

Lemma io_bind_lift_raise {A B} (e : exn) (k : A -> io B) :
  io_bind (lift (Raise e)) k = ([], Raise e).
Proof. reflexivity. Qed.

Lemma io_bind_ret {A B} (t : list event) (a : A) (k : A -> io B) :
  io_bind (t, Ret a) k = ((t ++ trace_of (k a))%list, outcome_of (k a)).
Proof. unfold io_bind, trace_of, outcome_of. destruct (k a). reflexivity. Qed.

Lemma io_bind_raise {A B} (t : list event) (e : exn) (k : A -> io B) :
  io_bind (t, Raise e) k = (t, Raise e).
Proof. reflexivity. Qed.

(** Closes a branch that ended on an exception of an operation on
    values: such an exception is no [HTTPException]. *)
Ltac plain_leaf :=
  match goal with
  | H : _ = Raise ?e |- _ =>
      first [ apply plain_get in H | apply plain_py_float in H
            | apply plain_best_price in H | apply plain_mid_price_of in H
            | apply plain_spread_of in H | apply plain_raise_for_status in H
            | apply plain_JSONResponse in H | apply plain_getitem in H
            | apply plain_getindex in H ];
      try (right; exact H); try exact H
  end.

(** Runs the next step of an [io] computation both ways. *)
Ltac io_next :=
  match goal with
  | |- context [io_bind (lift ?c) _] =>
      let E := fresh "E" in
      destruct c eqn:E;
      [rewrite io_bind_lift_ret | rewrite io_bind_lift_raise];
      cbv beta; cbn [outcome_of trace_of fst snd app]
  end.

Lemma nobitex_direct_trace (w : Env) (c : Config) :
  trace_of (nobitex_direct w c) = [EGet nobitex_url [] [] (timeout c)].
Proof.
  unfold nobitex_direct, requests_get. fold nobitex_url.
  destruct (requests_answer w nobitex_url 0) as [resp|e0];
    [rewrite io_bind_ret | reflexivity].
  cbn [trace_of fst]. unfold trace_of.
  match goal with
  | |- (_ ++ ?x)%list = _ => assert (x = []) as ->; [|reflexivity]
  end.
  repeat (io_next; [|reflexivity]).
  destruct (eq_str _ _); [|reflexivity].
  repeat (io_next; [|reflexivity]).
  unfold lift. reflexivity.
Qed.

Lemma nobitex_direct_outcomes (w : Env) (c : Config) :
  match outcome_of (nobitex_direct w c) with
  | Ret r =>
      reply_status r = 200 /\
      report_field "source" r = Some (PStr "nobitex") /\
      report_field "timestamp" r = Some (PStr (now w))
  | Raise e =>
      requests_sane w ->
      e = HTTPException 500 "Invalid response from Nobitex" \/
      is_http_exception e = false
  end.
Proof.
  unfold nobitex_direct, requests_get. fold nobitex_url.
  destruct (requests_answer w nobitex_url 0) as [resp|e0] eqn:E0;
    [rewrite io_bind_ret
    | intros Hsane; specialize (Hsane nobitex_url 0%nat); rewrite E0 in Hsane; now right].
  cbn [outcome_of snd].
  io_next; [|intros _; plain_leaf].
  destruct (json resp) as [data|e1] eqn:E1;
    [rewrite io_bind_lift_ret
    | rewrite io_bind_lift_raise; intros Hsane;
      specialize (Hsane nobitex_url 0%nat); rewrite E0, E1 in Hsane; now right].
  cbv beta.
  io_next; [|intros _; plain_leaf].
  destruct (eq_str _ _); [|intros _; now left].
  repeat (io_next; [|intros _; plain_leaf]).
  unfold lift. cbn [snd].
  destruct (JSONResponse _) as [r|e] eqn:EJ; [|intros _; plain_leaf].
  apply JSONResponse_status in EJ. subst. repeat split.
Qed.

Lemma source_content_fields (w : Env) (s : string) (d : dict) :
  report_field "source" (answer_200 (source_content w s d)) = Some (PStr s) /\
  report_field "timestamp" (answer_200 (source_content w s d)) = Some (PStr (now w)).
Proof.
  unfold report_field, answer_200, source_content. cbn [content]. split.
  - rewrite dict_lookup_set_other by discriminate. apply dict_lookup_set_same.
  - apply dict_lookup_set_same.
Qed.

(** What a pass of the retry loop comes to: an answer built from a
    parsed record, a second pass after the first, or an exception; when
    the library raises no [HTTPException] of its own, the exception is
    none either, but for the 504 and the 503 of the second pass. *)
Lemma source_attempt_outcomes (w : Env) (s : string) (c : Config)
    (h p : list (string * string)) (n : nat) :
  match outcome_of (source_attempt w s c h p n) with
  | Ret (Return r) => exists d, r = answer_200 (source_content w s d)
  | Ret Continue => n = 0%nat
  | Raise e =>
      requests_sane w ->
      (n <> 0%nat /\
       ((exists d, e = HTTPException 504 d) \/ (exists d, e = HTTPException 503 d))) \/
      is_http_exception e = false
  end.
Proof.
  unfold source_attempt, requests_get, lift, outcome_of.
  assert (Handler : forall e : exn,
            (requests_sane w -> is_http_exception e = false) ->
            match snd (let '(t', r) :=
                         (if is_requests_timeout e
                          then if (n =? 0)%nat then io_ret Continue
                               else io_raise (HTTPException 504
                                 ("Timeout while fetching from " ++ s ++
                                  " after retries. The service might be slow or unavailable."))
                          else if is_request_exception e
                               then if (n =? 0)%nat then io_ret Continue
                                    else io_raise (HTTPException 503
                                      ("Network error while fetching from " ++ s ++ ": "
                                       ++ str_exn w e))
                               else io_raise e) : io (ctl reply)
                       in (([EGet (url c) h p (timeout c)] ++ t')%list, r)) with
            | Ret (Return r) => exists d, r = answer_200 (source_content w s d)
            | Ret Continue => n = 0%nat
            | Raise e' =>
                requests_sane w ->
                (n <> 0%nat /\
                 ((exists d, e' = HTTPException 504 d) \/
                  (exists d, e' = HTTPException 503 d))) \/
                is_http_exception e' = false
            end).
  { intros e He.
    destruct (is_requests_timeout e), (is_request_exception e), (Nat.eqb_spec n 0);
      cbn [io_ret io_raise snd]; auto;
      intros _; left; (split; [assumption|]); eauto. }
  destruct (requests_answer w (url c) n) as [resp|e0] eqn:E0; cbn [io_try io_bind].
  - destruct (requests_raise_for_status resp) as [[]|e1] eqn:E1; cbn [io_try io_bind].
    + destruct (json resp) as [data|e2] eqn:E2; cbn [io_try io_bind].
      * destruct (parse_total w s data) as [d ->]. cbn [io_try io_bind].
        destruct (JSONResponse _) as [r|e3] eqn:E3; cbn [io_try io_bind snd].
        -- apply JSONResponse_status in E3. subst r. exists d. reflexivity.
        -- apply Handler. intros _. now apply plain_JSONResponse in E3.
      * apply Handler. intros Hsane. specialize (Hsane (url c) n).
        now rewrite E0, E2 in Hsane.
    + apply Handler. intros _. now apply plain_raise_for_status in E1.
  - apply Handler. intros Hsane. specialize (Hsane (url c) n). now rewrite E0 in Hsane.
Qed.

Lemma source_loop_outcomes (w : Env) (s : string) (c : Config) (h p : list (string * string)) :
  match outcome_of (for_attempts (source_attempt w s c h p) (range 2)) with
  | Ret (Some r) => exists d, r = answer_200 (source_content w s d)
  | Ret None => False
  | Raise e =>
      requests_sane w ->
      (exists d, e = HTTPException 504 d) \/ (exists d, e = HTTPException 503 d) \/
      is_http_exception e = false
  end.
Proof.
  cbn [range seq for_attempts].
  pose proof (source_attempt_outcomes w s c h p 0) as A0.
  pose proof (source_attempt_outcomes w s c h p 1) as A1.
  unfold outcome_of in *.
  destruct (source_attempt w s c h p 0) as [t0 [[r0|]|e0]]; cbn [io_bind io_ret snd] in *.
  - exact A0.
  - destruct (source_attempt w s c h p 1) as [t1 [[r1|]|e1]]; cbn [io_bind io_ret snd] in *.
    + exact A1.
    + discriminate.
    + intros Hsane. destruct (A1 Hsane) as [[_ [H|H]]|H]; auto.
  - intros Hsane. destruct (A0 Hsane) as [[H _]|H]; [contradiction|auto].
Qed.

Lemma registry_lookup_not_registered (s : string) :
  registry_lookup s CRYPTO_APIS = None -> ~ In s registered.
Proof.
  intros Hreg Hin. unfold registered in Hin. apply in_map_iff in Hin.
  destruct Hin as [[k c'] [<- Hin]]. simpl in *.
  repeat (destruct Hin as [[= <- <-]|Hin]; [discriminate Hreg|]). contradiction.
Qed.

(** The single-source endpoint, case by case. *)
Lemma source_endpoint_cases (w : Env) (s : string) :
  match outcome_of (get_bitcoin_from_source w s) with
  | Ret (Some r) =>
      In s registered /\
      reply_status r = 200 /\
      report_field "source" r = Some (PStr s) /\
      report_field "timestamp" r = Some (PStr (now w))
  | Ret None => False
  | Raise e =>
      requests_sane w ->
      exists st detail,
        e = HTTPException st detail /\
        (st = 400 /\ ~ In s registered \/
         (st = 500 \/ st = 503 \/ st = 504) /\ In s registered)
  end.
Proof.
  destruct (registry_lookup s CRYPTO_APIS) as [c|] eqn:Hreg.
  2:{ unfold get_bitcoin_from_source. rewrite Hreg. cbn [io_raise outcome_of snd].
      intros _. eexists; eexists. split; [reflexivity|]. left. split; [reflexivity|].
      now apply registry_lookup_not_registered. }
  pose proof (registry_lookup_registered s c Hreg) as Hin.
  assert (Wrap : forall (t : list event) (o : py (option reply)),
            match o with
            | Ret (Some r) => exists d, r = answer_200 (source_content w s d)
            | Ret None => False
            | Raise e =>
                requests_sane w ->
                (exists d, e = HTTPException 504 d) \/ (exists d, e = HTTPException 503 d) \/
                is_http_exception e = false
            end ->
            match
              snd (io_try (t, o)
                     (fun e =>
                        if is_http_exception e then io_raise e
                        else io_raise (HTTPException 500
                               ("Error fetching from " ++ s ++ ": " ++ str_exn w e))))
            with
            | Ret (Some r) =>
                In s registered /\ reply_status r = 200 /\
                report_field "source" r = Some (PStr s) /\
                report_field "timestamp" r = Some (PStr (now w))
            | Ret None => False
            | Raise e =>
                requests_sane w ->
                exists st detail,
                  e = HTTPException st detail /\
                  (st = 400 /\ ~ In s registered \/
                   (st = 500 \/ st = 503 \/ st = 504) /\ In s registered)
            end).
  { intros t [[r|]|e] L; cbn [io_try snd] in *.
    - destruct L as [d ->]. destruct (source_content_fields w s d). tauto.
    - contradiction.
    - destruct (is_http_exception e) eqn:He; cbn [io_raise app snd].
      + intros Hsane. destruct (L Hsane) as [[d ->]|[[d ->]|He']].
        * eexists; eexists. split; [reflexivity|]. right. tauto.
        * eexists; eexists. split; [reflexivity|]. right. tauto.
        * congruence.
      + intros _. eexists; eexists. split; [reflexivity|]. right. tauto. }
  destruct (String.eqb_spec s "nobitex") as [->|Hn].
  { pose proof (nobitex_direct_outcomes w c) as N.
    unfold get_bitcoin_from_source. rewrite Hreg. unfold prepare.
    cbn [String.eqb Ascii.eqb Bool.eqb]. unfold outcome_of in *.
    destruct (nobitex_direct w c) as [t [r|e]]; cbn [io_bind io_try io_ret snd] in *.
    - tauto.
    - destruct (is_http_exception e) eqn:He; cbn [io_raise app snd].
      + intros Hsane. destruct (N Hsane) as [->|He']; [|congruence].
        eexists; eexists. split; [reflexivity|]. right. tauto.
      + intros _. eexists; eexists. split; [reflexivity|]. right. tauto. }
  destruct (String.eqb_spec s "coinmarketcap") as [->|Hc].
  { destruct (no_api_key w) eqn:Hk.
    - unfold get_bitcoin_from_source, prepare. rewrite Hreg.
      cbn [String.eqb Ascii.eqb Bool.eqb]. rewrite Hk. cbn.
      intros _. eexists; eexists. split; [reflexivity|]. right. tauto.
    - rewrite (get_bitcoin_from_source_loop w _ c Hreg Hn (fun _ => Hk)).
      pose proof (source_loop_outcomes w "coinmarketcap" c
                    (request_headers w "coinmarketcap")
                    (request_params "USD,EUR,GBP" "coinmarketcap")) as L.
      unfold outcome_of in *.
      destruct (for_attempts _ _) as [t o]. now apply Wrap. }
  rewrite (get_bitcoin_from_source_loop w s c Hreg Hn (fun E => False_ind _ (Hc E))).
  pose proof (source_loop_outcomes w s c (request_headers w s)
                (request_params "USD,EUR,GBP" s)) as L.
  unfold outcome_of in *.
  destruct (for_attempts _ _) as [t o]. now apply Wrap.
Qed.

Lemma calm_sane : requests_sane calm.
Proof.
  intros u n. unfold calm, requests_answer, upstream.
  repeat (destruct (_ =? _)%string; [exact I|]). reflexivity.
Qed.

Lemma offline_sane : requests_sane offline.
Proof. intros u n. reflexivity. Qed.

Lemma answering_sane (u : string) (data : pyval) : requests_sane (answering u data).
Proof.
  intros u' n. unfold answering, requests_answer.
  destruct (_ =? _)%string; [exact I | reflexivity].
Qed.

(** X1. When the HTTP library raises no [HTTPException] of its own, the
    single-source endpoint ends in one of two ways: it answers with
    status 200, for a registered source, or it raises an [HTTPException]
    whose status is 400 for an unregistered source and 500, 503 or 504
    for a registered one.  It never ends without an answer and never
    lets another exception through. *)
Theorem source_endpoint_answers_or_raises_http (w : Env) (source : string) :
  requests_sane w ->
  (exists r,
     outcome_of (get_bitcoin_from_source w source) = Ret (Some r) /\
     reply_status r = 200 /\ In source registered) \/
  (exists st detail,
     outcome_of (get_bitcoin_from_source w source) = Raise (HTTPException st detail) /\
     (st = 400 /\ ~ In source registered \/
      (st = 500 \/ st = 503 \/ st = 504) /\ In source registered)).
Proof.
  intros Hsane. pose proof (source_endpoint_cases w source) as C.
  destruct (outcome_of (get_bitcoin_from_source w source)) as [[r|]|e].
  - left. exists r. tauto.
  - contradiction.
  - right. destruct (C Hsane) as [st [detail [-> H]]]. eauto.
Qed.

Lemma source_endpoint_answers_or_raises_http_witness :
  (exists r,
     outcome_of (get_bitcoin_from_source offline "kraken") = Ret (Some r) /\
     reply_status r = 200 /\ In "kraken" registered) \/
  (exists st detail,
     outcome_of (get_bitcoin_from_source offline "kraken")
     = Raise (HTTPException st detail) /\
     (st = 400 /\ ~ In "kraken" registered \/
      (st = 500 \/ st = 503 \/ st = 504) /\ In "kraken" registered)).
Proof. exact (source_endpoint_answers_or_raises_http offline "kraken" offline_sane). Defined.

(** A record that can be rendered makes a content that can. *)
Lemma compliant_set (k : string) (v : pyval) (d : dict) :
  encodable k = true -> json_compliant v = true ->
  json_compliant (PDict d) = true ->
  json_compliant (PDict (dict_set k v d)) = true.
Proof.
  unfold json_compliant. intros Hk Hv.
  apply andb_true_iff in Hv. destruct Hv as [Hv1 Hv2].
  induction d as [|[k' v'] d IH]; cbn [dict_set finite_floats encodable_strings forallb fst snd].
  - now rewrite Hk, Hv1, Hv2.
  - intros H. apply andb_true_iff in H. destruct H as [H1 H2].
    apply andb_true_iff in H1. destruct H1 as [H1 H1'].
    apply andb_true_iff in H2. destruct H2 as [H2 H2'].
    apply andb_true_iff in H2. destruct H2 as [H2 H2''].
    assert (IH' := IH ltac:(cbn [finite_floats encodable_strings]; now rewrite H1', H2')).
    cbn [finite_floats encodable_strings] in IH'.
    apply andb_true_iff in IH'. destruct IH' as [I1 I2].
    destruct (k' =? k)%string;
      cbn [finite_floats encodable_strings forallb fst snd].
    + now rewrite Hv1, Hv2, H1', H2, H2'.
    + now rewrite H1, H2, H2'', I1, I2.
Qed.

Lemma record_content_rendered (w : Env) (s : string) (d : dict) :
  In s registered ->
  json_compliant (PDict d) = true ->
  source_reply w s d = Ret (Some (answer_200 (source_content w s d))).
Proof.
  intros Hin Hd. unfold source_reply.
  rewrite JSONResponse_ok; [reflexivity|].
  unfold source_content.
  apply compliant_set; [reflexivity | |].
  - unfold json_compliant. cbn [finite_floats encodable_strings]. apply now_text.
  - apply compliant_set; [reflexivity | | exact Hd].
    unfold json_compliant. cbn [finite_floats encodable_strings andb].
    cbn in Hin. repeat (destruct Hin as [<-|Hin]; [reflexivity|]). contradiction.
Qed.

(** X2. When the upstream of a registered source other than nobitex
    answers, at once or on the retry, a payload whose record can be
    rendered, the single-source endpoint answers 200 and names the
    source it was asked for: its [source] field is the identifier of the
    request, its [timestamp] the clock's, and every other field is that
    of the record. *)
Theorem source_answer_names_its_source (w : Env) (source : string) (config : Config)
    (data : pyval) (d : dict) :
  registry_lookup source CRYPTO_APIS = Some config ->
  source <> "nobitex" ->
  (source = "coinmarketcap" -> no_api_key w = false) ->
  requests_ok (requests_answer w (url config) 0) data \/
  (exists e1, requests_failed (requests_answer w (url config) 0) e1 /\
              requests_ok (requests_answer w (url config) 1) data) ->
  parse_crypto_response w source data = Ret d ->
  json_compliant (PDict d) = true ->
  exists r,
    outcome_of (get_bitcoin_from_source w source) = Ret (Some r) /\
    reply_status r = 200 /\
    report_field "source" r = Some (PStr source) /\
    report_field "timestamp" r = Some (PStr (now w)) /\
    (forall k, k <> "source" -> k <> "timestamp" ->
               report_field k r = dict_lookup k d).
Proof.
  intros Hreg Hn Hk Hans Hd Hc.
  pose proof (record_content_rendered w source d
                (registry_lookup_registered source config Hreg) Hc) as Hsent.
  exists (answer_200 (source_content w source d)).
  split.
  { destruct Hans as [H0 | [e1 [Hf H1]]].
    - now rewrite (source_first_ok w source config data d Hreg Hn Hk H0 Hd).
    - now rewrite (source_retry_ok w source config e1 data d Hreg Hn Hk Hf H1 Hd). }
  split; [reflexivity|].
  unfold report_field, source_content. cbn [content answer_200].
  split; [|split].
  - rewrite dict_lookup_set_other by discriminate. apply dict_lookup_set_same.
  - apply dict_lookup_set_same.
  - intros k Hs Ht. now rewrite !dict_lookup_set_other by congruence.
Qed.

Lemma source_answer_names_its_source_witness :
  exists r,
    outcome_of (get_bitcoin_from_source calm "kraken") = Ret (Some r) /\
    reply_status r = 200 /\
    report_field "source" r = Some (PStr "kraken") /\
    report_field "timestamp" r = Some (PStr (now calm)) /\
    (forall k, k <> "source" -> k <> "timestamp" ->
               report_field k r = dict_lookup k [("usd", PFloat (Float64.of_Z 50000))]).
Proof.
  apply (source_answer_names_its_source calm "kraken" kraken_config kraken_payload
           [("usd", PFloat (Float64.of_Z 50000))]).
  - reflexivity.
  - discriminate.
  - discriminate.
  - left. eexists. split; [reflexivity|]. split; reflexivity.
  - vm_compute. reflexivity.
  - reflexivity.
Defined.

Lemma nobitex_source_trace (w : Env) :
  trace_of (get_bitcoin_from_source w "nobitex") = [EGet nobitex_url [] [] 8].
Proof.
  unfold get_bitcoin_from_source, prepare. cbn [registry_lookup CRYPTO_APIS String.eqb Ascii.eqb Bool.eqb].
  pose proof (nobitex_direct_trace w
                {| url := "https://apiv2.nobitex.ir/v3/orderbook/BTCUSDT";
                   requires_key := false; timeout := 8 |}) as T.
  unfold trace_of in *.
  destruct (nobitex_direct w _) as [t [r|e]]; cbn [fst timeout] in T; subst t;
    cbn [io_bind io_try io_ret fst app]; [reflexivity|].
  destruct (is_http_exception e); reflexivity.
Qed.

Lemma nobitex_source_outcome (w : Env) :
  outcome_of (get_bitcoin_from_source w "nobitex")
  = match outcome_of (nobitex_direct w
                         {| url := "https://apiv2.nobitex.ir/v3/orderbook/BTCUSDT";
                            requires_key := false; timeout := 8 |}) with
    | Ret r => Ret (Some r)
    | Raise e =>
        if is_http_exception e then Raise e
        else Raise (HTTPException 500 ("Error fetching from nobitex: " ++ str_exn w e))
    end.
Proof.
  unfold get_bitcoin_from_source, prepare. cbn [registry_lookup CRYPTO_APIS String.eqb Ascii.eqb Bool.eqb].
  unfold outcome_of.
  destruct (nobitex_direct w _) as [t [r|e]]; cbn [io_bind io_try io_ret snd]; [reflexivity|].
  destruct (is_http_exception e); reflexivity.
Qed.

(** X3. On the single-source endpoint nobitex is asked once and never
    retried: the endpoint makes exactly one request, to the order-book
    URL, and a request that raises (a timeout included) or comes back
    with a 4xx or 5xx status is answered with 500, not with the 504 or
    503 of the retried sources. *)
Theorem nobitex_source_never_retried (w : Env) :
  trace_of (get_bitcoin_from_source w "nobitex") = [EGet nobitex_url [] [] 8] /\
  (forall e,
     requests_answer w nobitex_url 0 = Raise e ->
     is_http_exception e = false ->
     outcome_of (get_bitcoin_from_source w "nobitex")
     = Raise (HTTPException 500 ("Error fetching from nobitex: " ++ str_exn w e))) /\
  (forall r,
     requests_answer w nobitex_url 0 = Ret r ->
     400 <= status_code r < 600 ->
     outcome_of (get_bitcoin_from_source w "nobitex")
     = Raise (HTTPException 500
         ("Error fetching from nobitex: " ++ str_exn w (RequestsHTTPError (status_code r))))).
Proof.
  split; [apply nobitex_source_trace|]. split.
  - intros e He Hplain. rewrite nobitex_source_outcome.
    unfold nobitex_direct, requests_get. fold nobitex_url. rewrite He.
    rewrite io_bind_raise. cbn [outcome_of snd]. now rewrite Hplain.
  - intros r Hr Hst. rewrite nobitex_source_outcome.
    unfold nobitex_direct, requests_get. fold nobitex_url. rewrite Hr.
    rewrite io_bind_ret. cbn [outcome_of snd].
    unfold requests_raise_for_status.
    destruct (Z.leb_spec 400 (status_code r)); [|lia].
    destruct (Z.ltb_spec (status_code r) 600); [|lia].
    cbn [andb]. rewrite io_bind_lift_raise. reflexivity.
Qed.

Lemma nobitex_source_never_retried_witness :
  outcome_of (get_bitcoin_from_source offline "nobitex")
  = Raise (HTTPException 500 ("Error fetching from nobitex: " ++ str_exn offline RequestsTimeout)).
Proof.
  exact (proj1 (proj2 (nobitex_source_never_retried offline)) RequestsTimeout eq_refl eq_refl).
Defined.

(** ** The order book of nobitex *)

Lemma get_dict (d : dict) (k : string) (default : pyval) :
  get (PDict d) k default = Ret (dict_get d k default).
Proof. unfold get, dict_get. destruct (dict_lookup k d); reflexivity. Qed.

(** The normalizer on an order book whose status is "ok", step by step. *)
Lemma parse_nobitex_book (w : Env) (d : dict) (fl : float) (bb ba mid : pyval) :
  eq_str (dict_get d "status" PNone) "ok" = true ->
  py_float (dict_get d "lastTradePrice" (PInt 0)) = Ret fl ->
  best_price (dict_get d "bids" (PList [])) = Ret bb ->
  best_price (dict_get d "asks" (PList [])) = Ret ba ->
  mid_price_of bb ba (PFloat fl) = Ret mid ->
  parse_crypto_response w "nobitex" (PDict d)
  = Ret [("usd", mid); ("last_trade_price", PFloat fl);
         ("best_bid", bb); ("best_ask", ba)].
Proof.
  intros Hs Hl Hb Ha Hm. unfold parse_crypto_response, parse_body.
  cbn [String.eqb Ascii.eqb Bool.eqb].
  rewrite !get_dict. cbn [py_bind]. rewrite Hs, Hl. cbn [py_bind].
  rewrite Hb, Ha. cbn [py_bind]. rewrite Hm. reflexivity.
Qed.

(** The single-source endpoint on the same order book. *)
Lemma nobitex_source_book (w : Env) (d : dict) (fl : float) (bb ba mid sp : pyval) :
  requests_ok (requests_answer w nobitex_url 0) (PDict d) ->
  eq_str (dict_get d "status" PNone) "ok" = true ->
  py_float (dict_get d "lastTradePrice" (PInt 0)) = Ret fl ->
  best_price (dict_get d "bids" (PList [])) = Ret bb ->
  best_price (dict_get d "asks" (PList [])) = Ret ba ->
  mid_price_of bb ba (PFloat fl) = Ret mid ->
  spread_of bb ba = Ret sp ->
  outcome_of (get_bitcoin_from_source w "nobitex")
  = rendered w "nobitex"
      (PDict [("source", PStr "nobitex");
              ("usd", mid);
              ("last_trade_price", PFloat fl);
              ("best_bid", bb);
              ("best_ask", ba);
              ("spread", sp);
              ("last_update", dict_get d "lastUpdate" (PInt 0));
              ("timestamp", PStr (now w))]).
Proof.
  intros [r [Hr [Hst Hj]]] Hs Hl Hb Ha Hm Hsp.
  rewrite nobitex_source_outcome.
  unfold nobitex_direct, requests_get. fold nobitex_url. rewrite Hr.
  rewrite io_bind_ret. cbn [outcome_of snd].
  rewrite Hst, io_bind_lift_ret, Hj, io_bind_lift_ret.
  rewrite !get_dict, io_bind_lift_ret, Hs.
  rewrite io_bind_lift_ret, Hl, io_bind_lift_ret.
  rewrite !io_bind_lift_ret, Hb, io_bind_lift_ret, Ha, io_bind_lift_ret.
  rewrite Hm, io_bind_lift_ret, Hsp, !io_bind_lift_ret.
  unfold lift, rendered. cbn [snd].
  destruct (JSONResponse _) as [a|e] eqn:E; [reflexivity|].
  apply JSONResponse_raise in E. destruct E as [_ [-> | ->]]; reflexivity.
Qed.

(** X4. The fallback of the order book.  When the best bid or the best
    ask of a nobitex payload is zero, as it is for an empty or missing
    side, the price is the last trade price: the normalizer's [usd]
    equals its [last_trade_price], and the single-source endpoint adds
    the spread 0. *)
Theorem order_book_falls_back_to_last_trade (w : Env) (d : dict) (fl : float)
    (bb ba : pyval) :
  eq_str (dict_get d "status" PNone) "ok" = true ->
  py_float (dict_get d "lastTradePrice" (PInt 0)) = Ret fl ->
  best_price (dict_get d "bids" (PList [])) = Ret bb ->
  best_price (dict_get d "asks" (PList [])) = Ret ba ->
  truthy bb && truthy ba = false ->
  parse_crypto_response w "nobitex" (PDict d)
  = Ret [("usd", PFloat fl); ("last_trade_price", PFloat fl);
         ("best_bid", bb); ("best_ask", ba)] /\
  (requests_ok (requests_answer w nobitex_url 0) (PDict d) ->
   outcome_of (get_bitcoin_from_source w "nobitex")
   = rendered w "nobitex"
       (PDict [("source", PStr "nobitex");
               ("usd", PFloat fl);
               ("last_trade_price", PFloat fl);
               ("best_bid", bb);
               ("best_ask", ba);
               ("spread", PInt 0);
               ("last_update", dict_get d "lastUpdate" (PInt 0));
               ("timestamp", PStr (now w))])).
Proof.
  intros Hs Hl Hb Ha Hz.
  assert (Hm : mid_price_of bb ba (PFloat fl) = Ret (PFloat fl))
    by (unfold mid_price_of; now rewrite Hz).
  assert (Hsp : spread_of bb ba = Ret (PInt 0))
    by (unfold spread_of; now rewrite Hz).
  split.
  - now apply parse_nobitex_book.
  - intros Hok. now apply (nobitex_source_book w d fl bb ba).
Qed.

Lemma order_book_falls_back_to_last_trade_witness :
  parse_crypto_response
    (answering nobitex_url (PDict [("status", PStr "ok"); ("lastTradePrice", PStr "100");
                                   ("bids", PList []); ("asks", PList [])]))
    "nobitex"
    (PDict [("status", PStr "ok"); ("lastTradePrice", PStr "100");
            ("bids", PList []); ("asks", PList [])])
  = Ret [("usd", PFloat (Float64.of_Z 100)); ("last_trade_price", PFloat (Float64.of_Z 100));
         ("best_bid", PInt 0); ("best_ask", PInt 0)] /\
  outcome_of
    (get_bitcoin_from_source
       (answering nobitex_url (PDict [("status", PStr "ok"); ("lastTradePrice", PStr "100");
                                      ("bids", PList []); ("asks", PList [])]))
       "nobitex")
  = Ret (Some (answer_200 (PDict
      [("source", PStr "nobitex");
       ("usd", PFloat (Float64.of_Z 100));
       ("last_trade_price", PFloat (Float64.of_Z 100));
       ("best_bid", PInt 0);
       ("best_ask", PInt 0);
       ("spread", PInt 0);
       ("last_update", PInt 0);
       ("timestamp", PStr "2024-01-01 00:00:00")]))).
Proof.
  destruct (order_book_falls_back_to_last_trade
              (answering nobitex_url
                 (PDict [("status", PStr "ok"); ("lastTradePrice", PStr "100");
                         ("bids", PList []); ("asks", PList [])]))
              [("status", PStr "ok"); ("lastTradePrice", PStr "100");
               ("bids", PList []); ("asks", PList [])]
              (Float64.of_Z 100) (PInt 0) (PInt 0)
              eq_refl eq_refl eq_refl eq_refl eq_refl) as [H1 H2].
  split; [exact H1|].
  apply H2. eexists. split; [reflexivity|]. split; reflexivity.
Defined.

Lemma best_price_first (p : pyval) (rest rows : list pyval) (f : float) :
  py_float p = Ret f ->
  best_price (PList (PList (p :: rest) :: rows)) = Ret (PFloat f).
Proof. intros H. unfold best_price. cbn. now rewrite H. Qed.

(** X5. The midpoint of the order book.  When the first bid and the
    first ask of a nobitex payload carry nonzero prices [fb] and [fa],
    then for every last trade price that [float()] accepts the
    normalizer's [usd] is (fb + fa) / 2 in binary64 arithmetic, with
    [best_bid] = fb and [best_ask] = fa, and the single-source endpoint
    adds the spread fa - fb.  A last trade price that [float()] refuses
    is read before the book: the normalizer records a parse error and
    the single-source endpoint raises 500. *)
Theorem order_book_midpoint (w : Env) (d : dict) (fb fa : float)
    (pb pa : pyval) (rb ra rows_b rows_a : list pyval) :
  eq_str (dict_get d "status" PNone) "ok" = true ->
  dict_lookup "bids" d = Some (PList (PList (pb :: rb) :: rows_b)) ->
  dict_lookup "asks" d = Some (PList (PList (pa :: ra) :: rows_a)) ->
  py_float pb = Ret fb -> py_float pa = Ret fa ->
  Float64.is_zero fb = false -> Float64.is_zero fa = false ->
  (forall fl,
     py_float (dict_get d "lastTradePrice" (PInt 0)) = Ret fl ->
     parse_crypto_response w "nobitex" (PDict d)
     = Ret [("usd", PFloat (Float64.fdiv (Float64.fadd fb fa) (Float64.of_Z 2)));
            ("last_trade_price", PFloat fl);
            ("best_bid", PFloat fb); ("best_ask", PFloat fa)] /\
     (requests_ok (requests_answer w nobitex_url 0) (PDict d) ->
      outcome_of (get_bitcoin_from_source w "nobitex")
      = rendered w "nobitex"
          (PDict [("source", PStr "nobitex");
                  ("usd", PFloat (Float64.fdiv (Float64.fadd fb fa) (Float64.of_Z 2)));
                  ("last_trade_price", PFloat fl);
                  ("best_bid", PFloat fb);
                  ("best_ask", PFloat fa);
                  ("spread", PFloat (Float64.fsub fa fb));
                  ("last_update", dict_get d "lastUpdate" (PInt 0));
                  ("timestamp", PStr (now w))]))) /\
  (forall x,
     py_float (dict_get d "lastTradePrice" (PInt 0)) = Raise x ->
     parse_crypto_response w "nobitex" (PDict d)
     = Ret (error_record ("Parse error: " ++ str_exn w x)) /\
     (requests_ok (requests_answer w nobitex_url 0) (PDict d) ->
      outcome_of (get_bitcoin_from_source w "nobitex")
      = Raise (HTTPException 500 ("Error fetching from nobitex: " ++ str_exn w x)))).
Proof.
  intros Hs Hbids Hasks Hpb Hpa Hzb Hza. split.
  - intros fl Hl.
    assert (Hb : best_price (dict_get d "bids" (PList [])) = Ret (PFloat fb))
      by (unfold dict_get; rewrite Hbids; now apply best_price_first).
    assert (Ha : best_price (dict_get d "asks" (PList [])) = Ret (PFloat fa))
      by (unfold dict_get; rewrite Hasks; now apply best_price_first).
    assert (Hm : mid_price_of (PFloat fb) (PFloat fa) (PFloat fl)
                 = Ret (PFloat (Float64.fdiv (Float64.fadd fb fa) (Float64.of_Z 2)))).
    { unfold mid_price_of. cbn [truthy]. rewrite Hzb, Hza. reflexivity. }
    assert (Hsp : spread_of (PFloat fb) (PFloat fa) = Ret (PFloat (Float64.fsub fa fb))).
    { unfold spread_of. cbn [truthy]. rewrite Hzb, Hza. reflexivity. }
    split.
    + now apply parse_nobitex_book.
    + intros Hok. now apply (nobitex_source_book w d fl (PFloat fb) (PFloat fa)).
  - intros x Hx. split.
    + unfold parse_crypto_response, parse_body.
      cbn [String.eqb Ascii.eqb Bool.eqb].
      rewrite get_dict. cbn [py_bind]. rewrite Hs.
      rewrite get_dict. cbn [py_bind]. rewrite Hx. reflexivity.
    + intros [r [Hr [Hst Hj]]]. rewrite nobitex_source_outcome.
      unfold nobitex_direct, requests_get. fold nobitex_url. rewrite Hr.
      rewrite io_bind_ret. cbn [outcome_of snd].
      rewrite Hst, io_bind_lift_ret, Hj, io_bind_lift_ret.
      rewrite get_dict, io_bind_lift_ret, Hs.
      rewrite get_dict, io_bind_lift_ret, Hx, io_bind_lift_raise.
      cbn [outcome_of snd]. now rewrite (plain_py_float _ _ Hx).
Qed.

Lemma order_book_midpoint_witness :
  parse_crypto_response calm "nobitex" nobitex_payload
  = Ret [("usd", PFloat (Float64.fdiv (Float64.fadd (Float64.of_Z 99) (Float64.of_Z 101))
                           (Float64.of_Z 2)));
         ("last_trade_price", PFloat (Float64.of_Z 100));
         ("best_bid", PFloat (Float64.of_Z 99)); ("best_ask", PFloat (Float64.of_Z 101))].
Proof.
  exact (proj1 (proj1 (order_book_midpoint calm
                  [("status", PStr "ok"); ("lastTradePrice", PStr "100");
                   ("bids", PList [PList [PStr "99"; PStr "1"]]);
                   ("asks", PList [PList [PStr "101"; PStr "1"]])]
                  (Float64.of_Z 99) (Float64.of_Z 101)
                  (PStr "99") (PStr "101") [PStr "1"] [PStr "1"] [] []
                  eq_refl eq_refl eq_refl eq_refl eq_refl eq_refl eq_refl)
                (Float64.of_Z 100) eq_refl)).
Defined.

(** X6. An order book whose status is not "ok" is refused on both
    paths, in two ways: the normalizer, and with it the aggregate
    report, records "Invalid Nobitex response", while the single-source
    endpoint raises 500 "Invalid response from Nobitex". *)
Theorem order_book_status_refused (w : Env) (d : dict) :
  eq_str (dict_get d "status" PNone) "ok" = false ->
  parse_crypto_response w "nobitex" (PDict d)
  = Ret (error_record "Invalid Nobitex response") /\
  (requests_ok (requests_answer w nobitex_url 0) (PDict d) ->
   outcome_of (get_bitcoin_from_source w "nobitex")
   = Raise (HTTPException 500 "Invalid response from Nobitex")).
Proof.
  intros Hs. split.
  - unfold parse_crypto_response, parse_body.
    cbn [String.eqb Ascii.eqb Bool.eqb].
    rewrite get_dict. cbn [py_bind]. now rewrite Hs.
  - intros [r [Hr [Hst Hj]]]. rewrite nobitex_source_outcome.
    unfold nobitex_direct, requests_get. fold nobitex_url. rewrite Hr.
    rewrite io_bind_ret. cbn [outcome_of snd].
    rewrite Hst, io_bind_lift_ret, Hj, io_bind_lift_ret.
    rewrite get_dict, io_bind_lift_ret, Hs. reflexivity.
Qed.

Lemma order_book_status_refused_witness :
  parse_crypto_response
    (answering nobitex_url (PDict [("status", PStr "failed")])) "nobitex"
    (PDict [("status", PStr "failed")])
  = Ret (error_record "Invalid Nobitex response") /\
  outcome_of
    (get_bitcoin_from_source (answering nobitex_url (PDict [("status", PStr "failed")]))
       "nobitex")
  = Raise (HTTPException 500 "Invalid response from Nobitex").
Proof.
  destruct (order_book_status_refused
              (answering nobitex_url (PDict [("status", PStr "failed")]))
              [("status", PStr "failed")] eq_refl) as [H1 H2].
  split; [exact H1|].
  apply H2. eexists. split; [reflexivity|]. split; reflexivity.
Defined.

(** ** The units of work of GET /bitcoin/all *)

Lemma fetch_source_direct (w : Env) (s : string) (c : Config) :
  s = "coinbase" \/ s = "binance" ->
  fetch_source w s c
  = fetch_once w s (if (s =? "coinbase")%string then "Coinbase" else "Binance") c.
Proof.
  intros [-> | ->]; unfold fetch_source; cbn [String.eqb Ascii.eqb Bool.eqb andb];
    match goal with
    | |- context [fetch_once ?w ?s ?l ?c] =>
        destruct (fetch_once_cases w s l c) as [d ->]; reflexivity
    end.
Qed.

(** X7. On GET /bitcoin/all coinbase and binance are asked once: their
    unit of work makes exactly one request, without headers or
    parameters, never sleeps and never retries; an exception of the
    request, or a status outside 200..299, is recorded at once as
    "Coinbase error: ..." or "Binance error: ...". *)
Theorem direct_sources_asked_once (w : Env) (source : string) (config : Config) :
  source = "coinbase" \/ source = "binance" ->
  let label := if (source =? "coinbase")%string then "Coinbase" else "Binance" in
  trace_of (fetch_source w source config)
  = [EGet (url config) [] [] (timeout config)] /\
  (forall e,
     httpx_answer w (url config) 0 = Raise e ->
     outcome_of (fetch_source w source config)
     = Ret (Some (source, error_record (label ++ " error: " ++ str_exn w e)))) /\
  (forall r,
     httpx_answer w (url config) 0 = Ret r ->
     ~ 200 <= status_code r < 300 ->
     outcome_of (fetch_source w source config)
     = Ret (Some (source,
                  error_record (label ++ " error: "
                                ++ str_exn w (HttpxHTTPStatusError (status_code r)))))).
Proof.
  intros Hs label. rewrite (fetch_source_direct w source config Hs). fold label.
  split; [|split].
  - destruct (fetch_once_cases w source label config) as [d ->]. reflexivity.
  - intros e He. unfold fetch_once, client_get. rewrite He. reflexivity.
  - intros r Hr Hst. unfold fetch_once, client_get, lift, httpx_raise_for_status.
    rewrite Hr. cbn [io_try io_bind].
    destruct (Z.leb_spec 200 (status_code r)), (Z.ltb_spec (status_code r) 300);
      try lia; reflexivity.
Qed.

Lemma direct_sources_asked_once_witness :
  trace_of (fetch_source offline "binance"
              {| url := "https://api.binance.com/api/v3/ticker/price?symbol=BTCUSDT";
                 requires_key := false; timeout := 5 |})
  = [EGet "https://api.binance.com/api/v3/ticker/price?symbol=BTCUSDT" [] [] 5] /\
  outcome_of (fetch_source offline "binance"
                {| url := "https://api.binance.com/api/v3/ticker/price?symbol=BTCUSDT";
                   requires_key := false; timeout := 5 |})
  = Ret (Some ("binance",
               error_record ("Binance error: " ++ str_exn offline HttpxTimeoutException))).
Proof.
  destruct (direct_sources_asked_once offline "binance"
              {| url := "https://api.binance.com/api/v3/ticker/price?symbol=BTCUSDT";
                 requires_key := false; timeout := 5 |} (or_intror eq_refl))
    as [H1 [H2 _]].
  split; [exact H1|]. exact (H2 HttpxTimeoutException eq_refl).
Defined.

Lemma request_headers_bare (w : Env) (s : string) :
  s <> "coinmarketcap" -> request_headers w s = [].
Proof.
  intros Hs. unfold request_headers.
  destruct (String.eqb_spec s "coinmarketcap"); [contradiction|reflexivity].
Qed.

Lemma request_params_bare (convert s : string) :
  s <> "coinmarketcap" -> request_params convert s = [].
Proof.
  intros Hs. unfold request_params.
  destruct (String.eqb_spec s "coinmarketcap"); [contradiction|reflexivity].
Qed.

Lemma source_trace_cases (w : Env) (s : string) (c : Config) :
  registry_lookup s CRYPTO_APIS = Some c ->
  s <> "nobitex" ->
  (s = "coinmarketcap" -> no_api_key w = false) ->
  trace_of (get_bitcoin_from_source w s) = [source_request w s c] \/
  trace_of (get_bitcoin_from_source w s) = [source_request w s c; source_request w s c].
Proof.
  intros Hreg Hn Hk.
  rewrite (get_bitcoin_from_source_loop w s c Hreg Hn Hk).
  pose proof (source_loop_trace w s c (request_headers w s)
                (request_params "USD,EUR,GBP" s)) as T.
  cbv zeta in T. unfold trace_of in *.
  destruct (for_attempts _ _) as [t [r|e]]; cbn [io_try fst] in *.
  - exact T.
  - destruct (is_http_exception e); cbn [io_raise fst]; rewrite app_nil_r; exact T.
Qed.

(** X8. The API key stays with coinmarketcap.  For every other source,
    registered or not, no request of its unit of work on GET
    /bitcoin/all and no request of GET /bitcoin/source carries a header
    or a query parameter: the key of coinmarketcap is sent to no other
    upstream. *)
Theorem api_key_sent_to_coinmarketcap_only (w : Env) (source : string) (config : Config) :
  source <> "coinmarketcap" ->
  Forall bare_request (trace_of (fetch_source w source config)) /\
  Forall bare_request (trace_of (get_bitcoin_from_source w source)).
Proof.
  intros Hs. split.
  - destruct (String.eqb_spec source "coinbase") as [Hc|Hc].
    { destruct (direct_sources_asked_once w source config (or_introl Hc)) as [-> _].
      repeat constructor. }
    destruct (String.eqb_spec source "binance") as [Hb|Hb].
    { destruct (direct_sources_asked_once w source config (or_intror Hb)) as [-> _].
      repeat constructor. }
    destruct (fetch_requests_bounded w source config Hc Hb
                (fun E => False_ind _ (Hs E))) as [-> | ->];
      unfold all_request;
      rewrite (request_headers_bare w source Hs), (request_params_bare "USD" source Hs);
      repeat constructor.
  - destruct (registry_lookup source CRYPTO_APIS) as [c|] eqn:Hreg.
    2:{ unfold get_bitcoin_from_source. rewrite Hreg. constructor. }
    destruct (String.eqb_spec source "nobitex") as [->|Hn].
    { rewrite nobitex_source_trace. repeat constructor. }
    destruct (source_trace_cases w source c Hreg Hn (fun E => False_ind _ (Hs E)))
      as [-> | ->];
      unfold source_request;
      rewrite (request_headers_bare w source Hs),
              (request_params_bare "USD,EUR,GBP" source Hs);
      repeat constructor.
Qed.

Lemma api_key_sent_to_coinmarketcap_only_witness :
  Forall bare_request
    (trace_of (fetch_source (with_api_key (Some "secret") calm) "kraken" kraken_config)) /\
  Forall bare_request
    (trace_of (get_bitcoin_from_source (with_api_key (Some "secret") calm) "kraken")).
Proof.
  apply (api_key_sent_to_coinmarketcap_only (with_api_key (Some "secret") calm)
           "kraken" kraken_config).
  discriminate.
Defined.

(** X9. A record of the normalizer for a registered source is either an
    error, and then the one entry "error", or a price, and then it has
    the primary price "usd": the consumers that read [usd] from a record
    without "error" always find it. *)
Theorem registered_record_has_price (w : Env) (source : string) (data : pyval) (d : dict) :
  In source registered ->
  parse_crypto_response w source data = Ret d ->
  (dict_has "error" d = true /\ exists msg, d = error_record msg) \/
  (dict_has "error" d = false /\ dict_has "usd" d = true).
Proof.
  intros Hin. simpl in Hin.
  unfold parse_crypto_response, parse_body.
  repeat (destruct Hin as [<-|Hin];
          [cbn [String.eqb Ascii.eqb Bool.eqb];
           repeat py_step; intros [= <-];
           ((left; split; [reflexivity | eexists; reflexivity])
            || (right; split; reflexivity))|]).
  contradiction.
Qed.

Lemma registered_record_has_price_witness :
  (dict_has "error" [("usd", PFloat (Float64.of_Z 50000))] = true /\
   exists msg, [("usd", PFloat (Float64.of_Z 50000))] = error_record msg) \/
  (dict_has "error" [("usd", PFloat (Float64.of_Z 50000))] = false /\
   dict_has "usd" [("usd", PFloat (Float64.of_Z 50000))] = true).
Proof.
  apply (registered_record_has_price calm "kraken" kraken_payload).
  - simpl. tauto.
  - reflexivity.
Defined.

(** ** The two endpoints side by side *)

Lemma fetch_once_ok (w : Env) (s label : string) (c : Config) (data : pyval) (d : dict) :
  httpx_ok (httpx_answer w (url c) 0) data ->
  parse_crypto_response w s data = Ret d ->
  fetch_once w s label c = ([EGet (url c) [] [] (timeout c)], Ret (Some (s, d))).
Proof.
  intros [r [Hr [Hst Hj]]] Hd.
  unfold fetch_once, client_get, lift, httpx_raise_for_status.
  rewrite Hr. cbn [io_try io_bind]. rewrite Hst. cbn [Z.leb Z.ltb Z.compare Pos.compare
    Pos.compare_cont andb io_try io_bind].
  rewrite Hj. cbn [io_try io_bind]. rewrite Hd. reflexivity.
Qed.

(** X10. The two endpoints agree on a source other than nobitex.  When
    the source answers the first request of each endpoint with the same
    JSON payload and status 200, the body of the single-source endpoint
    is the record the aggregate stores for that source, with [source]
    and [timestamp] added. *)
Theorem endpoints_agree_on_record (w : Env) (source : string) (config : Config)
    (data : pyval) :
  registry_lookup source CRYPTO_APIS = Some config ->
  source <> "nobitex" ->
  (source = "coinmarketcap" -> no_api_key w = false) ->
  httpx_ok (httpx_answer w (url config) 0) data ->
  requests_ok (requests_answer w (url config) 0) data ->
  exists d,
    parse_crypto_response w source data = Ret d /\
    outcome_of (fetch_source w source config) = Ret (Some (source, d)) /\
    outcome_of (get_bitcoin_from_source w source) = source_reply w source d.
Proof.
  intros Hreg Hn Hk Hx Hq.
  destruct (parse_total w source data) as [d Hd]. exists d.
  split; [exact Hd|]. split.
  - destruct (String.eqb_spec source "coinbase") as [Hc|Hc].
    { rewrite (fetch_source_direct w source config (or_introl Hc)).
      now rewrite (fetch_once_ok w source _ config data d Hx Hd). }
    destruct (String.eqb_spec source "binance") as [Hb|Hb].
    { rewrite (fetch_source_direct w source config (or_intror Hb)).
      now rewrite (fetch_once_ok w source _ config data d Hx Hd). }
    now rewrite (fetch_first_ok w source config data d Hc Hb Hk Hx Hd).
  - now rewrite (source_first_ok w source config data d Hreg Hn Hk Hq Hd).
Qed.

Lemma endpoints_agree_on_record_witness :
  exists d,
    parse_crypto_response calm "coinbase" coinbase_payload = Ret d /\
    outcome_of (fetch_source calm "coinbase"
                  {| url := "https://api.coinbase.com/v2/exchange-rates?currency=BTC";
                     requires_key := false; timeout := 8 |})
    = Ret (Some ("coinbase", d)) /\
    outcome_of (get_bitcoin_from_source calm "coinbase") = source_reply calm "coinbase" d.
Proof.
  apply (endpoints_agree_on_record calm "coinbase"
           {| url := "https://api.coinbase.com/v2/exchange-rates?currency=BTC";
              requires_key := false; timeout := 8 |} coinbase_payload).
  - reflexivity.
  - discriminate.
  - discriminate.
  - eexists. split; [reflexivity|]. split; reflexivity.
  - eexists. split; [reflexivity|]. split; reflexivity.
Defined.

(** X11. The two endpoints agree on nobitex where they overlap.
    Whenever the single-source endpoint answers for nobitex, the
    normalizer turns the same payload into a price record, without
    "error", and the answer carries the same [usd], [last_trade_price],
    [best_bid] and [best_ask] as that record. *)
Theorem nobitex_answer_extends_record (w : Env) (data : pyval) (r : reply) :
  requests_ok (requests_answer w nobitex_url 0) data ->
  outcome_of (get_bitcoin_from_source w "nobitex") = Ret (Some r) ->
  exists d,
    parse_crypto_response w "nobitex" data = Ret d /\
    dict_keys d = ["usd"; "last_trade_price"; "best_bid"; "best_ask"] /\
    forall k, In k ["usd"; "last_trade_price"; "best_bid"; "best_ask"] ->
              report_field k r = dict_lookup k d.
Proof.
  intros [resp [Hr [Hst Hj]]].
  rewrite nobitex_source_outcome.
  unfold nobitex_direct, requests_get. fold nobitex_url. rewrite Hr.
  rewrite io_bind_ret. cbn [outcome_of snd].
  rewrite Hst, io_bind_lift_ret, Hj, io_bind_lift_ret.
  unfold parse_crypto_response, parse_body.
  cbn [String.eqb Ascii.eqb Bool.eqb].
  destruct (get data "status" PNone) as [status|e] eqn:E0;
    [rewrite io_bind_lift_ret | rewrite io_bind_lift_raise; cbn [outcome_of snd];
                                destruct (is_http_exception e); intros [=]].
  cbn [py_bind].
  destruct (eq_str status "ok");
    [|cbn [io_raise outcome_of snd is_http_exception]; intros [=]].
  repeat match goal with
         | |- context [io_bind (lift ?c) _] =>
             let E := fresh "E" in
             destruct c eqn:E;
             [rewrite io_bind_lift_ret; cbn [py_bind]
             | rewrite io_bind_lift_raise; cbn [outcome_of snd];
               match goal with
               | |- context [is_http_exception ?x] => destruct (is_http_exception x)
               end; intros [=]]
         end.
  unfold lift. cbn [outcome_of snd py_try].
  destruct (JSONResponse _) as [a'|e] eqn:EJ;
    [|destruct (is_http_exception e); intros [=]].
  apply JSONResponse_status in EJ. subst a'. intros [= <-].
  eexists. split; [reflexivity|]. split; [reflexivity|].
  intros k Hk. simpl in Hk.
  repeat (destruct Hk as [<-|Hk]; [reflexivity|]). contradiction.
Qed.

Lemma nobitex_answer_extends_record_witness :
  exists d,
    parse_crypto_response calm "nobitex" nobitex_payload = Ret d /\
    dict_keys d = ["usd"; "last_trade_price"; "best_bid"; "best_ask"] /\
    forall k, In k ["usd"; "last_trade_price"; "best_bid"; "best_ask"] ->
      report_field k
        (answer_200 (PDict
           [("source", PStr "nobitex");
            ("usd", PFloat (Float64.of_Z 100));
            ("last_trade_price", PFloat (Float64.of_Z 100));
            ("best_bid", PFloat (Float64.of_Z 99));
            ("best_ask", PFloat (Float64.of_Z 101));
            ("spread", PFloat (Float64.of_Z 2));
            ("last_update", PInt 0);
            ("timestamp", PStr "2024-01-01 00:00:00")]))
      = dict_lookup k d.
Proof.
  apply (nobitex_answer_extends_record calm nobitex_payload).
  - eexists. split; [reflexivity|]. split; reflexivity.
  - vm_compute. reflexivity.
Defined.

(** ** The report of GET /bitcoin/all, whatever the sources do *)


Lemma aggregate_report_finite (w : Env) (prices : dict) :
  finite_floats (aggregate_report w prices) = finite_floats (PDict prices).
Proof.
  unfold aggregate_report. cbn [finite_floats forallb snd].
  now rewrite !andb_true_r.
Qed.

Lemma aggregate_report_compliant (w : Env) (prices : dict) :
  json_compliant (aggregate_report w prices) = json_compliant (PDict prices).
Proof.
  unfold json_compliant. rewrite aggregate_report_finite. f_equal.
  unfold aggregate_report. cbn [encodable_strings forallb fst snd].
  rewrite (now_text w).
  change (encodable "bitcoin_prices") with true.
  change (encodable "timestamp") with true.
  change (encodable "successful_sources") with true.
  change (encodable "failed_sources") with true.
  cbn [andb]. now rewrite andb_true_r.
Qed.


Lemma fetch_source_all_raise (w : Env) (s : string) (c : Config) :
  (forall u n, exists e, httpx_answer w u n = Raise e) ->
  exists msg, outcome_of (fetch_source w s c) = Ret (Some (s, error_record msg)) /\
              encodable msg = true.
Proof.
  intros Hall.
  assert (F : forall n, httpx_failed (httpx_answer w (url c) n) = true).
  { intros n. destruct (Hall (url c) n) as [e ->]. reflexivity. }
  destruct (String.eqb_spec s "coinbase") as [Hc|Hc].
  { destruct (Hall (url c) 0%nat) as [e He].
    rewrite (fetch_source_direct w s c (or_introl Hc)). subst s.
    unfold fetch_once, client_get. rewrite He.
    eexists. split; [reflexivity|]. cbn [String.eqb Ascii.eqb Bool.eqb]. text_ok. }
  destruct (String.eqb_spec s "binance") as [Hb|Hb].
  { destruct (Hall (url c) 0%nat) as [e He].
    rewrite (fetch_source_direct w s c (or_intror Hb)). subst s.
    unfold fetch_once, client_get. rewrite He.
    eexists. split; [reflexivity|]. cbn [String.eqb Ascii.eqb Bool.eqb]. text_ok. }
  assert (T : encodable (httpx_failure_text w (httpx_answer w (url c) 1)) = true).
  { destruct (Hall (url c) 1%nat) as [e ->]. cbn [httpx_failure_text].
    unfold exception_text. destruct (is_httpx_timeout e); text_ok. }
  destruct (String.eqb_spec s "coinmarketcap") as [->|Hm].
  - destruct (no_api_key w) eqn:Hk.
    + rewrite (fetch_source_without_key w c Hk). eexists. split; reflexivity.
    + rewrite (fetch_retry_failed w _ c Hc Hb (fun _ => Hk) (F 0%nat) (F 1%nat)).
      eexists. split; [reflexivity | exact T].
  - rewrite (fetch_retry_failed w s c Hc Hb (fun E => False_ind _ (Hm E))
               (F 0%nat) (F 1%nat)).
    eexists. split; [reflexivity | exact T].
Qed.

Lemma failed_records (f : string * Config -> dict) (l : list (string * Config)) :
  (forall sc, exists msg, f sc = error_record msg /\ encodable msg = true) ->
  (forall sc, In sc l -> encodable (fst sc) = true) ->
  count is_success (dict_values (map (fun sc => (fst sc, PDict (f sc))) l)) = 0 /\
  count is_failure (dict_values (map (fun sc => (fst sc, PDict (f sc))) l))
  = Z.of_nat (List.length l) /\
  json_compliant (PDict (map (fun sc => (fst sc, PDict (f sc))) l)) = true.
Proof.
  intros Hf Hkeys. unfold count, dict_values, json_compliant.
  induction l as [|sc l IH]; [repeat split|].
  destruct IH as [IH1 [IH2 IH3]]; [intros x Hx; apply Hkeys; now right|].
  apply andb_true_iff in IH3. destruct IH3 as [IH3 IH4].
  destruct (Hf sc) as [msg [Hmsg Htext]].
  cbn [map snd fst filter is_success is_failure finite_floats encodable_strings forallb] in *.
  rewrite Hmsg.
  cbn [error_record dict_has dict_lookup String.eqb Ascii.eqb Bool.eqb negb
       finite_floats encodable_strings forallb fst snd andb List.length].
  rewrite IH3, IH4, Htext, (Hkeys sc (or_introl eq_refl)).
  repeat split; [exact IH1 | lia].
Qed.

Lemma registered_keys_encodable (sc : string * Config) :
  In sc CRYPTO_APIS -> encodable (fst sc) = true.
Proof.
  intros Hin. cbn in Hin.
  repeat (destruct Hin as [<-|Hin]; [reflexivity|]). contradiction.
Qed.

(** X13. When every request of GET /bitcoin/all raises and no unit of
    work is in flight at the deadline, the call still answers with
    status 200: the report counts no successful source and all six as
    failed, each under its own identifier. *)
Theorem all_sources_failing_still_reported (w : Env) :
  existsb (in_flight w) CRYPTO_APIS = false ->
  (forall u n, exists e, httpx_answer w u n = Raise e) ->
  exists prices,
    get_bitcoin_all_sources w
    = Ret (answer_200 (PDict
        [("bitcoin_prices", PDict prices);
         ("timestamp", PStr (now w));
         ("successful_sources", PInt 0);
         ("failed_sources", PInt 6)])) /\
    dict_keys prices = registered /\
    forall s v, dict_lookup s prices = Some v -> is_failure v = true.
Proof.
  intros Hdone Hall.
  assert (Hrec : forall sc, exists msg, source_record w sc = error_record msg /\
                                        encodable msg = true).
  { intros sc. unfold source_record.
    destruct (fetch_source_all_raise w (fst sc) (snd sc) Hall) as [msg [-> Ht]]. eauto. }
  destruct (failed_records (source_record w) CRYPTO_APIS Hrec registered_keys_encodable)
    as [H1 [H2 H3]].
  exists (map (fun sc => (fst sc, PDict (source_record w sc))) CRYPTO_APIS).
  split; [|split].
  - unfold get_bitcoin_all_sources. rewrite (all_results_in_time w Hdone).
    cbn [py_bind]. rewrite JSONResponse_ok by (now rewrite aggregate_report_compliant).
    unfold aggregate_report. rewrite H1, H2. reflexivity.
  - unfold dict_keys, registered. now rewrite map_map.
  - intros s v Hv.
    assert (G : forall l : list (string * Config),
              dict_lookup s (map (fun sc => (fst sc, PDict (source_record w sc))) l)
              = Some v -> is_failure v = true).
    { induction l as [|sc l IH]; simpl; [discriminate|].
      destruct (fst sc =? s)%string; [|exact IH].
      intros [= <-]. destruct (Hrec sc) as [msg [-> _]]. reflexivity. }
    exact (G _ Hv).
Qed.

Lemma all_sources_failing_still_reported_witness :
  exists prices,
    get_bitcoin_all_sources offline
    = Ret (answer_200 (PDict
        [("bitcoin_prices", PDict prices);
         ("timestamp", PStr (now offline));
         ("successful_sources", PInt 0);
         ("failed_sources", PInt 6)])) /\
    dict_keys prices = registered /\
    forall s v, dict_lookup s prices = Some v -> is_failure v = true.
Proof.
  apply (all_sources_failing_still_reported offline eq_refl).
  intros u n. eexists. reflexivity.
Defined.

(** * Properties of the other endpoints *)

(** ** GET / *)

(** X14. The welcome endpoint and the single-source endpoint speak of
    the same sources.  When the HTTP library raises no [HTTPException]
    of its own, an identifier is listed under
    [available_crypto_sources] exactly when GET /bitcoin/source does not
    refuse it with status 400. *)
Theorem advertised_sources_are_served (w : Env) (source : string) :
  requests_sane w ->
  (In (PStr source) advertised <->
   forall detail,
     outcome_of (get_bitcoin_from_source w source) <> Raise (HTTPException 400 detail)).
Proof.
  intros Hsane.
  assert (A : In (PStr source) advertised <-> In source registered).
  { unfold advertised, root, crypto_sources, registered. cbn [dict_lookup String.eqb Ascii.eqb Bool.eqb].
    rewrite in_map_iff. split.
    - intros [x [[= ->] Hx]]. exact Hx.
    - intros Hx. exists source. auto. }
  rewrite A. pose proof (source_endpoint_cases w source) as C.
  destruct (outcome_of (get_bitcoin_from_source w source)) as [[r|]|e].
  - split; [discriminate | tauto].
  - contradiction.
  - destruct (C Hsane) as [st [detail [-> [[-> Hnot]|[Hst Hin]]]]].
    + split; [contradiction|]. intros H. exfalso. now apply (H detail).
    + split; [|auto]. intros _ detail' [= -> _]. lia.
Qed.

Lemma advertised_sources_are_served_witness :
  In (PStr "kraken") advertised <->
  forall detail,
    outcome_of (get_bitcoin_from_source offline "kraken")
    <> Raise (HTTPException 400 detail).
Proof. exact (advertised_sources_are_served offline "kraken" offline_sane). Defined.

(** ** GET /weather/{city} *)

(** X15. The error statuses of GET /weather/{city}.  Without an
    OpenWeather key it raises 500 and asks nothing.  With a key, an
    upstream answer of status 401 does not come out as 401: the
    [HTTPException] raised for it is caught by the handler of all
    exceptions and comes out as 500; an upstream 404 comes out as 404
    "City '<city>' not found", and any other upstream status from 400 to
    599 comes out under its own status. *)
Theorem get_weather_error_statuses (w : WeatherEnv) (city units : string) :
  (key_missing (OPENWEATHER_API_KEY w) = true ->
   get_weather w city units
   = ([], Raise (HTTPException 500
        "OpenWeather API key not configured. Use /weather/v2/{city} for alternative"))) /\
  (key_missing (OPENWEATHER_API_KEY w) = false ->
   forall r,
     requests_answer (net w) OPENWEATHER_BASE_URL 0 = Ret r ->
     (status_code r = 401 ->
      get_weather w city units
      = ([openweather_request w city units],
         Raise (HTTPException 500
           ("Error: " ++ str_exn (net w)
              (HTTPException 401
                 "API key invalid or not yet activated. Please wait a few hours or use /weather/v2/{city}"))))) /\
     (status_code r = 404 ->
      get_weather w city units
      = ([openweather_request w city units],
         Raise (HTTPException 404 ("City '" ++ city ++ "' not found")))) /\
     (400 <= status_code r < 600 -> status_code r <> 401 -> status_code r <> 404 ->
      get_weather w city units
      = ([openweather_request w city units],
         Raise (HTTPException (status_code r)
                  (str_exn (net w) (RequestsHTTPError (status_code r))))))).
Proof.
  split.
  - intros Hk. unfold get_weather. now rewrite Hk.
  - intros Hk r Hr. unfold get_weather, requests_get, openweather_request.
    rewrite Hk, Hr. cbn [io_try io_bind]. split; [|split].
    + intros ->. reflexivity.
    + intros H. unfold lift, requests_raise_for_status. rewrite H. reflexivity.
    + intros Hst H401 H404.
      destruct (Z.eqb_spec (status_code r) 401) as [|_]; [contradiction|].
      unfold lift, requests_raise_for_status.
      destruct (Z.leb_spec 400 (status_code r)); [|lia].
      destruct (Z.ltb_spec (status_code r) 600); [|lia].
      cbn [andb io_try io_bind].
      destruct (Z.eqb_spec (status_code r) 404) as [|_]; [contradiction|].
      reflexivity.
Qed.

Lemma get_weather_error_statuses_witness :
  get_weather (with_weather_keys (replying OPENWEATHER_BASE_URL 401 PNone)) "London" "metric"
  = ([openweather_request (with_weather_keys (replying OPENWEATHER_BASE_URL 401 PNone))
        "London" "metric"],
     Raise (HTTPException 500
       ("Error: " ++ str_exn (replying OPENWEATHER_BASE_URL 401 PNone)
          (HTTPException 401
             "API key invalid or not yet activated. Please wait a few hours or use /weather/v2/{city}")))).
Proof.
  exact (proj1 (proj2 (get_weather_error_statuses
                         (with_weather_keys (replying OPENWEATHER_BASE_URL 401 PNone))
                         "London" "metric") eq_refl _ eq_refl) eq_refl).
Defined.

(** X16. The units of GET /weather/{city} are labelled by one test.  In
    the answer built from a payload, the temperature unit is the
    Celsius label and the wind speed is in m/s exactly when [units] is
    "metric"; under every other value of [units], whatever scale the
    upstream used for it, the label is the Fahrenheit one and the wind
    speed is in mph. *)
Theorem openweather_units_label (w : WeatherEnv) (units : string) (data info : pyval) :
  openweather_info w units data = Ret info ->
  path info ["temperature"; "unit"]
  = Ret (PStr (if (units =? "metric")%string then degrees "C" else degrees "F")) /\
  exists speed,
    path data ["wind"; "speed"] = Ret speed /\
    path info ["wind"; "speed"]
    = Ret (PStr (str_value w speed ++
                 (if (units =? "metric")%string then " m/s" else " mph"))).
Proof.
  unfold openweather_info.
  repeat match goal with
         | |- context [py_bind ?c _] =>
             let E := fresh "E" in destruct c eqn:E; cbn [py_bind]; [|discriminate]
         end.
  intros [= <-]. split; [reflexivity|].
  eexists. split; [reflexivity|].
  destruct (units =? "metric")%string; reflexivity.
Qed.

Lemma openweather_units_label_witness :
  exists info,
    openweather_info (with_weather_keys calm) "standard" openweather_payload = Ret info /\
    path info ["temperature"; "unit"] = Ret (PStr (degrees "F")) /\
    path info ["wind"; "speed"] = Ret (PStr "value mph").
Proof.
  eexists. split; [reflexivity|].
  destruct (openweather_units_label (with_weather_keys calm) "standard"
              openweather_payload _ eq_refl) as [H1 [speed [Hs H2]]].
  split; [exact H1|]. injection Hs as <-. exact H2.
Defined.

(** ** GET /weather/v2/{city} *)

Lemma wttr_fallback_trace (w : WeatherEnv) (city : string) :
  trace_of (wttr_fallback w city) = [EGet (wttr_url city) [] [] 10] /\
  exists found, outcome_of (wttr_fallback w city) = Ret found.
Proof.
  unfold wttr_fallback, requests_get, lift.
  destruct (requests_answer (net w) (wttr_url city) 0) as [r|e]; cbn [io_try io_bind];
    [|split; [reflexivity | eexists; reflexivity]].
  destruct (status_code r =? 200); [|split; [reflexivity | eexists; reflexivity]].
  destruct (json r) as [data|e]; cbn [io_try io_bind];
    [|split; [reflexivity | eexists; reflexivity]].
  destruct (wttr_info w city data) as [info|e]; cbn [io_try io_bind];
    split; (reflexivity || (eexists; reflexivity)).
Qed.

(** X17. GET /weather/v2/{city} asks one provider and raises only 500.
    Without a WeatherAPI key it makes exactly one request, to wttr.in,
    with no header or parameter, and either returns what it made of the
    answer or raises 500 "WeatherAPI key not configured...", whatever
    went wrong: the failure of wttr.in is not reported.  With a key it
    makes exactly one request, to WeatherAPI.com, and either answers
    with status 200 or raises 500 "Error: ..." for the exception
    raised. *)
Theorem weather_v2_one_provider (w : WeatherEnv) (city : string) :
  (key_missing (WEATHERAPI_KEY w) = true ->
   trace_of (get_weather_v2 w city) = [EGet (wttr_url city) [] [] 10] /\
   ((exists info, outcome_of (get_weather_v2 w city) = Ret (Plain info)) \/
    outcome_of (get_weather_v2 w city)
    = Raise (HTTPException 500
        "WeatherAPI key not configured. Add WEATHERAPI_KEY to .env file"))) /\
  (key_missing (WEATHERAPI_KEY w) = false ->
   trace_of (get_weather_v2 w city) = [weatherapi_request w city] /\
   ((exists r, outcome_of (get_weather_v2 w city) = Ret (Response r) /\
               reply_status r = 200) \/
    (exists e, outcome_of (get_weather_v2 w city)
               = Raise (HTTPException 500 ("Error: " ++ str_exn (net w) e))))).
Proof.
  split; intros Hk; unfold get_weather_v2; rewrite Hk.
  - destruct (wttr_fallback_trace w city) as [T [found O]].
    unfold trace_of, outcome_of in *.
    destruct (wttr_fallback w city) as [t o]. cbn [fst snd] in *. subst t o.
    destruct found as [info|]; cbn [io_bind io_ret io_raise fst snd app].
    + split; [reflexivity|]. left. eexists. reflexivity.
    + split; [reflexivity|]. now right.
  - unfold requests_get, lift, weatherapi_request, trace_of, outcome_of.
    destruct (requests_answer (net w) WEATHERAPI_BASE_URL 0) as [r|e];
      cbn [io_try io_bind fst snd io_raise app];
      [|split; [reflexivity | right; eexists; reflexivity]].
    destruct (requests_raise_for_status r) as [[]|e];
      cbn [io_try io_bind fst snd io_raise app];
      [|split; [reflexivity | right; eexists; reflexivity]].
    destruct (json r) as [data|e];
      cbn [io_try io_bind fst snd io_raise app];
      [|split; [reflexivity | right; eexists; reflexivity]].
    destruct (weatherapi_info w data) as [info|e];
      cbn [io_try io_bind fst snd io_raise app];
      [|split; [reflexivity | right; eexists; reflexivity]].
    destruct (JSONResponse info) as [a|e] eqn:EJ;
      cbn [io_try io_bind io_ret fst snd io_raise app];
      [|split; [reflexivity | right; eexists; reflexivity]].
    split; [reflexivity|]. left. exists a. split; [reflexivity|].
    apply JSONResponse_status in EJ. now subst a.
Qed.

Lemma weather_v2_one_provider_witness :
  trace_of (get_weather_v2 (without_weather_keys offline) "London")
  = [EGet (wttr_url "London") [] [] 10] /\
  ((exists info,
      outcome_of (get_weather_v2 (without_weather_keys offline) "London")
      = Ret (Plain info)) \/
   outcome_of (get_weather_v2 (without_weather_keys offline) "London")
   = Raise (HTTPException 500
       "WeatherAPI key not configured. Add WEATHERAPI_KEY to .env file")).
Proof.
  exact (proj1 (weather_v2_one_provider (without_weather_keys offline) "London") eq_refl).
Defined.

(** ** GET /weather/test *)

Lemma test_openweather_cases (w : WeatherEnv) :
  exists d,
    outcome_of (test_openweather w) = Ret (PDict d) /\
    dict_has "status" d = true /\
    trace_of (test_openweather w)
    = (if key_missing (OPENWEATHER_API_KEY w) then []
       else [EGet OPENWEATHER_BASE_URL []
               [("q", "London"); ("appid", key_text (OPENWEATHER_API_KEY w));
                ("units", "metric")] 5]) /\
    (dict_lookup "status" d = Some (PStr "working") <->
     key_missing (OPENWEATHER_API_KEY w) = false /\
     exists r, requests_answer (net w) OPENWEATHER_BASE_URL 0 = Ret r /\
               status_code r = 200).
Proof.
  unfold test_openweather.
  destruct (key_missing (OPENWEATHER_API_KEY w)).
  { eexists. split; [reflexivity|]. split; [reflexivity|]. split; [reflexivity|].
    split; [discriminate | intros [[=] _]]. }
  unfold requests_get.
  destruct (requests_answer (net w) OPENWEATHER_BASE_URL 0) as [r|e];
    cbn [io_try io_bind io_ret outcome_of trace_of fst snd app].
  - eexists. split; [reflexivity|]. split; [reflexivity|]. split; [reflexivity|].
    cbn [dict_lookup String.eqb Ascii.eqb Bool.eqb].
    destruct (Z.eqb_spec (status_code r) 200) as [E|E].
    + split; [|reflexivity]. intros _. split; [reflexivity|]. exists r. auto.
    + split; [discriminate|]. intros [_ [r' [[= <-] H]]]. contradiction.
  - eexists. split; [reflexivity|]. split; [reflexivity|]. split; [reflexivity|].
    split; [discriminate|]. intros [_ [r' [[=] _]]].
Qed.

Lemma test_weatherapi_cases (w : WeatherEnv) :
  exists d,
    outcome_of (test_weatherapi w) = Ret (PDict d) /\
    dict_has "status" d = true /\
    trace_of (test_weatherapi w)
    = (if key_missing (WEATHERAPI_KEY w) then []
       else [EGet WEATHERAPI_BASE_URL []
               [("key", key_text (WEATHERAPI_KEY w)); ("q", "London")] 5]) /\
    (dict_lookup "status" d = Some (PStr "working") <->
     key_missing (WEATHERAPI_KEY w) = false /\
     exists r, requests_answer (net w) WEATHERAPI_BASE_URL 0 = Ret r /\
               status_code r = 200).
Proof.
  unfold test_weatherapi.
  destruct (key_missing (WEATHERAPI_KEY w)).
  { eexists. split; [reflexivity|]. split; [reflexivity|]. split; [reflexivity|].
    split; [discriminate | intros [[=] _]]. }
  unfold requests_get.
  destruct (requests_answer (net w) WEATHERAPI_BASE_URL 0) as [r|e];
    cbn [io_try io_bind io_ret outcome_of trace_of fst snd app].
  - eexists. split; [reflexivity|]. split; [reflexivity|]. split; [reflexivity|].
    cbn [dict_lookup String.eqb Ascii.eqb Bool.eqb].
    destruct (Z.eqb_spec (status_code r) 200) as [E|E].
    + split; [|reflexivity]. intros _. split; [reflexivity|]. exists r. auto.
    + split; [discriminate|]. intros [_ [r' [[= <-] H]]]. contradiction.
  - eexists. split; [reflexivity|]. split; [reflexivity|]. split; [reflexivity|].
    split; [discriminate|]. intros [_ [r' [[=] _]]].
Qed.

(** X18. GET /weather/test always reports on both providers and never
    raises.  Its result has exactly the entries "openweather" and
    "weatherapi", each with a "status"; a provider is asked, once, only
    when its key is configured; and a status is "working" exactly when
    the key is configured and the provider answered with status 200. *)
Theorem test_weather_apis_reports_both (w : WeatherEnv) :
  exists o a,
    outcome_of (test_weather_apis w)
    = Ret (PDict [("openweather", PDict o); ("weatherapi", PDict a)]) /\
    dict_has "status" o = true /\ dict_has "status" a = true /\
    trace_of (test_weather_apis w)
    = ((if key_missing (OPENWEATHER_API_KEY w) then []
        else [EGet OPENWEATHER_BASE_URL []
                [("q", "London"); ("appid", key_text (OPENWEATHER_API_KEY w));
                 ("units", "metric")] 5]) ++
       (if key_missing (WEATHERAPI_KEY w) then []
        else [EGet WEATHERAPI_BASE_URL []
                [("key", key_text (WEATHERAPI_KEY w)); ("q", "London")] 5]))%list /\
    (dict_lookup "status" o = Some (PStr "working") <->
     key_missing (OPENWEATHER_API_KEY w) = false /\
     exists r, requests_answer (net w) OPENWEATHER_BASE_URL 0 = Ret r /\
               status_code r = 200) /\
    (dict_lookup "status" a = Some (PStr "working") <->
     key_missing (WEATHERAPI_KEY w) = false /\
     exists r, requests_answer (net w) WEATHERAPI_BASE_URL 0 = Ret r /\
               status_code r = 200).
Proof.
  destruct (test_openweather_cases w) as [o [Oo [So [To Wo]]]].
  destruct (test_weatherapi_cases w) as [a [Oa [Sa [Ta Wa]]]].
  exists o, a. unfold test_weather_apis, outcome_of, trace_of in *.
  destruct (test_openweather w) as [t1 o1], (test_weatherapi w) as [t2 o2].
  cbn [fst snd] in *. subst. cbn [io_bind io_ret fst snd dict_set String.eqb Ascii.eqb Bool.eqb].
  rewrite app_nil_r.
  split; [reflexivity|]. split; [exact So|]. split; [exact Sa|].
  split; [reflexivity|]. split; [exact Wo | exact Wa].
Qed.
(** * Properties of the desktop client *)

Lemma nth_error_last {A} (t : list A) (x : A) :
  nth_error (t ++ [x]) (List.length t) = Some x.
Proof. induction t as [|y t IH]; [reflexivity | exact IH]. Qed.

Lemma replace_nth_last {A} (t : list A) (x y : A) :
  replace_nth (List.length t) y (t ++ [x]) = (t ++ [y])%list.
Proof. induction t as [|z t IH]; [reflexivity | cbn; now rewrite IH]. Qed.

Lemma setItem_last (t : list (list (option item))) (row : list (option item))
    (column : nat) (it : item) (g : Window) :
  setItem (List.length t) column it (set_priceTable (t ++ [row]) g)
  = (set_priceTable (t ++ [replace_nth column (Some it) row]) g, Ret tt).
Proof.
  unfold setItem. cbn [priceTable set_priceTable].
  rewrite nth_error_last, replace_nth_last. reflexivity.
Qed.

Lemma insertRow_last (g : Window) :
  insertRow g = (set_priceTable (priceTable g ++ [[None; None; None; None]]) g, Ret tt).
Proof. reflexivity. Qed.

(** ** Prices that can be formatted *)

Lemma float_of_int_raises (z : Z) (x : exn) :
  float_of_int z = Raise x -> x = OverflowError.
Proof.
  unfold float_of_int. destruct (Float64.is_infinite _); [|discriminate].
  now intros [= <-].
Qed.

(** A number is formatted unless it overflows. *)
Lemma number_formatted (v : pyval) :
  is_number v = true -> overflows v = false -> exists f, float_value v = Ret f.
Proof.
  destruct v as [|b|z|f|s|l|d]; try discriminate; intros _ Ho;
    try (eexists; reflexivity).
  unfold overflows in Ho. cbn [float_value] in *.
  destruct (float_of_int z) as [f|x] eqn:E; [eauto|].
  rewrite (float_of_int_raises z x E) in Ho. discriminate Ho.
Qed.

Lemma overflows_raises (v : pyval) :
  overflows v = true -> float_value v = Raise OverflowError.
Proof.
  unfold overflows. destruct (float_value v) as [f|[]]; try discriminate. reflexivity.
Qed.

Lemma overflows_number (v : pyval) : overflows v = true -> is_number v = true.
Proof.
  destruct v as [|b|z|f|s|l|d]; try reflexivity; discriminate.
Qed.

(** ** The table of all sources *)

(** The row the loop of [display_all_bitcoin_prices] draws for an entry
    of the report whose price can be formatted. *)
Lemma display_source_row_appends (e : GuiEnv) (ts source : string) (info : pyval)
    (g : Window) :
  undrawable info = false ->
  exists row,
    display_source_row e (PStr ts) source info g
    = (set_priceTable (priceTable g ++ [row]) g, Ret tt) /\
    cell_text 0 row = Some (title source) /\
    cell_text 3 row = Some ts /\
    active_row row = is_success info /\
    failed_row row = negb (is_success info) /\
    (is_success info = false -> cell_text 1 row = Some "--").
Proof.
  intros Hdraw.
  unfold display_source_row, gui_bind at 1, rowCount.
  unfold gui_bind at 1. rewrite insertRow_last.
  unfold gui_bind at 1. rewrite setItem_last.
  unfold gui_bind at 1.
  destruct info as [|b|z|f|s|l|d];
    cbn [is_dict andb is_success negb gui_bind gui_ret];
    try (unfold gui_bind at 1; rewrite setItem_last;
         unfold gui_bind at 1; cbn [gui_ret];
         rewrite setItem_last;
         unfold gui_bind, gui_lift; cbn [QTableWidgetItem];
         rewrite setItem_last;
         eexists; split; [reflexivity|]; repeat split; reflexivity).
  cbn [undrawable] in Hdraw.
  destruct (dict_has "error" d) eqn:Herr; cbn [negb andb] in *.
  - unfold gui_bind at 1. rewrite setItem_last.
    unfold gui_bind at 1, gui_lift at 1. rewrite get_dict.
    rewrite setItem_last.
    unfold gui_bind, gui_lift; cbn [QTableWidgetItem].
    rewrite setItem_last.
    eexists; split; [reflexivity|]; repeat split; reflexivity.
  - unfold gui_bind at 1, gui_lift at 1. rewrite get_dict.
    unfold gui_bind at 1.
    destruct (is_number (dict_get d "usd" (PStr "N/A"))) eqn:Hnum.
    + destruct (number_formatted _ Hnum Hdraw) as [f Hf].
      unfold gui_bind at 1, gui_lift at 1, dollars. rewrite Hf. cbn [py_bind].
      rewrite setItem_last, setItem_last.
      unfold gui_bind, gui_lift; cbn [QTableWidgetItem].
      rewrite setItem_last.
      eexists; split; [reflexivity|]; repeat split; try reflexivity.
      intros [=].
    + rewrite setItem_last, setItem_last.
      unfold gui_bind, gui_lift; cbn [QTableWidgetItem].
      rewrite setItem_last.
      eexists; split; [reflexivity|]; repeat split; try reflexivity.
      intros [=].
Qed.

(** An entry whose price cannot be formatted stops the loop: its row is
    there, with its name alone. *)
Lemma display_source_row_overflows (e : GuiEnv) (ts source : string) (info : pyval)
    (g : Window) :
  undrawable info = true ->
  display_source_row e (PStr ts) source info g
  = (set_priceTable
       (priceTable g ++ [[Some (plain_item (title source)); None; None; None]]) g,
     Raise OverflowError).
Proof.
  intros Hdraw. destruct info as [|b|z|f|s|l|d]; try discriminate.
  cbn [undrawable] in Hdraw. apply andb_true_iff in Hdraw. destruct Hdraw as [Herr Hover].
  unfold display_source_row, gui_bind at 1, rowCount.
  unfold gui_bind at 1. rewrite insertRow_last.
  unfold gui_bind at 1. rewrite setItem_last.
  unfold gui_bind at 1. cbn [is_dict andb]. rewrite Herr.
  unfold gui_bind at 1, gui_lift at 1. rewrite get_dict.
  unfold gui_bind at 1. rewrite (overflows_number _ Hover).
  unfold gui_bind at 1, gui_lift at 1, dollars.
  rewrite (overflows_raises _ Hover). reflexivity.
Qed.

Lemma set_priceTable_same (g : Window) : set_priceTable (priceTable g) g = g.
Proof. now destruct g. Qed.

(** The loop of [display_all_bitcoin_prices]: one row for each entry, in
    the order of the entries, below the rows already there. *)
Lemma for_items_rows (e : GuiEnv) (ts : string) (d : dict) (g : Window) :
  existsb undrawable (dict_values d) = false ->
  exists rows,
    for_items (display_source_row e (PStr ts)) d g
    = (set_priceTable (priceTable g ++ rows) g, Ret tt) /\
    map (cell_text 0) rows = map (fun kv => Some (title (fst kv))) d /\
    map (cell_text 3) rows = map (fun _ => Some ts) d /\
    map active_row rows = map (fun kv => is_success (snd kv)) d /\
    map failed_row rows = map (fun kv => negb (is_success (snd kv))) d.
Proof.
  revert g. induction d as [|[k v] d IH]; intros g Hdraw.
  - exists []. rewrite app_nil_r, set_priceTable_same. repeat split.
  - cbn [dict_values map snd existsb] in Hdraw.
    apply orb_false_iff in Hdraw. destruct Hdraw as [Hv Hd].
    destruct (display_source_row_appends e ts k v g Hv)
      as [row [Hrow [H0 [H3 [Ha [Hf _]]]]]].
    destruct (IH (set_priceTable (priceTable g ++ [row]) g) Hd)
      as [rows [Hrows [R0 [R3 [Ra Rf]]]]].
    exists (row :: rows).
    cbn [for_items]. unfold gui_bind. rewrite Hrow, Hrows.
    cbn [priceTable set_priceTable]. rewrite <- app_assoc.
    cbn [map fst snd]. rewrite H0, H3, Ha, Hf, R0, R3, Ra, Rf.
    repeat split.
Qed.

(** With an entry that cannot be formatted the loop raises, having
    touched the table only. *)
Lemma for_items_overflows (e : GuiEnv) (ts : string) (d : dict) (g : Window) :
  existsb undrawable (dict_values d) = true ->
  exists rows,
    for_items (display_source_row e (PStr ts)) d g
    = (set_priceTable rows g, Raise OverflowError).
Proof.
  revert g. induction d as [|[k v] d IH]; intros g Hdraw; [discriminate|].
  cbn [dict_values map snd existsb] in Hdraw.
  destruct (undrawable v) eqn:Hv.
  - eexists. cbn [for_items]. unfold gui_bind.
    rewrite (display_source_row_overflows e ts k v g Hv). reflexivity.
  - cbn [orb] in Hdraw.
    destruct (display_source_row_appends e ts k v g Hv) as [row [Hrow _]].
    destruct (IH (set_priceTable (priceTable g ++ [row]) g) Hdraw) as [rows Hrows].
    exists rows. cbn [for_items]. unfold gui_bind. rewrite Hrow, Hrows. reflexivity.
Qed.

Lemma filter_length_map {A B} (p : A -> bool) (q : B -> bool) (l : list A) (m : list B) :
  map p l = map q m -> List.length (filter p l) = List.length (filter q m).
Proof.
  revert m. induction l as [|x l IH]; intros [|y m] H; try discriminate; [reflexivity|].
  cbn in H. injection H as Hx Hl. cbn. rewrite Hx.
  destruct (q y); cbn; now rewrite (IH m Hl).
Qed.

(** The table drawn from a report with the entries [prices]. *)
Lemma display_report (e : GuiEnv) (w : Env) (prices : dict) (g : Window) :
  existsb undrawable (dict_values prices) = false ->
  exists g',
    display_all_bitcoin_prices e (aggregate_report w prices) g = (g', Ret tt) /\
    map (cell_text 0) (priceTable g') = map (fun k => Some (title k)) (dict_keys prices) /\
    map (cell_text 3) (priceTable g') = map (fun _ => Some (now w)) prices /\
    map active_row (priceTable g') = map is_success (dict_values prices) /\
    map failed_row (priceTable g') = map (fun v => negb (is_success v)) (dict_values prices) /\
    statusLabel g'
    = "Updated: " ++ gui_str e (PInt (count is_success (dict_values prices)))
      ++ " successful, " ++ gui_str e (PInt (count is_failure (dict_values prices)))
      ++ " failed sources".
Proof.
  intros Hdraw.
  destruct (for_items_rows e (now w) prices (set_priceTable [] g) Hdraw)
    as [rows [Hrows [R0 [R3 [Ra Rf]]]]].
  eexists.
  unfold display_all_bitcoin_prices, aggregate_report.
  unfold gui_bind at 1. unfold clear_rows.
  unfold gui_bind at 1, gui_lift at 1. rewrite get_dict.
  unfold gui_bind at 1, gui_lift at 1. rewrite get_dict.
  unfold gui_bind at 1, gui_lift at 1.
  cbn [dict_get dict_lookup String.eqb Ascii.eqb Bool.eqb items].
  unfold gui_bind at 1. rewrite Hrows.
  unfold gui_bind, gui_lift. rewrite !get_dict.
  cbn [dict_get dict_lookup String.eqb Ascii.eqb Bool.eqb setText fstr
       priceTable set_priceTable set_statusLabel statusLabel app].
  split; [reflexivity|].
  unfold dict_keys, dict_values. rewrite !map_map.
  repeat split; assumption.
Qed.

(** A report with a price that cannot be formatted: the table is left
    half drawn and nothing else is touched. *)
Lemma display_report_overflows (e : GuiEnv) (w : Env) (prices : dict) (g : Window) :
  existsb undrawable (dict_values prices) = true ->
  exists rows,
    display_all_bitcoin_prices e (aggregate_report w prices) g
    = (set_priceTable rows g, Raise OverflowError).
Proof.
  intros Hdraw.
  destruct (for_items_overflows e (now w) prices (set_priceTable [] g) Hdraw)
    as [rows Hrows].
  exists rows.
  unfold display_all_bitcoin_prices, aggregate_report.
  unfold gui_bind at 1. unfold clear_rows.
  unfold gui_bind at 1, gui_lift at 1. rewrite get_dict.
  unfold gui_bind at 1, gui_lift at 1. rewrite get_dict.
  unfold gui_bind at 1, gui_lift at 1.
  cbn [dict_get dict_lookup String.eqb Ascii.eqb Bool.eqb items].
  unfold gui_bind at 1. rewrite Hrows. reflexivity.
Qed.

Lemma aggregate_answer (w : Env) (r : reply) :
  get_bitcoin_all_sources w = Ret r ->
  exists prices, all_results w = Ret prices /\ r = answer_200 (aggregate_report w prices).
Proof.
  unfold get_bitcoin_all_sources.
  destruct (all_results w) as [prices|x]; [|discriminate].
  cbn [py_bind]. intros H. apply JSONResponse_status in H. now exists prices.
Qed.

Lemma records_are_dicts (f : string * Config -> dict) (l : list (string * Config)) :
  map (fun v => negb (is_success v)) (dict_values (map (fun sc => (fst sc, PDict (f sc))) l))
  = map is_failure (dict_values (map (fun sc => (fst sc, PDict (f sc))) l)).
Proof.
  unfold dict_values. rewrite !map_map. apply map_ext. intros sc.
  cbn [snd is_success is_failure]. now destruct (dict_has "error" (f sc)).
Qed.

(** X19. A report that GET /bitcoin/all answers is drawn by the client's
    [display_all_bitcoin_prices] in one of two ways.  When no record
    without ["error"] quotes, as its ["usd"], an integer beyond the
    range of a float, the handler returns: the table has one row for
    each entry of ["bitcoin_prices"], in order, named by the key in
    title case and stamped with the report's timestamp, and the rows
    marked active in green are as many as ["successful_sources"] says;
    when, besides, no source was cut off by the deadline, the rows are
    the six registered sources and the rows marked in red are as many as
    ["failed_sources"] says.  When a record quotes such an integer, the
    handler raises [OverflowError] at its row, and nothing but the table
    has changed. *)
Theorem report_drawn_row_by_row (e : GuiEnv) (w : Env) (r : reply) (g : Window) :
  get_bitcoin_all_sources w = Ret r ->
  exists prices,
    report_field "bitcoin_prices" r = Some (PDict prices) /\
    (existsb undrawable (dict_values prices) = false ->
     exists g',
       display_all_bitcoin_prices e (content r) g = (g', Ret tt) /\
       map (cell_text 0) (priceTable g') = map (fun k => Some (title k)) (dict_keys prices) /\
       map (cell_text 3) (priceTable g') = map (fun _ => Some (now w)) prices /\
       report_field "successful_sources" r
       = Some (PInt (Z.of_nat (List.length (filter active_row (priceTable g'))))) /\
       (existsb (in_flight w) CRYPTO_APIS = false ->
        map (cell_text 0) (priceTable g')
        = [Some "Coinbase"; Some "Blockchain"; Some "Coinmarketcap";
           Some "Binance"; Some "Kraken"; Some "Nobitex"] /\
        report_field "failed_sources" r
        = Some (PInt (Z.of_nat (List.length (filter failed_row (priceTable g'))))))) /\
    (existsb undrawable (dict_values prices) = true ->
     exists rows,
       display_all_bitcoin_prices e (content r) g
       = (set_priceTable rows g, Raise OverflowError)).
Proof.
  intros H. destruct (aggregate_answer w r H) as [prices [Hp ->]].
  exists prices. cbn [content answer_200].
  split; [reflexivity|]. split.
  - intros Hdraw.
    destruct (display_report e w prices g Hdraw) as [g' [Hd [H0 [H3 [Ha [Hf _]]]]]].
    exists g'.
    split; [exact Hd|]. split; [exact H0|]. split; [exact H3|].
    split.
    + unfold report_field. cbn. unfold count.
      now rewrite (filter_length_map _ _ _ _ Ha).
    + intros Hin.
      assert (prices = map (fun sc => (fst sc, PDict (source_record w sc))) CRYPTO_APIS)
        as -> by (rewrite (all_results_in_time w Hin) in Hp; congruence).
      split.
      * rewrite H0. reflexivity.
      * unfold report_field. cbn [content answer_200 aggregate_report dict_lookup
                                   String.eqb Ascii.eqb Bool.eqb].
        unfold count. rewrite (records_are_dicts (source_record w) CRYPTO_APIS) in Hf.
        now rewrite (filter_length_map _ _ _ _ Hf).
  - apply display_report_overflows.
Qed.

Lemma report_drawn_row_by_row_witness :
  exists prices,
    report_field "bitcoin_prices" (answer_200 (aggregate_report huge_quote
      (map (fun sc => (fst sc, PDict (source_record huge_quote sc))) CRYPTO_APIS)))
    = Some (PDict prices) /\
    exists rows,
      display_all_bitcoin_prices desk
        (content (answer_200 (aggregate_report huge_quote
           (map (fun sc => (fst sc, PDict (source_record huge_quote sc))) CRYPTO_APIS))))
        (blank_window "bitcoin_all")
      = (set_priceTable rows (blank_window "bitcoin_all"), Raise OverflowError).
Proof.
  destruct (report_drawn_row_by_row desk huge_quote
              (answer_200 (aggregate_report huge_quote
                 (map (fun sc => (fst sc, PDict (source_record huge_quote sc))) CRYPTO_APIS)))
              (blank_window "bitcoin_all"))
    as [prices [Hp [_ Hover]]].
  - vm_compute. reflexivity.
  - exists prices. split; [exact Hp|].
    apply Hover.
    cbn [report_field content answer_200 aggregate_report dict_lookup
         String.eqb Ascii.eqb Bool.eqb] in Hp.
    injection Hp as <-. vm_compute. reflexivity.
Defined.



(** X21. A report of GET /bitcoin/all whose prices can all be formatted,
    handled while the window waits for all sources: [handle_api_response]
    returns; [display_all_bitcoin_prices] has drawn the table and written
    its summary of the two counts to the status line, and the handler
    writes "Ready" over it. *)
Theorem status_line_ends_ready (e : GuiEnv) (w : Env) (r : reply) (prices : dict)
    (g : Window) :
  get_bitcoin_all_sources w = Ret r ->
  report_field "bitcoin_prices" r = Some (PDict prices) ->
  existsb undrawable (dict_values prices) = false ->
  current_call g = Some "bitcoin_all" ->
  exists g' successful failed,
    display_all_bitcoin_prices e (content r) g = (g', Ret tt) /\
    report_field "successful_sources" r = Some successful /\
    report_field "failed_sources" r = Some failed /\
    statusLabel g'
    = "Updated: " ++ fstr e successful ++ " successful, " ++ fstr e failed
      ++ " failed sources" /\
    handle_api_response e (content r) g = (set_statusLabel "Ready" g', Ret tt).
Proof.
  intros H Hp Hdraw Hcall.
  destruct (aggregate_answer w r H) as [prices' [_ ->]].
  cbn [report_field content answer_200 aggregate_report dict_lookup
       String.eqb Ascii.eqb Bool.eqb] in Hp.
  injection Hp as ->.
  destruct (display_report e w prices g Hdraw) as [g' [Hd [_ [_ [_ [_ Hs]]]]]].
  exists g'. do 2 eexists. cbn [content answer_200].
  split; [exact Hd|].
  split; [reflexivity|]. split; [reflexivity|].
  split; [exact Hs|].
  unfold handle_api_response, gui_bind. rewrite Hcall.
  cbn [String.eqb Ascii.eqb Bool.eqb]. rewrite Hd. reflexivity.
Qed.

Lemma status_line_ends_ready_witness :
  exists g' successful failed,
    display_all_bitcoin_prices desk
      (content (answer_200 (aggregate_report calm
         (map (fun sc => (fst sc, PDict (source_record calm sc))) CRYPTO_APIS))))
      (blank_window "bitcoin_all") = (g', Ret tt) /\
    report_field "successful_sources"
      (answer_200 (aggregate_report calm
         (map (fun sc => (fst sc, PDict (source_record calm sc))) CRYPTO_APIS)))
    = Some successful /\
    report_field "failed_sources"
      (answer_200 (aggregate_report calm
         (map (fun sc => (fst sc, PDict (source_record calm sc))) CRYPTO_APIS)))
    = Some failed /\
    statusLabel g'
    = "Updated: " ++ fstr desk successful ++ " successful, " ++ fstr desk failed
      ++ " failed sources" /\
    handle_api_response desk
      (content (answer_200 (aggregate_report calm
         (map (fun sc => (fst sc, PDict (source_record calm sc))) CRYPTO_APIS))))
      (blank_window "bitcoin_all")
    = (set_statusLabel "Ready" g', Ret tt).
Proof.
  apply (status_line_ends_ready desk calm _
           (map (fun sc => (fst sc, PDict (source_record calm sc))) CRYPTO_APIS)
           (blank_window "bitcoin_all")).
  - vm_compute. reflexivity.
  - reflexivity.
  - vm_compute. reflexivity.
  - reflexivity.
Defined.

(** ** The order book, drawn *)

(** A best price is a float, or the integer 0 of an empty side. *)
Lemma best_price_shape (v r : pyval) :
  best_price v = Ret r -> (exists f, r = PFloat f) \/ r = PInt 0.
Proof.
  unfold best_price. destruct (truthy v); [|intros [= <-]; now right].
  destruct (getindex v 0) as [row|x]; [|discriminate]. cbn [py_bind].
  destruct (getindex row 0) as [p|x]; [|discriminate]. cbn [py_bind].
  destruct (py_float p) as [f|x]; [|discriminate]. cbn [py_bind].
  intros [= <-]. left. eauto.
Qed.

Lemma py_truediv_float (a b r : pyval) : py_truediv a b = Ret r -> exists f, r = PFloat f.
Proof.
  unfold py_truediv.
  destruct (as_number a) as [x|x]; [|discriminate]. cbn [py_bind].
  destruct (as_number b) as [y|y]; [|discriminate]. cbn [py_bind].
  destruct x, y;
    repeat match goal with
           | |- context [py_bind ?c _] => destruct c; [|discriminate]; cbn [py_bind]
           | |- context [if ?c then _ else _] => destruct c
           end;
    try discriminate; intros [= <-]; eauto.
Qed.

Lemma mid_price_float (bb ba m : pyval) (fl : float) :
  mid_price_of bb ba (PFloat fl) = Ret m -> exists f, m = PFloat f.
Proof.
  unfold mid_price_of. destruct (truthy bb && truthy ba).
  - destruct (py_add bb ba) as [s|x]; [|discriminate]. cbn [py_bind].
    apply py_truediv_float.
  - intros [= <-]. eauto.
Qed.

(** The spread of two best prices: a float, or the integer 0. *)
Lemma spread_shape (bb ba sp : pyval) :
  (exists f, bb = PFloat f) \/ bb = PInt 0 ->
  (exists f, ba = PFloat f) \/ ba = PInt 0 ->
  spread_of bb ba = Ret sp -> (exists f, sp = PFloat f) \/ sp = PInt 0.
Proof.
  intros [[fb ->]| ->] [[fa ->]| ->]; unfold spread_of; cbn [truthy Z.eqb negb andb];
    rewrite ?andb_false_r;
    try (intros [= <-]; now right).
  destruct (negb (Float64.is_zero fb) && negb (Float64.is_zero fa));
    intros [= <-]; [left; eauto | now right].
Qed.

Lemma shape_formatted (v : pyval) :
  (exists f, v = PFloat f) \/ v = PInt 0 -> exists f, float_value v = Ret f.
Proof. intros [[f ->]| ->]; eexists; reflexivity. Qed.

(** Every answer of GET /bitcoin/source/nobitex: its eight fields, the
    price, the two sides and the spread being numbers that can be
    formatted. *)
Lemma nobitex_answer_shape (w : Env) (r : reply) :
  outcome_of (get_bitcoin_from_source w "nobitex") = Ret (Some r) ->
  exists (mid bb ba sp lu : pyval) (fl : float),
    content r = PDict [("source", PStr "nobitex");
                       ("usd", mid);
                       ("last_trade_price", PFloat fl);
                       ("best_bid", bb);
                       ("best_ask", ba);
                       ("spread", sp);
                       ("last_update", lu);
                       ("timestamp", PStr (now w))] /\
    (exists f, float_value mid = Ret f) /\ (exists f, float_value bb = Ret f) /\
    (exists f, float_value ba = Ret f) /\ (exists f, float_value sp = Ret f).
Proof.
  rewrite nobitex_source_outcome.
  unfold nobitex_direct, requests_get. fold nobitex_url.
  destruct (requests_answer w nobitex_url 0) as [resp|e0];
    [rewrite io_bind_ret
    | cbn [io_bind outcome_of snd]; destruct (is_http_exception e0); intros [=]].
  cbn [outcome_of snd].
  repeat match goal with
         | |- context [io_bind (lift ?c) _] =>
             let E := fresh "E" in
             destruct c eqn:E;
             [rewrite io_bind_lift_ret; cbv beta
             | rewrite io_bind_lift_raise; cbn [outcome_of snd];
               match goal with
               | |- context [is_http_exception ?x] => destruct (is_http_exception x)
               end; intros [=]]
         | |- context [if eq_str ?a ?b then _ else _] =>
             destruct (eq_str a b);
             [|cbn [io_raise outcome_of snd is_http_exception]; intros [=]]
         end.
  unfold lift. cbn [outcome_of snd].
  destruct (JSONResponse _) as [a'|e] eqn:EJ;
    [|destruct (is_http_exception e); intros [=]].
  apply JSONResponse_status in EJ. subst a'. intros [= <-].
  do 6 eexists. split; [reflexivity|].
  match goal with
  | Hb : best_price _ = Ret ?bb, Ha : best_price _ = Ret ?ba,
    Hm : mid_price_of _ _ _ = Ret ?mid, Hs : spread_of _ _ = Ret ?sp |- _ =>
      pose proof (best_price_shape _ _ Hb) as Sb;
      pose proof (best_price_shape _ _ Ha) as Sa;
      pose proof (spread_shape bb ba sp Sb Sa Hs) as Ss;
      destruct (mid_price_float _ _ _ _ Hm) as [fm ->]
  end.
  repeat split; try (eexists; reflexivity); now apply shape_formatted.
Qed.

(** X22. Every answer of GET /bitcoin/source/nobitex is drawn by
    [display_single_bitcoin_price] without raising, in four rows: the
    price, the best bid, the best ask and the spread, each formatted as
    a dollar amount.  The timestamp is set on the row of the spread; the
    row of the price has none. *)
Theorem order_book_drawn_in_four_rows (e : GuiEnv) (w : Env) (r : reply) (g : Window) :
  outcome_of (get_bitcoin_from_source w "nobitex") = Ret (Some r) ->
  exists price bid ask spread fp fb fa fs,
    report_field "usd" r = Some price /\ float_value price = Ret fp /\
    report_field "best_bid" r = Some bid /\ float_value bid = Ret fb /\
    report_field "best_ask" r = Some ask /\ float_value ask = Ret fa /\
    report_field "spread" r = Some spread /\ float_value spread = Ret fs /\
    display_single_bitcoin_price e (content r) g
    = (set_priceTable
         [[Some (plain_item "Nobitex");
           Some (right_item ("$" ++ format_2f e fp));
           Some (coloured_item (check_mark ++ " Active") green);
           None];
          [Some (plain_item ("  " ++ arrow ++ " Best Bid"));
           Some (right_item ("$" ++ format_2f e fb)); None; None];
          [Some (plain_item ("  " ++ arrow ++ " Best Ask"));
           Some (right_item ("$" ++ format_2f e fa)); None; None];
          [Some (plain_item ("  " ++ arrow ++ " Spread"));
           Some (right_item ("$" ++ format_2f e fs)); None;
           Some (plain_item (now w))]] g,
       Ret tt).
Proof.
  intros H.
  destruct (nobitex_answer_shape w r H)
    as [mid [bb [ba [sp [lu [fl [Hc [[fp Hm] [[fb Hb] [[fa Ha] [fs Hs]]]]]]]]]]].
  exists mid, bb, ba, sp, fp, fb, fa, fs. unfold report_field. rewrite Hc.
  repeat (split; [first [reflexivity | assumption]|]).
  assert (Nm : is_number mid = true) by (destruct mid; try discriminate; reflexivity).
  unfold display_single_bitcoin_price, gui_bind, gui_lift, clear_rows, detail_row,
    rowCount, gui_ret, dollars.
  rewrite !get_dict.
  cbn [dict_get dict_lookup String.eqb Ascii.eqb Bool.eqb getitem py_bind].
  rewrite Nm, Hm, Hb, Ha, Hs.
  reflexivity.
Qed.

Lemma order_book_drawn_in_four_rows_witness :
  exists price bid ask spread fp fb fa fs,
    report_field "usd" calm_order_book = Some price /\ float_value price = Ret fp /\
    report_field "best_bid" calm_order_book = Some bid /\ float_value bid = Ret fb /\
    report_field "best_ask" calm_order_book = Some ask /\ float_value ask = Ret fa /\
    report_field "spread" calm_order_book = Some spread /\ float_value spread = Ret fs /\
    display_single_bitcoin_price desk (content calm_order_book)
      (blank_window "bitcoin_single")
    = (set_priceTable
         [[Some (plain_item "Nobitex");
           Some (right_item ("$" ++ format_2f desk fp));
           Some (coloured_item (check_mark ++ " Active") green);
           None];
          [Some (plain_item ("  " ++ arrow ++ " Best Bid"));
           Some (right_item ("$" ++ format_2f desk fb)); None; None];
          [Some (plain_item ("  " ++ arrow ++ " Best Ask"));
           Some (right_item ("$" ++ format_2f desk fa)); None; None];
          [Some (plain_item ("  " ++ arrow ++ " Spread"));
           Some (right_item ("$" ++ format_2f desk fs)); None;
           Some (plain_item (now calm))]] (blank_window "bitcoin_single"),
       Ret tt).
Proof.
  apply (order_book_drawn_in_four_rows desk calm calm_order_book
           (blank_window "bitcoin_single")).
  vm_compute. reflexivity.
Defined.

(** ** A single source, drawn *)

(** The answers of the retried path of GET /bitcoin/source are made of a
    record, the source and the timestamp. *)
Lemma source_answer_content (w : Env) (s : string) (r : reply) :
  s <> "nobitex" ->
  outcome_of (get_bitcoin_from_source w s) = Ret (Some r) ->
  In s registered /\ exists d, r = answer_200 (source_content w s d).
Proof.
  intros Hn.
  destruct (registry_lookup s CRYPTO_APIS) as [c|] eqn:Hreg.
  2:{ unfold get_bitcoin_from_source. rewrite Hreg. discriminate. }
  pose proof (registry_lookup_registered s c Hreg) as Hin.
  assert (Hloop : (s = "coinmarketcap" -> no_api_key w = false) ->
            outcome_of (get_bitcoin_from_source w s) = Ret (Some r) ->
            In s registered /\ exists d, r = answer_200 (source_content w s d)).
  { intros Hk. rewrite (get_bitcoin_from_source_loop w s c Hreg Hn Hk).
    pose proof (source_loop_outcomes w s c (request_headers w s)
                  (request_params "USD,EUR,GBP" s)) as L.
    unfold outcome_of in *.
    destruct (for_attempts _ _) as [t [[r'|]|e]]; cbn [io_try snd] in *.
    - intros [= <-]. now split.
    - contradiction.
    - destruct (is_http_exception e); discriminate. }
  destruct (String.eqb_spec s "coinmarketcap") as [->|Hc].
  - destruct (no_api_key w) eqn:Hk; [|now apply Hloop].
    unfold get_bitcoin_from_source, prepare. rewrite Hreg.
    cbn [String.eqb Ascii.eqb Bool.eqb]. rewrite Hk. discriminate.
  - apply Hloop. intros E. contradiction.
Qed.

Lemma registered_lower (s : string) :
  In s registered -> s <> "nobitex" -> (lower_str s =? "nobitex")%string = false.
Proof.
  intros Hin Hn. cbn in Hin.
  repeat (destruct Hin as [<-|Hin]; [try reflexivity; now contradiction Hn|]).
  contradiction.
Qed.

(** The table [display_single_bitcoin_price] draws from the content made
    of a record: by the price, which is ["usd"], or ["last_trade_price"]
    in its absence. *)
Lemma display_record (e : GuiEnv) (w : Env) (s : string) (d : dict) (g : Window) :
  (lower_str s =? "nobitex")%string = false ->
  let price := dict_get d "usd" (dict_get d "last_trade_price" (PStr "N/A")) in
  display_single_bitcoin_price e (source_content w s d) g
  = match float_value price with
    | Ret f =>
        (set_priceTable
           [[Some (plain_item (title s));
             Some (right_item ("$" ++ format_2f e f));
             Some (coloured_item (check_mark ++ " Active") green);
             Some (plain_item (now w))]] g,
         Ret tt)
    | Raise OverflowError =>
        (set_priceTable [[Some (plain_item (title s)); None; None; None]] g,
         Raise OverflowError)
    | Raise _ =>
        (set_priceTable
           [[Some (plain_item (title s));
             Some (plain_item "N/A");
             Some (coloured_item (cross_mark ++ " Error") red);
             Some (plain_item (now w))]] g,
         Ret tt)
    end.
Proof.
  intros Hl price.
  assert (Hs : dict_lookup "source"
                 (dict_set "timestamp" (PStr (now w)) (dict_set "source" (PStr s) d))
               = Some (PStr s)).
  { rewrite dict_lookup_set_other by discriminate. apply dict_lookup_set_same. }
  assert (Ht : dict_lookup "timestamp"
                 (dict_set "timestamp" (PStr (now w)) (dict_set "source" (PStr s) d))
               = Some (PStr (now w))) by apply dict_lookup_set_same.
  assert (Hu : dict_lookup "usd"
                 (dict_set "timestamp" (PStr (now w)) (dict_set "source" (PStr s) d))
               = dict_lookup "usd" d).
  { now rewrite !dict_lookup_set_other by discriminate. }
  assert (Hp : dict_lookup "last_trade_price"
                 (dict_set "timestamp" (PStr (now w)) (dict_set "source" (PStr s) d))
               = dict_lookup "last_trade_price" d).
  { now rewrite !dict_lookup_set_other by discriminate. }
  subst price.
  unfold display_single_bitcoin_price, source_content, gui_bind, gui_lift, clear_rows.
  rewrite !get_dict. unfold dict_get. rewrite Hs.
  cbn [insertRow py_title setItem priceTable set_priceTable nth_error replace_nth app].
  rewrite ?Ht, ?Hu, ?Hp.
  set (price := match dict_lookup "usd" d with
                | Some v => v
                | None => match dict_lookup "last_trade_price" d with
                          | Some v => v
                          | None => PStr "N/A"
                          end
                end).
  unfold dollars.
  destruct price as [|b|z|f|p|l|d']; cbn [is_number float_value py_bind];
    try reflexivity;
    try (cbn [setItem priceTable set_priceTable nth_error replace_nth py_lower];
         rewrite Hl; reflexivity).
  destruct (float_of_int z) as [f|x] eqn:E; cbn [py_bind].
  - cbn [setItem priceTable set_priceTable nth_error replace_nth py_lower].
    rewrite Hl. reflexivity.
  - rewrite (float_of_int_raises z x E). reflexivity.
Qed.

(** X23. Every answer of GET /bitcoin/source/{source}, for a source other
    than nobitex, is drawn by [display_single_bitcoin_price] in one row,
    named by the source in title case, according to its price (["usd"],
    or ["last_trade_price"] in its absence).  A price that can be
    formatted is shown as a dollar amount and marked active in green; a
    price that is no number is shown as "N/A" and marked as an error in
    red; in both cases the row carries the timestamp of the answer and
    the handler returns.  An integer price beyond the range of a float
    makes the handler raise [OverflowError], the row holding the name
    alone. *)
Theorem source_answer_drawn_in_one_row (e : GuiEnv) (w : Env) (source : string)
    (r : reply) (g : Window) :
  source <> "nobitex" ->
  outcome_of (get_bitcoin_from_source w source) = Ret (Some r) ->
  let price :=
    match report_field "usd" r with
    | Some v => v
    | None => match report_field "last_trade_price" r with
              | Some v => v
              | None => PStr "N/A"
              end
    end in
  display_single_bitcoin_price e (content r) g
  = match float_value price with
    | Ret f =>
        (set_priceTable
           [[Some (plain_item (title source));
             Some (right_item ("$" ++ format_2f e f));
             Some (coloured_item (check_mark ++ " Active") green);
             Some (plain_item (now w))]] g,
         Ret tt)
    | Raise OverflowError =>
        (set_priceTable [[Some (plain_item (title source)); None; None; None]] g,
         Raise OverflowError)
    | Raise _ =>
        (set_priceTable
           [[Some (plain_item (title source));
             Some (plain_item "N/A");
             Some (coloured_item (cross_mark ++ " Error") red);
             Some (plain_item (now w))]] g,
         Ret tt)
    end.
Proof.
  intros Hn H.
  destruct (source_answer_content w source r Hn H) as [Hin [d ->]].
  cbn [content answer_200]. unfold report_field, source_content.
  cbn [content answer_200].
  rewrite !dict_lookup_set_other by discriminate.
  apply (display_record e w source d g).
  now apply registered_lower.
Qed.

Lemma source_answer_drawn_in_one_row_witness :
  display_single_bitcoin_price desk (content huge_answer) (blank_window "bitcoin_single")
  = (set_priceTable [[Some (plain_item "Blockchain"); None; None; None]]
       (blank_window "bitcoin_single"),
     Raise OverflowError).
Proof.
  apply (source_answer_drawn_in_one_row desk huge_quote "blockchain" huge_answer
           (blank_window "bitcoin_single")).
  - discriminate.
  - vm_compute. reflexivity.
Defined.

(** X24. When [parse_crypto_response] fails on the payload of a
    registered source other than nobitex, the content the endpoint makes
    of its record is drawn as "N/A" and an error in red: the message of
    the record is shown nowhere in the table. *)
Theorem parse_failure_drawn_without_message (e : GuiEnv) (w : Env) (source : string)
    (data : pyval) (err : dict) (g : Window) :
  In source registered ->
  source <> "nobitex" ->
  parse_crypto_response w source data = Ret err ->
  dict_has "error" err = true ->
  display_single_bitcoin_price e (source_content w source err) g
  = (set_priceTable
       [[Some (plain_item (title source));
         Some (plain_item "N/A");
         Some (coloured_item (cross_mark ++ " Error") red);
         Some (plain_item (now w))]] g,
     Ret tt).
Proof.
  intros Hin Hn Hp He.
  destruct (parse_error_shape w source data err Hp He) as [msg ->].
  rewrite (display_record e w source (error_record msg) g (registered_lower source Hin Hn)).
  reflexivity.
Qed.

Lemma parse_failure_drawn_without_message_witness :
  display_single_bitcoin_price desk
    (source_content calm "kraken" (error_record "Unexpected Kraken response format"))
    (blank_window "bitcoin_single")
  = (set_priceTable
       [[Some (plain_item (title "kraken"));
         Some (plain_item "N/A");
         Some (coloured_item (cross_mark ++ " Error") red);
         Some (plain_item (now calm))]] (blank_window "bitcoin_single"),
     Ret tt).
Proof.
  apply (parse_failure_drawn_without_message desk calm "kraken" kraken_without_pair
           (error_record "Unexpected Kraken response format")
           (blank_window "bitcoin_single")).
  - simpl. tauto.
  - discriminate.
  - vm_compute. reflexivity.
  - reflexivity.
Defined.

(** ** The weather, displayed *)

Ltac bind_ret :=
  repeat match goal with
         | |- py_bind ?c _ = Ret _ -> _ =>
             let E := fresh "E" in
             destruct c eqn:E; [cbn [py_bind] | discriminate]
         end.

Lemma wttr_info_shape (w : WeatherEnv) (city : string) (data info : pyval) :
  wttr_info w city data = Ret info ->
  exists (temp feels : float) (description : pyval) (humidity speed : string) ,
    info = PDict
      [("source", PStr "wttr.in (no API key required)");
       ("city", PStr city);
       ("temperature",
        PDict [("current", PFloat temp); ("feels_like", PFloat feels);
               ("unit", PStr (degrees "C"))]);
       ("weather", PDict [("description", description)]);
       ("humidity", PStr humidity);
       ("wind", PDict [("speed", PStr speed)])].
Proof.
  unfold wttr_info. bind_ret. intros [= <-].
  do 5 eexists. reflexivity.
Qed.

Lemma weatherapi_info_shape (w : WeatherEnv) (data info : pyval) :
  weatherapi_info w data = Ret info ->
  exists (name country temp feels description icon direction uv updated : pyval)
         (humidity pressure speed visibility : string),
    info = PDict
      [("source", PStr "WeatherAPI.com");
       ("city", name);
       ("country", country);
       ("temperature",
        PDict [("current", temp); ("feels_like", feels);
               ("unit", PStr (degrees "C"))]);
       ("humidity", PStr humidity);
       ("pressure", PStr pressure);
       ("weather", PDict [("description", description); ("icon", icon)]);
       ("wind", PDict [("speed", PStr speed); ("direction", direction)]);
       ("uv_index", uv);
       ("visibility", PStr visibility);
       ("last_updated", updated);
       ("timestamp", PStr (now (net w)))].
Proof.
  unfold weatherapi_info. bind_ret. intros [= <-].
  do 13 eexists. reflexivity.
Qed.

(** What GET /weather/v2/{city} returns was made by [wttr_info] or by
    [weatherapi_info]. *)
Lemma weather_v2_answer (w : WeatherEnv) (city : string) (res : handler_result) :
  outcome_of (get_weather_v2 w city) = Ret res ->
  exists data,
    wttr_info w city data = Ret (shown res) \/ weatherapi_info w data = Ret (shown res).
Proof.
  unfold get_weather_v2, wttr_fallback, requests_get, outcome_of.
  destruct (key_missing (WEATHERAPI_KEY w)).
  - destruct (requests_answer (net w) (wttr_url city) 0) as [resp|x];
      [|cbn; discriminate].
    cbn [io_bind io_try fst snd app].
    destruct (status_code resp =? 200); [|cbn; discriminate].
    unfold lift. cbn [io_bind fst snd app].
    destruct (json resp) as [data|x]; [|cbn; discriminate].
    cbn [io_bind fst snd app].
    destruct (wttr_info w city data) as [info|x] eqn:E; [|cbn; discriminate].
    cbn. intros [= <-]. exists data. now left.
  - destruct (requests_answer (net w) WEATHERAPI_BASE_URL 0) as [resp|x];
      [|cbn; discriminate].
    cbn [io_bind io_try fst snd app]. unfold lift.
    destruct (requests_raise_for_status resp); [|cbn; discriminate].
    cbn [io_bind fst snd app].
    destruct (json resp) as [data|x]; [|cbn; discriminate].
    cbn [io_bind fst snd app].
    destruct (weatherapi_info w data) as [info|x] eqn:E; [|cbn; discriminate].
    cbn [io_bind fst snd app].
    destruct (JSONResponse info) as [r|x] eqn:EJ; [|cbn; discriminate].
    apply JSONResponse_status in EJ. subst r.
    cbn. intros [= <-]. exists data. now right.
Qed.

(** X25. Whatever GET /weather/v2/{city} returns, [display_weather] shows
    it without the warning of a missing key: the temperature is labelled
    in degrees Celsius, and the handler ends normally when the description
    of the provider is a string; when it is not, setting the label of the
    description raises TypeError and the labels after it keep what they
    showed. *)
Theorem weather_answer_shown_without_warning (e : GuiEnv) (w : WeatherEnv)
    (city : string) (res : handler_result) (g : Window) :
  outcome_of (get_weather_v2 w city) = Ret res ->
  exists temp description,
    path (shown res) ["temperature"; "current"] = Ret temp /\
    path (shown res) ["weather"; "description"] = Ret description /\
    boxes (fst (display_weather e (shown res) g)) = boxes g /\
    tempLabel (fst (display_weather e (shown res) g)) = fstr e temp ++ degrees "C" /\
    match description with
    | PStr s =>
        snd (display_weather e (shown res) g) = Ret tt /\
        descLabel (fst (display_weather e (shown res) g)) = s
    | _ =>
        snd (display_weather e (shown res) g) = Raise TypeError /\
        descLabel (fst (display_weather e (shown res) g)) = descLabel g /\
        humidityLabel (fst (display_weather e (shown res) g)) = humidityLabel g /\
        windLabel (fst (display_weather e (shown res) g)) = windLabel g /\
        statusLabel (fst (display_weather e (shown res) g)) = statusLabel g
    end.
Proof.
  intros H. destruct (weather_v2_answer w city res H) as [data [Hi|Hi]].
  - destruct (wttr_info_shape w city data _ Hi)
      as [temp [feels [description [humidity [speed ->]]]]].
    exists (PFloat temp), description.
    split; [reflexivity|]. split; [reflexivity|].
    destruct description; repeat split.
  - destruct (weatherapi_info_shape w data _ Hi)
      as [name [country [temp [feels [description [icon [direction [uv [updated
         [humidity [pressure [speed [visibility ->]]]]]]]]]]]]].
    exists temp, description.
    split; [reflexivity|]. split; [reflexivity|].
    destruct description; repeat split.
Qed.

Lemma weather_answer_shown_without_warning_witness :
  exists temp description,
    path (shown london_weather) ["temperature"; "current"] = Ret temp /\
    path (shown london_weather) ["weather"; "description"] = Ret description /\
    boxes (fst (display_weather desk (shown london_weather) (blank_window "weather")))
    = boxes (blank_window "weather") /\
    tempLabel (fst (display_weather desk (shown london_weather) (blank_window "weather")))
    = fstr desk temp ++ degrees "C" /\
    match description with
    | PStr s =>
        snd (display_weather desk (shown london_weather) (blank_window "weather")) = Ret tt /\
        descLabel (fst (display_weather desk (shown london_weather) (blank_window "weather")))
        = s
    | _ =>
        snd (display_weather desk (shown london_weather) (blank_window "weather"))
        = Raise TypeError /\
        descLabel (fst (display_weather desk (shown london_weather) (blank_window "weather")))
        = descLabel (blank_window "weather") /\
        humidityLabel (fst (display_weather desk (shown london_weather)
                              (blank_window "weather")))
        = humidityLabel (blank_window "weather") /\
        windLabel (fst (display_weather desk (shown london_weather) (blank_window "weather")))
        = windLabel (blank_window "weather") /\
        statusLabel (fst (display_weather desk (shown london_weather)
                            (blank_window "weather")))
        = statusLabel (blank_window "weather")
    end.
Proof.
  apply (weather_answer_shown_without_warning desk rainy_london "London" london_weather
           (blank_window "weather")).
  vm_compute. reflexivity.
Defined.

(** ** The worker and its two signals *)

(** X26. [ApiWorker.run] hands [handle_api_response] nothing but a
    dictionary, decoded from a response whose status is not one of
    400..599; in every other case the signal is [error_occurred]. *)
Theorem worker_hands_over_dicts_only (e : GuiEnv) (answer : py response) (d : pyval) :
  run e answer = data_received d ->
  is_dict d = true /\
  exists resp,
    answer = Ret resp /\ json resp = Ret d /\
    (400 <=? status_code resp) && (status_code resp <? 600) = false.
Proof.
  unfold run, requests_raise_for_status, emit_data.
  destruct answer as [resp|x]; cbn [py_bind].
  2:{ destruct (is_request_exception x); discriminate. }
  destruct ((400 <=? status_code resp) && (status_code resp <? 600)) eqn:Hs;
    cbn [py_bind is_request_exception]; [discriminate|].
  destruct (json resp) as [data|x] eqn:Hj; cbn [py_bind].
  2:{ destruct (is_request_exception x); discriminate. }
  destruct (is_dict data) eqn:Hd.
  - intros [= <-]. split; [exact Hd|]. exists resp. repeat split; assumption.
  - cbn [is_request_exception]. discriminate.
Qed.

Lemma worker_hands_over_dicts_only_witness :
  is_dict coinbase_payload = true /\
  exists resp,
    answer 200 coinbase_payload = Ret resp /\ json resp = Ret coinbase_payload /\
    (400 <=? status_code resp) && (status_code resp <? 600) = false.
Proof.
  apply (worker_hands_over_dicts_only desk (answer 200 coinbase_payload) coinbase_payload).
  reflexivity.
Defined.

(** X27. A response of a status in 400..599, as the server answers for
    an HTTPException, is never drawn, whatever its body: the window shows
    one critical box with the text of the HTTPError, the status line
    reads "Error occurred", and the price table and the labels keep what
    they showed. *)
Theorem error_status_reported_not_drawn (e : GuiEnv) (resp : response) (g : Window) :
  400 <= status_code resp < 600 ->
  deliver e (run e (Ret resp)) g
  = (set_statusLabel "Error occurred"
       (add_box ("critical", "Error",
                 "API Error: " ++ gui_str_exn e (RequestsHTTPError (status_code resp))) g),
     Ret tt).
Proof.
  intros [H1 H2]. unfold run, requests_raise_for_status. cbn [py_bind].
  apply Z.leb_le in H1. apply Z.ltb_lt in H2. rewrite H1, H2.
  reflexivity.
Qed.

Lemma error_status_reported_not_drawn_witness :
  deliver desk (run desk (answer 503 coinbase_payload)) (blank_window "bitcoin_single")
  = (set_statusLabel "Error occurred"
       (add_box ("critical", "Error",
                 "API Error: " ++ gui_str_exn desk (RequestsHTTPError 503))
          (blank_window "bitcoin_single")),
     Ret tt).
Proof.
  apply (error_status_reported_not_drawn desk
           {| status_code := 503; json := Ret coinbase_payload |}
           (blank_window "bitcoin_single")).
  simpl. lia.
Defined.
